(** * add_to_channel: the three Telegram batch scripts, embedded and verified

    Source files:
    - [add_patients_to_channel.py]  (module [AddPatients])
    - [safe_dm_invite.py]           (module [SafeDM])
    - [invite_users_to_channel.py]  (module [InviteUsers])

    Each script is a sequential loop over work items read from a CSV file.
    The embedding makes the outside world explicit: what the Telegram client,
    the clock and the random generator answer is given per loop iteration by
    an oracle, and a run yields the ordered trace of its effects (remote
    requests, rows appended to the result CSV, sleeps).

    A Python string is a sequence of Unicode code points, and the character
    classes ([str.isspace], the pattern [\d], [str.isdigit]) are those of
    Unicode 14.0, which CPython 3.11 ships.

    What the embedding takes for granted: opening, decoding and appending to
    a file and sleeping do not fail; the interpreter's limit on the number
    of digits that [int] and [str] convert (4300 by default) is not reached;
    an exception is an instance of [Exception] (no interrupt, no
    cancellation). Printing is left out. *)

From Stdlib Require Import ZArith NArith QArith Bool Lia.
From Stdlib Require Import DecimalPos.
From Stdlib.Strings Require Byte.
From stdpp Require Import base option list gmap.

Local Open Scope Z_scope.

(** ** Python strings *)

(** A character is a code point. *)
Definition char := N.

Inductive string :=
| EmptyString
| String (c : char) (s : string).

(** [a + b] *)
Fixpoint append (a b : string) : string :=
  match a with
  | EmptyString => b
  | String c a' => String c (append a' b)
  end.

Infix "+:+" := append (at level 60, right associativity).

(** The code points of a string, and back. *)
Fixpoint codes (s : string) : list char :=
  match s with
  | EmptyString => []
  | String c s' => c :: codes s'
  end.

Fixpoint of_codes (l : list char) : string :=
  match l with
  | [] => EmptyString
  | c :: l' => String c (of_codes l')
  end.

(** Literals: ["..."] is the string of the given ASCII characters, and
    ["c"] the code point of one ASCII character. *)
Definition char_of_bytes (bs : list Byte.byte) : option N :=
  match bs with
  | [b] => if (Byte.to_N b <? 128)%N then Some (Byte.to_N b) else None
  | _ => None
  end.

Definition bytes_of_char (c : N) : option (list Byte.byte) :=
  if (c <? 128)%N then option_map (fun b => [b]) (Byte.of_N c) else None.

Definition string_of_bytes (bs : list Byte.byte) : option string :=
  if forallb (fun b => Byte.to_N b <? 128)%N bs
  then Some (of_codes (map Byte.to_N bs))
  else None.

Fixpoint bytes_of_string (s : string) : option (list Byte.byte) :=
  match s with
  | EmptyString => Some []
  | String c s' =>
      match bytes_of_char c, bytes_of_string s' with
      | Some [b], Some bs => Some (b :: bs)
      | _, _ => None
      end
  end.

Declare Scope chr_scope.
Delimit Scope chr_scope with chr.
Bind Scope chr_scope with char.
String Notation N char_of_bytes bytes_of_char : chr_scope.

Declare Scope str_scope.
Delimit Scope str_scope with str.
Bind Scope str_scope with string.
String Notation string string_of_bytes bytes_of_string : str_scope.
Open Scope str_scope.

#[global] Instance string_eq_dec : EqDecision string.
Proof. solve_decision. Defined.

Fixpoint of_codes_codes (s : string) : of_codes (codes s) = s :=
  match s with
  | EmptyString => eq_refl
  | String c s' => f_equal (String c) (of_codes_codes s')
  end.

#[global] Instance string_countable : Countable string :=
  inj_countable' codes of_codes of_codes_codes.

(** ** Python [str] operations *)

Module Py.

(** [len(s)] and [s.startswith(p)] *)
Fixpoint len (s : string) : nat :=
  match s with
  | EmptyString => O
  | String _ s' => S (len s')
  end.

Fixpoint startswith (p s : string) : bool :=
  match p, s with
  | EmptyString, _ => true
  | String a p', String b s' => (a =? b)%N && startswith p' s'
  | String _ _, EmptyString => false
  end.

(** A character class is given by the ranges of code points it is made of,
    both ends included. *)
Definition in_ranges (c : char) (l : list (N * N)) : bool :=
  existsb (fun r => (fst r <=? c) && (c <=? snd r))%N l.

(** The characters for which [str.isspace] holds; [str.strip] and
    [str.split] drop them. *)
Definition whitespace : list (N * N) :=
  [(9, 13); (28, 32); (133, 133); (160, 160); (5760, 5760); (8192, 8202);
   (8232, 8233); (8239, 8239); (8287, 8287); (12288, 12288)]%N.

Definition isspace (c : char) : bool := in_ranges c whitespace.

(** The decimal digits (category Nd), which the pattern [\d] matches and
    [int] reads: runs of ten, or of fifty for the mathematical digits, in
    which the value of a digit is its position modulo ten. *)
Definition decimal_digits : list (N * N) :=
  [(48, 57); (1632, 1641); (1776, 1785); (1984, 1993); (2406, 2415);
   (2534, 2543); (2662, 2671); (2790, 2799); (2918, 2927); (3046, 3055);
   (3174, 3183); (3302, 3311); (3430, 3439); (3558, 3567); (3664, 3673);
   (3792, 3801); (3872, 3881); (4160, 4169); (4240, 4249); (6112, 6121);
   (6160, 6169); (6470, 6479); (6608, 6617); (6784, 6793); (6800, 6809);
   (6992, 7001); (7088, 7097); (7232, 7241); (7248, 7257); (42528, 42537);
   (43216, 43225); (43264, 43273); (43472, 43481); (43504, 43513);
   (43600, 43609); (44016, 44025); (65296, 65305); (66720, 66729);
   (68912, 68921); (69734, 69743); (69872, 69881); (69942, 69951);
   (70096, 70105); (70384, 70393); (70736, 70745); (70864, 70873);
   (71248, 71257); (71360, 71369); (71472, 71481); (71904, 71913);
   (72016, 72025); (72784, 72793); (73040, 73049); (73120, 73129);
   (92768, 92777); (92864, 92873); (93008, 93017); (120782, 120831);
   (123200, 123209); (123632, 123641); (125264, 125273); (130032, 130041)]%N.

(** The regular-expression class [\d]. *)
Definition isdigit (c : char) : bool := in_ranges c decimal_digits.

Definition digit_value (c : char) : Z :=
  match List.find (fun r => (fst r <=? c) && (c <=? snd r))%N decimal_digits with
  | Some r => Z.of_N ((c - fst r) mod 10)
  | None => 0
  end.

(** The characters for which [str.isdigit] holds: the decimal digits and
    the other characters with a digit value, such as the superscripts. *)
Definition digit_characters : list (N * N) :=
  [(48, 57); (178, 179); (185, 185); (1632, 1641); (1776, 1785);
   (1984, 1993); (2406, 2415); (2534, 2543); (2662, 2671); (2790, 2799);
   (2918, 2927); (3046, 3055); (3174, 3183); (3302, 3311); (3430, 3439);
   (3558, 3567); (3664, 3673); (3792, 3801); (3872, 3881); (4160, 4169);
   (4240, 4249); (4969, 4977); (6112, 6121); (6160, 6169); (6470, 6479);
   (6608, 6618); (6784, 6793); (6800, 6809); (6992, 7001); (7088, 7097);
   (7232, 7241); (7248, 7257); (8304, 8304); (8308, 8313); (8320, 8329);
   (9312, 9320); (9332, 9340); (9352, 9360); (9450, 9450); (9461, 9469);
   (9471, 9471); (10102, 10110); (10112, 10120); (10122, 10130);
   (42528, 42537); (43216, 43225); (43264, 43273); (43472, 43481);
   (43504, 43513); (43600, 43609); (44016, 44025); (65296, 65305);
   (66720, 66729); (68160, 68163); (68912, 68921); (69216, 69224);
   (69714, 69722); (69734, 69743); (69872, 69881); (69942, 69951);
   (70096, 70105); (70384, 70393); (70736, 70745); (70864, 70873);
   (71248, 71257); (71360, 71369); (71472, 71481); (71904, 71913);
   (72016, 72025); (72784, 72793); (73040, 73049); (73120, 73129);
   (92768, 92777); (92864, 92873); (93008, 93017); (120782, 120831);
   (123200, 123209); (123632, 123641); (125264, 125273); (127232, 127242);
   (130032, 130041)]%N.

Definition isdigit_char (c : char) : bool := in_ranges c digit_characters.

Fixpoint lstrip_with (f : char -> bool) (s : string) : string :=
  match s with
  | EmptyString => EmptyString
  | String c s' => if f c then lstrip_with f s' else s
  end.

Fixpoint rstrip_with (f : char -> bool) (s : string) : string :=
  match s with
  | EmptyString => EmptyString
  | String c s' =>
      match rstrip_with f s' with
      | EmptyString => if f c then EmptyString else String c EmptyString
      | r => String c r
      end
  end.

(** [s.strip()] *)
Definition strip (s : string) : string :=
  rstrip_with isspace (lstrip_with isspace s).

(** [s.lstrip(c)] and [s.rstrip(c)] for a one-character argument. *)
Definition lstrip_char (c : char) (s : string) : string :=
  lstrip_with (N.eqb c) s.
Definition rstrip_char (c : char) (s : string) : string :=
  rstrip_with (N.eqb c) s.

(** [s.replace(old, new)] for a non-empty [old]: occurrences are taken from
    left to right and do not overlap; [skip] counts the characters of a
    matched occurrence still to be dropped. *)
Fixpoint replace_from (old new : string) (skip : nat) (s : string) : string :=
  match s with
  | EmptyString => EmptyString
  | String c s' =>
      match skip with
      | S k => replace_from old new k s'
      | O =>
          if startswith old s
          then new +:+ replace_from old new (len old - 1) s'
          else String c (replace_from old new 0 s')
      end
  end.
Definition replace (old new s : string) : string := replace_from old new 0 s.

(** [re.sub(r'[^\d]', '', s)] *)
Fixpoint sub_non_digits (s : string) : string :=
  match s with
  | EmptyString => EmptyString
  | String c s' =>
      if isdigit c then String c (sub_non_digits s') else sub_non_digits s'
  end.

(** [s[n:]] and [s[:n]] *)
Fixpoint slice_from (n : nat) (s : string) : string :=
  match n, s with
  | S k, String _ s' => slice_from k s'
  | _, _ => s
  end.
Fixpoint slice_to (n : nat) (s : string) : string :=
  match n, s with
  | S k, String c s' => String c (slice_to k s')
  | _, _ => EmptyString
  end.

(** Truth value of a string: [if s:] *)
Definition truthy (s : string) : bool :=
  match s with EmptyString => false | _ => true end.

(** Every character of [s] satisfies [f]. *)
Fixpoint all_chars (f : char -> bool) (s : string) : bool :=
  match s with
  | EmptyString => true
  | String c s' => f c && all_chars f s'
  end.

(** [s.split()]: the maximal runs of non-whitespace characters. *)
Fixpoint split (s : string) : list string :=
  match s with
  | EmptyString => []
  | String c s' =>
      if isspace c then split s'
      else
        match s' with
        | EmptyString => [String c EmptyString]
        | String c' _ =>
            if isspace c' then String c EmptyString :: split s'
            else
              match split s' with
              | w :: ws => String c w :: ws
              | [] => [String c EmptyString]
              end
        end
  end.

(** [s.split(sep)] for a one-character separator. *)
Fixpoint split_char (sep : char) (s : string) : list string :=
  match s with
  | EmptyString => [EmptyString]
  | String c s' =>
      if (c =? sep)%N then EmptyString :: split_char sep s'
      else
        match split_char sep s' with
        | w :: ws => String c w :: ws
        | [] => [String c EmptyString]
        end
  end.

(** [sep.join(l)] *)
Fixpoint join (sep : string) (l : list string) : string :=
  match l with
  | [] => EmptyString
  | [x] => x
  | x :: l' => x +:+ sep +:+ join sep l'
  end.

(** [str(n)] for an [int]: the decimal digits, after a ['-'] for a negative
    number. *)
Fixpoint digits (d : Decimal.uint) : string :=
  match d with
  | Decimal.Nil => EmptyString
  | Decimal.D0 d' => String "0" (digits d')
  | Decimal.D1 d' => String "1" (digits d')
  | Decimal.D2 d' => String "2" (digits d')
  | Decimal.D3 d' => String "3" (digits d')
  | Decimal.D4 d' => String "4" (digits d')
  | Decimal.D5 d' => String "5" (digits d')
  | Decimal.D6 d' => String "6" (digits d')
  | Decimal.D7 d' => String "7" (digits d')
  | Decimal.D8 d' => String "8" (digits d')
  | Decimal.D9 d' => String "9" (digits d')
  end.

Definition str (n : Z) : string :=
  match Z.to_int n with
  | Decimal.Pos d => digits d
  | Decimal.Neg d => String "-" (digits d)
  end.

(** [int(s)] in base ten, [None] standing for [ValueError]. Whitespace
    around the number is dropped: the ASCII whitespace and, beyond U+007E,
    what [str.isspace] accepts (U+001C to U+001F are not dropped). One sign
    is allowed, the digits are decimal digits of any script, and single
    underscores may separate them. *)
Definition int_space (c : char) : bool :=
  if (c <? 127)%N then ((9 <=? c) && (c <=? 13) || (c =? 32))%N else isspace c.

Fixpoint int_digits (acc : Z) (after_digit : bool) (s : string) : option Z :=
  match s with
  | EmptyString => if after_digit then Some acc else None
  | String c s' =>
      if isdigit c then int_digits (10 * acc + digit_value c) true s'
      else if (c =? "_"%chr)%N && after_digit then int_digits acc false s'
      else None
  end.

Definition int (s : string) : option Z :=
  match rstrip_with int_space (lstrip_with int_space s) with
  | EmptyString => None
  | String c r =>
      if (c =? "+"%chr)%N then int_digits 0 false r
      else if (c =? "-"%chr)%N then Z.opp <$> int_digits 0 false r
      else int_digits 0 false (String c r)
  end.

(** [s.isdigit()] *)
Definition str_isdigit (s : string) : bool := truthy s && all_chars isdigit_char s.

(** [random.randint(a, b)] for [a <= b]; [raw] is the generator's draw. *)
Definition randint (a b raw : Z) : Z := a + raw mod (b - a + 1).

(** [random.choice(seq)]; [raw] is the generator's draw, and [None] stands
    for the [IndexError] an empty sequence gives. *)
Definition choice {A} (seq : list A) (raw : Z) : option A :=
  seq !! Z.to_nat (raw mod Z.of_nat (length seq)).

End Py.

(** ** Exceptions, remote requests and traces *)

(** The exception classes the scripts name in their handlers, the built-in
    ones they can meet, and [OtherError] for any other subclass of
    [Exception]. None of the named classes derives from another one. *)
Inductive error_class :=
| UserPrivacyRestrictedError
| FloodWaitError (seconds : Z)
| UserNotMutualContactError
| UserChannelsTooMuchError
| UserKickedError
| InputUserDeactivatedError
| PeerFloodError
| UserAlreadyParticipantError
| UserNotParticipantError
| UsernameNotOccupiedError
| UserIsBlockedError
| ValueError
| TypeError
| AttributeError
| IndexError
| FileNotFoundError
| OtherError.

(** An exception object: its class and [str(e)]. *)
Record exn := Exn { class : error_class; message : string }.

Inductive result (A : Type) :=
| Ok (a : A)
| Raise (e : exn).
Arguments Ok {A} a.
Arguments Raise {A} e.

(** A resolved Telegram entity, identified by its id; every entity object is
    truthy. *)
Definition entity := Z.

(** [result] is the error monad of the embedding. *)
#[global] Instance result_ret : MRet result := fun _ a => Ok a.
#[global] Instance result_bind : MBind result :=
  fun _ _ f r => match r with Ok a => f a | Raise e => Raise e end.
#[global] Instance result_fmap : FMap result :=
  fun _ _ f r => match r with Ok a => Ok (f a) | Raise e => Raise e end.

(** A dict from column names to strings: a row of a CSV file as
    [csv.DictWriter] writes it, and a row read from a result log. In a row
    read from a log, a column for which the line has no field is left out
    of the dict: the scripts only test the truth value of what [get]
    returns there, and [None] is as false as the default. *)
Abbreviation row := (gmap string string).

(** [row.get(k, default)] *)
Definition get (r : row) (k default : string) : string :=
  match r !! k with Some v => v | None => default end.

(** A dict literal. *)
Definition dict (l : list (string * string)) : row := list_to_map l.
Global Arguments dict : simpl never.

(** A row of an input file as [csv.DictReader] yields it: a dict from the
    column names of the header to the fields of the line, with [None] under
    the columns for which a short line has no field. (The fields that a
    long line has beyond the header go under the key [None], which no
    script looks up.) *)
Abbreviation reader_row := (gmap string (option string)).

(** [row.get(k, default)], and [row.get(k)] with the default [None]: the
    value under [k], which may be [None]. *)
Definition get_field (r : reader_row) (k : string) (default : option string)
  : option string :=
  match r !! k with Some v => v | None => default end.

(** [value.strip()]: [None] has no such attribute. *)
Definition strip_field (v : option string) : result string :=
  match v with
  | Some s => Ok (Py.strip s)
  | None => Raise (Exn AttributeError "'NoneType' object has no attribute 'strip'")
  end.

(** What [csv.DictWriter] writes for a value: [None] gives an empty field. *)
Definition written (v : option string) : string := default "" v.

(** A row read from a line that has a field for each of its columns. *)
Definition fields (l : list (string * string)) : reader_row := Some <$> dict l.
Global Arguments fields : simpl never.

(** Requests sent through the Telegram client. *)
Inductive request :=
| Start
| IsUserAuthorized
| GetMe
| GetChannel
| GetEntityByName (username : string)
| GetEntityById (user_id : Z)
| ImportContactsRequest (phone first_name last_name : string)
| GetParticipantRequest (user : entity)
| InviteToChannelRequest (user : entity)
| DeleteContactsRequest (user : entity)
| SendMessage (user : entity) (text : string)
| Disconnect.

(** The effects of a run, in order. [Append rows] is one call of the
    script's result writer: the rows are appended to the output CSV, after a
    header line when the file did not exist. *)
Inductive event :=
| Call (r : request)
| Append (rows : list row)
| Sleep (seconds : Q).

(** How a loop iteration ends. *)
Inductive control := Continue | Break.

(** How [main] ends, and the exit status of the process it ran in. *)
Inductive termination :=
| Returned
| Uncaught (e : exn)
| SysExit (code : Z).

Definition exit_status (t : termination) : Z :=
  match t with
  | Returned => 0
  | Uncaught _ => 1
  | SysExit code => code
  end.

(** The rows a trace appends to the output CSV. *)
Definition appended (t : list event) : list row :=
  flat_map (fun e => match e with Append rows => rows | _ => [] end) t.

(** The output CSV that the scripts make, as the reader gives it back:
    [t] is everything that was done since the file did not exist, and
    [None] is a file that still does not exist. The first call that writes
    creates the file and puts the header of the script's columns in it; the
    later ones find the file and only add their rows, so that the reader,
    which takes the first line for the header, gives back the rows as they
    were written. A file that was not made this way has the header of its
    first line, whatever it is, and the rows added to it are read under that
    header: what a script reads back from such a file is not described
    here. *)
Definition output_after (t : list event) : option (list row) :=
  fold_left
    (fun f e =>
       match e with
       | Append rows => Some (default [] f ++ rows)
       | _ => f
       end) t None.

Definition is_sleep (e : event) : bool :=
  match e with Sleep _ => true | _ => false end.

Definition is_call (e : event) : bool :=
  match e with Call _ => true | _ => false end.

(** The trace of a loop whose iterations are recorded one by one. *)
Definition flatten {A} (steps : list (A * list event)) : list event :=
  flat_map snd steps.

(** Whether a result row carries [status] in its status column. *)
Definition has_status (status : string) (r : row) : bool :=
  bool_decide (r !! "status" = Some status).

(** ** [add_patients_to_channel.py] *)

Module AddPatients.

(** Safety settings, lines 46-50. The daily limit is a parameter of the loop
    below; the script runs it with [DAILY_LIMIT_configured]. *)
Definition DAILY_LIMIT_configured : Z := 9999.
Definition MIN_DELAY : Z := 15.
Definition MAX_DELAY : Z := 45.

(** [normalize_phone], lines 65-92. *)
Definition normalize_phone (phone : string) : string :=
  let phone := Py.replace "-" "" (Py.replace " " "" (Py.strip phone)) in
  if negb (Py.truthy phone) || (Py.len phone <? 8)%nat then ""
  else
    let digits :=
      if Py.startswith "+" phone
      then "+" +:+ Py.sub_non_digits (Py.slice_from 1 phone)
      else Py.sub_non_digits phone in
    if Py.startswith "09" digits && (Py.len digits =? 10)%nat
    then "+251" +:+ Py.slice_from 1 digits
    else if Py.startswith "+251" digits && (Py.len digits =? 13)%nat
    then digits
    else if Py.startswith "251" digits && (Py.len digits =? 12)%nat
    then "+" +:+ digits
    else "".

(** The dict built at lines 139-145. *)
Record patient := Patient {
  card_no : string;
  name : string;
  first_name : string;
  last_name : string;
  phone : string
}.

(** Lines 134-145: the entry built for a row. *)
Definition new_patient (card_no name normalized : string) : patient :=
  let name_parts := Py.split name in
  let first_name := match name_parts with w :: _ => w | [] => "Patient" end in
  let last_name :=
    if (1 <? length name_parts)%nat then Py.join " " (drop 1 name_parts) else "" in
  Patient card_no name first_name last_name normalized.

(** One turn of the [for row in reader] loop, lines 115-145. *)
Definition read_row (acc : list patient * gset string) (r : reader_row)
  : result (list patient * gset string) :=
  let '(patients, seen_phones) := acc in
  name ← strip_field (get_field r "Name" (Some ""));
  phone ← strip_field (get_field r "C-Phone" (Some ""));
  card_no ← strip_field (get_field r "Card No." (Some ""));
  if negb (Py.truthy phone) then Ok acc
  else
    let normalized := normalize_phone phone in
    if negb (Py.truthy normalized) then Ok acc
    else if bool_decide (normalized ∈ seen_phones) then Ok acc
    else
      let seen_phones := {[normalized]} ∪ seen_phones in
      Ok (patients ++ [new_patient card_no name normalized], seen_phones).

(** The [for row in reader] loop: an exception ends it. *)
Fixpoint read_rows (rows : list reader_row) (acc : list patient * gset string)
  : result (list patient * gset string) :=
  match rows with
  | [] => Ok acc
  | r :: rest => acc' ← read_row acc r; read_rows rest acc'
  end.

(** [read_patient_csv], lines 95-148. The file is given by the rows that
    the reader yields for the lines after the header line (the third
    line); [None] is a missing file. *)
Definition read_patient_csv (file : option (list reader_row)) : result (list patient) :=
  match file with
  | None => Raise (Exn FileNotFoundError "CSV file not found")
  | Some rows => fst <$> read_rows rows ([], ∅)
  end.

(** [get_processed_phones], lines 151-161. *)
Definition get_processed_phones (output_file : option (list row)) : gset string :=
  match output_file with
  | None => ∅
  | Some rows =>
      fold_left
        (fun processed r =>
           let phone := get r "phone" "" in
           if Py.truthy phone then {[phone]} ∪ processed else processed)
        rows ∅
  end.

(** What the outside answers during one iteration of the main loop. *)
Record world := World {
  import_contacts : result (option entity);
    (** [ImportContactsRequest]: [Ok (Some u)] when [result.users] is not
        empty, [u] being its first element *)
  get_participant : result unit;
  invite_to_channel : result unit;
  delete_contacts : result unit;
  random_draw : Z;
  now : string
    (** [datetime.now().strftime(...)] when the result is written *)
}.

(** The counters of lines 246-250. *)
Record state := State {
  success_count : Z;
  fail_count : Z;
  not_on_telegram : Z;
  already_member : Z;
  count : Z
}.

Definition initial : state := State 0 0 0 0 0.

Definition succeeded (st : state) : state :=
  State (success_count st + 1) (fail_count st) (not_on_telegram st)
        (already_member st) (count st + 1).
Definition failed (st : state) : state :=
  State (success_count st) (fail_count st + 1) (not_on_telegram st)
        (already_member st) (count st).
Definition not_found (st : state) : state :=
  State (success_count st) (fail_count st) (not_on_telegram st + 1)
        (already_member st) (count st).
Definition member (st : state) : state :=
  State (success_count st) (fail_count st) (not_on_telegram st)
        (already_member st + 1) (count st).
Definition simulated (st : state) : state :=
  State (success_count st) (fail_count st) (not_on_telegram st)
        (already_member st) (count st + 1).

(** The row passed to [write_result]. *)
Definition result_row (p : patient) (status reason timestamp : string) : row :=
  dict [("card_no", card_no p); ("name", name p); ("phone", phone p);
        ("status", status); ("reason", reason); ("timestamp", timestamp)].

(** [resolve_phone_to_user], lines 175-195: every exception is caught. *)
Definition resolve_phone_to_user (w : world) : option entity :=
  match import_contacts w with
  | Ok users => users
  | Raise _ => None
  end.

(** How the [try] block of lines 279-353 ends: with [status] and [reason]
    set, or with an exception leaving it. *)
Inductive outcome :=
| Done (status reason : string) (st : state)
| Escaped (e : exn).

(** Step C, lines 298-334: only the six listed classes are handled here. *)
Definition invite_step (w : world) (st : state) : outcome :=
  match invite_to_channel w with
  | Ok _ => Done "Success" "Added" (succeeded st)
  | Raise e =>
      match class e with
      | UserPrivacyRestrictedError => Done "Failed" "PrivacyRestricted" (failed st)
      | UserAlreadyParticipantError => Done "Skipped" "AlreadyMember" (member st)
      | UserNotMutualContactError => Done "Failed" "NotMutualContact" (failed st)
      | UserChannelsTooMuchError => Done "Failed" "TooManyChannels" (failed st)
      | UserKickedError => Done "Failed" "PreviouslyKicked" (failed st)
      | InputUserDeactivatedError => Done "Failed" "Deactivated" (failed st)
      | _ => Escaped e
      end
  end.

(** The invite of lines 337-353, tried when the membership check itself
    failed: here every exception is caught. *)
Definition invite_anyway (w : world) (st : state) : outcome :=
  match invite_to_channel w with
  | Ok _ => Done "Success" "Added" (succeeded st)
  | Raise e =>
      match class e with
      | UserAlreadyParticipantError => Done "Skipped" "AlreadyMember" (member st)
      | _ => Done "Failed" (Py.slice_to 50 (message e)) (failed st)
      end
  end.

(** The [try] block, lines 279-353, with the requests it sends. *)
Definition attempt (p : patient) (w : world) (st : state) : list event * outcome :=
  let import := Call (ImportContactsRequest (phone p) (first_name p) (last_name p)) in
  match resolve_phone_to_user w with
  | None => ([import], Done "Failed" "NotOnTelegram" (not_found st))
  | Some user =>
      match get_participant w with
      | Ok _ =>
          ([import; Call (GetParticipantRequest user)],
           Done "Skipped" "AlreadyMember" (member st))
      | Raise e =>
          ([import; Call (GetParticipantRequest user); Call (InviteToChannelRequest user)],
           match class e with
           | UserNotParticipantError => invite_step w st
           | _ => invite_anyway w st
           end)
      end
  end.

(** Lines 398-403: the contact is removed again when one was resolved. *)
Definition cleanup (w : world) : list event :=
  match resolve_phone_to_user w with
  | Some user => [Call (DeleteContactsRequest user)]
  | None => []
  end.

Section Loop.

Variable DAILY_LIMIT : Z.
Variable dry_run : bool.
(** [len(remaining)] *)
Variable total : nat.

(** Lines 392-396: the pause before the next item. *)
Definition pause (i : nat) (w : world) (st : state) : list event :=
  if (count st <? DAILY_LIMIT) && (Z.of_nat i <? Z.of_nat total - 1)
  then [Sleep (inject_Z (Py.randint MIN_DELAY MAX_DELAY (random_draw w)))]
  else [].

(** Lines 385-403: the result is written, then the pause, then the cleanup. *)
Definition finish (calls : list event) (i : nat) (p : patient) (w : world)
    (status reason : string) (st : state) : list event * state * control :=
  (calls ++ [Append [result_row p status reason (now w)]] ++ pause i w st ++ cleanup w,
   st, Continue).

(** The body of the [for] loop, lines 259-403, for the item at index [i],
    entered once the limit test of line 255 has passed. *)
Definition body (i : nat) (p : patient) (w : world) (st : state)
  : list event * state * control :=
  if dry_run then
    ([Append [result_row p "DryRun" "Simulated" (now w)]; Sleep (1 # 2)],
     simulated st, Continue)
  else
    let '(calls, out) := attempt p w st in
    match out with
    | Escaped e =>
        match class e with
        | PeerFloodError =>
            (calls ++ [Append [result_row p "Failed" "PeerFlood" (now w)]], st, Break)
        | FloodWaitError wait =>
            if 600 <? wait then
              (calls ++ [Append [result_row p "Failed"
                                   ("FloodWait_" +:+ Py.str wait +:+ "s") (now w)]],
               st, Break)
            else (calls ++ [Sleep (inject_Z wait)], st, Continue)
        | _ => finish calls i p w "Failed" (Py.slice_to 50 (message e)) (failed st)
        end
    | Done status reason st => finish calls i p w status reason st
    end.

(** The [for i, patient in enumerate(remaining)] loop, lines 254-403, from
    index [i] on: the items it enters, each with the effects of its
    iteration, and the counters at the end. *)
Fixpoint loop (i : nat) (remaining : list patient) (worlds : nat -> world) (st : state)
  : list (patient * list event) * state :=
  match remaining with
  | [] => ([], st)
  | p :: rest =>
      if DAILY_LIMIT <=? count st then ([], st)
      else
        let '(evs, st', ctl) := body i p (worlds i) st in
        match ctl with
        | Break => ([(p, evs)], st')
        | Continue =>
            let '(steps, st'') := loop (S i) rest worlds st' in
            ((p, evs) :: steps, st'')
        end
  end.

End Loop.

(** What the outside holds and answers for one invocation. *)
Record session := Session {
  start : result unit;
  is_user_authorized : result bool;
  get_me : result unit;
  csv_file : option (list reader_row);
  output_file : option (list row);
  get_channel : result unit;
  worlds : nat -> world;
  disconnect : result unit
}.

(** One invocation of [main]: the requests before the loop, the loop's
    iterations, the requests after it, and how [main] ended. *)
Record run := Run {
  before : list event;
  steps : list (patient * list event);
  after : list event;
  summary : option state;
  ending : termination
}.

Definition trace (r : run) : list event := before r ++ flatten (steps r) ++ after r.

(** The items a run attempts. *)
Definition attempted (r : run) : list patient := map fst (steps r).

Definition stopped (evs : list event) (t : termination) : run := Run evs [] [] None t.

(** [main], lines 198-416, with the daily limit as a parameter. *)
Definition main_with (DAILY_LIMIT : Z) (dry_run : bool) (s : session) : run :=
  match start s with
  | Raise e => stopped [Call Start] (Uncaught e)
  | Ok _ =>
  match is_user_authorized s with
  | Raise e => stopped [Call Start; Call IsUserAuthorized] (Uncaught e)
  | Ok false => stopped [Call Start; Call IsUserAuthorized] Returned
  | Ok true =>
  match get_me s with
  | Raise e => stopped [Call Start; Call IsUserAuthorized; Call GetMe] (Uncaught e)
  | Ok _ =>
  let evs := [Call Start; Call IsUserAuthorized; Call GetMe] in
  match read_patient_csv (csv_file s) with
  | Raise _ => stopped evs Returned
  | Ok patients =>
  let processed_phones := get_processed_phones (output_file s) in
  let remaining :=
    filter (fun p => phone p ∉ processed_phones) patients in
  match remaining with
  | [] => stopped evs Returned
  | _ =>
  match get_channel s with
  | Raise _ => stopped (evs ++ [Call GetChannel]) Returned
  | Ok _ =>
  let '(steps, st) :=
    loop DAILY_LIMIT dry_run (length remaining) 0 remaining (worlds s) initial in
  Run (evs ++ [Call GetChannel]) steps [Call Disconnect] (Some st)
      (match disconnect s with Ok _ => Returned | Raise e => Uncaught e end)
  end end end end end end.

Definition main : bool -> session -> run := main_with DAILY_LIMIT_configured.

(** The process: the settings read from the environment (lines 37-41), the
    checks of lines 52-59, the client construction of line 62 and
    [asyncio.run(main())]. [None] is a variable that is not set. *)
Record environ := Environ {
  TG_API_ID : option string;
  TG_API_HASH : option string;
  TG_TARGET_CHANNEL : option string
}.

Definition is_set (v : option string) : bool :=
  match v with Some s => Py.truthy s | None => false end.

Definition script (env : environ) (dry_run : bool) (s : session) : termination :=
  if negb (is_set (TG_API_ID env)) || negb (is_set (TG_API_HASH env)) then SysExit 1
  else if negb (is_set (TG_TARGET_CHANNEL env)) then SysExit 1
  else
    match Py.int (default "" (TG_API_ID env)) with
    | None => Uncaught (Exn ValueError "invalid literal for int() with base 10")
    | Some _ => ending (main dry_run s)
    end.

End AddPatients.

(** ** [safe_dm_invite.py] *)

Module SafeDM.

(** Safety settings, lines 40-42. *)
Definition DAILY_LIMIT_configured : Z := 35.
Definition MIN_DELAY : Z := 60.
Definition MAX_DELAY : Z := 300.

(** [load_messages], lines 52-59. The file [messages.txt] is given by its
    lines; [None] is a missing file. *)
Definition load_messages (messages_file : option (list string)) : list string :=
  let default := ["Hello! Join our channel here: {link}"] in
  match messages_file with
  | Some lines =>
      match map Py.strip (List.filter (fun line => Py.truthy (Py.strip line)) lines) with
      | [] => default
      | msgs => msgs
      end
  | None => default
  end.

(** Lines 138-139: the text for a user; [link] is the setting
    [TG_TARGET_CHANNEL_LINK], [raw] the draw of [random.choice] and
    [first_name] what [user.get('first_name', 'Friend')] gave. A choice
    among no messages raises [IndexError], and [str.replace] raises
    [TypeError] when the name is [None]. *)
Definition message_text (messages : list string) (raw : Z) (link : option string)
    (first_name : option string) : result string :=
  match Py.choice messages raw with
  | None => Raise (Exn IndexError "Cannot choose from an empty sequence")
  | Some msg_template =>
      let with_link :=
        Py.replace "{link}"
          (match link with
           | Some l => if Py.truthy l then l else "[LINK]"
           | None => "[LINK]"
           end)
          msg_template in
      match first_name with
      | None => Raise (Exn TypeError "replace() argument 2 must be str, not None")
      | Some first_name => Ok (Py.replace "{first_name}" first_name with_link)
      end
  end.

(** [get_processed_users], lines 61-72. *)
Definition get_processed_users (output_file : option (list row)) : gset string :=
  match output_file with
  | None => ∅
  | Some rows =>
      fold_left
        (fun processed r =>
           match r !! "user_id" with
           | Some uid => if Py.truthy uid then {[uid]} ∪ processed else processed
           | None => processed
           end)
        rows ∅
  end.

(** The rows kept at lines 108-111. *)
Definition candidate (processed_ids : gset string) (r : reader_row) : bool :=
  match get_field r "user_id" None with
  | Some uid => Py.truthy uid && bool_decide (uid ∉ processed_ids)
  | None => false
  end.

(** What the outside answers during one iteration of the main loop;
    [choice_draw] is the draw of [random.choice] and [random_draw] the one of
    [random.randint]. *)
Record world := World {
  get_entity_by_name : result entity;
  get_entity_by_id : result entity;
  send_message : result unit;
  choice_draw : Z;
  random_draw : Z;
  now : string
}.

(** The row passed to [write_result], as the writer writes it. *)
Definition result_row (user : reader_row) (status reason timestamp : string) : row :=
  dict [("user_id", written (get_field user "user_id" None));
        ("username", written (get_field user "username" None));
        ("first_name", written (get_field user "first_name" (Some "Friend")));
        ("status", status); ("reason", reason); ("timestamp", timestamp)].

(** Lines 158-169: the name first, then the id; both lookups swallow every
    exception, the one [int(user_id)] raises included. *)
Definition resolve (user : reader_row) (w : world) : list event * option entity :=
  let by_name :=
    match get_field user "username" None with
    | Some username =>
        if Py.truthy username then
          ([Call (GetEntityByName username)],
           match get_entity_by_name w with Ok e => Some e | Raise _ => None end)
        else ([], None)
    | None => ([], None)
    end in
  match snd by_name with
  | Some e => by_name
  | None =>
      match get_field user "user_id" None with
      | Some user_id =>
          if Py.truthy user_id then
            match Py.int user_id with
            | Some n =>
                (fst by_name ++ [Call (GetEntityById n)],
                 match get_entity_by_id w with Ok e => Some e | Raise _ => None end)
            | None => (fst by_name, None)
            end
          else (fst by_name, None)
      | None => (fst by_name, None)
      end
  end.

Section Loop.

Variable DAILY_LIMIT : Z.
Variable dry_run : bool.
(** [messages], line 100, and the setting [TG_TARGET_CHANNEL_LINK]. *)
Variable messages : list string.
Variable link : option string.

(** Lines 201-216: the result is written, then the pause. *)
Definition log_and_wait (calls : list event) (user : reader_row) (w : world)
    (status reason : string) (count : Z) : list event * Z * control :=
  (calls ++ [Append [result_row user status reason (now w)]]
     ++ (if count <? DAILY_LIMIT
         then [Sleep (inject_Z (Py.randint MIN_DELAY MAX_DELAY (random_draw w)))]
         else []),
   count, Continue).

(** Lines 144-216, once the message text is there. *)
Definition deliver (text : string) (user : reader_row) (w : world) (count : Z)
  : list event * Z * control :=
  if dry_run then ([Sleep 1], count + 1, Continue)
  else
    let '(calls, found) := resolve user w in
    match found with
    | None => log_and_wait calls user w "Failed" "UserNotFound" count
    | Some e =>
        let calls := calls ++ [Call (SendMessage e text)] in
        match send_message w with
        | Ok _ => log_and_wait calls user w "Success" "Sent" (count + 1)
        | Raise x =>
            match class x with
            | PeerFloodError =>
                (calls ++ [Append [result_row user "Failed" "PeerFlood" (now w)]],
                 count, Break)
            | UserPrivacyRestrictedError =>
                log_and_wait calls user w "Failed" "PrivacyRestricted" count
            | UserIsBlockedError => log_and_wait calls user w "Failed" "Blocked" count
            | FloodWaitError _ => (calls, count, Break)
            | _ => log_and_wait calls user w "Failed" (Py.slice_to 50 (message x)) count
            end
        end
    end.

(** The body of the [for] loop, lines 133-216, entered once the limit test
    of line 129 has passed. The message text is built first, outside any
    [try]: an exception raised there leaves the loop and [main]. *)
Definition body (user : reader_row) (w : world) (count : Z)
  : result (list event * Z * control) :=
  let first_name := get_field user "first_name" (Some "Friend") in
  text ← message_text messages (choice_draw w) link first_name;
  Ok (deliver text user w count).

(** The [for user in users_to_contact] loop, lines 128-216, from index [i]
    on: the items it enters, each with the effects of its iteration, the
    counter, and the exception that left the loop, if any. *)
Fixpoint loop (i : nat) (users : list reader_row) (worlds : nat -> world) (count : Z)
  : list (reader_row * list event) * Z * option exn :=
  match users with
  | [] => ([], count, None)
  | user :: rest =>
      if DAILY_LIMIT <=? count then ([], count, None)
      else
        match body user (worlds i) count with
        | Raise e => ([(user, [])], count, Some e)
        | Ok (evs, count', ctl) =>
            match ctl with
            | Break => ([(user, evs)], count', None)
            | Continue =>
                let '(steps, count'', raised) := loop (S i) rest worlds count' in
                ((user, evs) :: steps, count'', raised)
            end
        end
  end.

End Loop.

(** What the outside holds and answers for one invocation; [messages_file]
    is [messages.txt], given by its lines. *)
Record session := Session {
  start : result unit;
  is_user_authorized : result bool;
  TG_TARGET_CHANNEL_LINK : option string;
  messages_file : option (list string);
  csv_file : option (list reader_row);
  output_file : option (list row);
  worlds : nat -> world;
  disconnect : result unit
}.

Record run := Run {
  before : list event;
  steps : list (reader_row * list event);
  after : list event;
  ending : termination
}.

Definition trace (r : run) : list event := before r ++ flatten (steps r) ++ after r.

(** The items a run attempts. *)
Definition attempted (r : run) : list reader_row := map fst (steps r).

Definition stopped (evs : list event) (t : termination) : run := Run evs [] [] t.

(** [main], lines 84-219, with the daily limit as a parameter. An exception
    that leaves the loop leaves [main] too: the client is not
    disconnected. *)
Definition main_with (DAILY_LIMIT : Z) (dry_run : bool) (s : session) : run :=
  match start s with
  | Raise e => stopped [Call Start] (Uncaught e)
  | Ok _ =>
  match is_user_authorized s with
  | Raise e => stopped [Call Start; Call IsUserAuthorized] (Uncaught e)
  | Ok false => stopped [Call Start; Call IsUserAuthorized] Returned
  | Ok true =>
  let evs := [Call Start; Call IsUserAuthorized] in
  let messages := load_messages (messages_file s) in
  let processed_ids := get_processed_users (output_file s) in
  match csv_file s with
  | None => stopped evs Returned
  | Some rows =>
  let users_to_contact := filter (fun r => candidate processed_ids r = true) rows in
  match users_to_contact with
  | [] => stopped evs Returned
  | _ =>
  let '(steps, _, raised) :=
    loop DAILY_LIMIT dry_run messages (TG_TARGET_CHANNEL_LINK s) 0 users_to_contact
         (worlds s) 0 in
  match raised with
  | Some e => Run evs steps [] (Uncaught e)
  | None =>
      Run evs steps [Call Disconnect]
          (match disconnect s with Ok _ => Returned | Raise e => Uncaught e end)
  end
  end end end end.

Definition main : bool -> session -> run := main_with DAILY_LIMIT_configured.

End SafeDM.

(** ** [invite_users_to_channel.py] *)

Module InviteUsers.

(** The dict built at lines 102-107. The two names are only printed and
    written to the result file: they are kept as the writer writes them,
    the empty string for [None]. *)
Record user := User {
  user_id : string;
  username : string;
  first_name : string;
  last_name : string
}.

(** One turn of the [for row in reader] loop, lines 87-107. *)
Definition read_row (acc : list user * gset string) (r : reader_row)
  : result (list user * gset string) :=
  let '(users, seen_user_ids) := acc in
  user_id ← strip_field (get_field r "user_id" (Some ""));
  username ← strip_field (get_field r "username" (Some ""));
  if negb (Py.truthy user_id) && negb (Py.truthy username) then Ok acc
  else if Py.truthy user_id && bool_decide (user_id ∈ seen_user_ids) then Ok acc
  else
    let seen_user_ids :=
      if Py.truthy user_id then {[user_id]} ∪ seen_user_ids else seen_user_ids in
    Ok (users ++ [User user_id username
                       (written (get_field r "first_name" (Some "")))
                       (written (get_field r "last_name" (Some "")))],
        seen_user_ids).

(** The [for row in reader] loop: an exception ends it. *)
Fixpoint read_rows (rows : list reader_row) (acc : list user * gset string)
  : result (list user * gset string) :=
  match rows with
  | [] => Ok acc
  | r :: rest => acc' ← read_row acc r; read_rows rest acc'
  end.

(** [read_users_from_csv], lines 77-110; [None] is a missing file. *)
Definition read_users_from_csv (file : option (list reader_row)) : result (list user) :=
  match file with
  | None => Raise (Exn FileNotFoundError "CSV file not found")
  | Some rows => fst <$> read_rows rows ([], ∅)
  end.

(** What the outside answers while one user is processed. *)
Record world := World {
  get_entity_by_name : result entity;
  get_entity_by_id : result entity;
  get_entity_by_id_again : result entity;
    (** the second lookup by id, line 148 *)
  get_participant : result unit;
  invite_to_channel : result unit;
  now : string
}.

(** The lookup by id of lines 135-156. *)
Definition get_by_id (u : user) (w : world) : list event * option entity :=
  if Py.truthy (user_id u) then
    match Py.int (user_id u) with
    | None => ([], None)
    | Some user_id_int =>
        match get_entity_by_id w with
        | Ok e => ([Call (GetEntityById user_id_int)], Some e)
        | Raise x =>
            match class x with
            | ValueError | TypeError | UserPrivacyRestrictedError =>
                ([Call (GetEntityById user_id_int); Call (GetEntityById user_id_int)],
                 match get_entity_by_id_again w with Ok e => Some e | Raise _ => None end)
            | _ => ([Call (GetEntityById user_id_int)], None)
            end
        end
    end
  else ([], None).

(** [get_user_entity], lines 113-158: no exception leaves it. *)
Definition get_user_entity (u : user) (w : world) : list event * option entity :=
  if Py.truthy (username u) then
    let username_clean := Py.strip (Py.lstrip_char "@" (username u)) in
    if Py.truthy username_clean then
      match get_entity_by_name w with
      | Ok e => ([Call (GetEntityByName username_clean)], Some e)
      | Raise _ =>
          let '(calls, found) := get_by_id u w in
          (Call (GetEntityByName username_clean) :: calls, found)
      end
    else get_by_id u w
  else get_by_id u w.

(** [add_user_to_channel], lines 161-184. *)
Definition add_user_to_channel (w : world) : bool * string :=
  match invite_to_channel w with
  | Ok _ => (true, "Success")
  | Raise e =>
      match class e with
      | UserPrivacyRestrictedError => (false, "UserPrivacyRestricted")
      | UserAlreadyParticipantError => (false, "AlreadyParticipant")
      | UserNotMutualContactError => (false, "NotMutualContact")
      | UserChannelsTooMuchError => (false, "ChannelsTooMuch")
      | UserKickedError => (false, "UserKicked")
      | InputUserDeactivatedError => (false, "UserDeactivated")
      | PeerFloodError => (false, "PeerFlood")
      | FloodWaitError wait_time => (false, "FloodWait_" +:+ Py.str wait_time +:+ "s")
      | _ => (false, "Error: " +:+ Py.slice_to 50 (message e))
      end
  end.

(** [is_user_in_channel], lines 187-197. *)
Definition is_user_in_channel (w : world) : bool :=
  match get_participant w with
  | Ok _ => true
  | Raise _ => false
  end.

(** The counters of lines 247-249. *)
Record state := State {
  success_count : Z;
  failure_count : Z;
  skipped_count : Z
}.

Definition initial : state := State 0 0 0.

(** The dict appended to [results], lines 302-310. *)
Definition result_row (u : user) (status reason timestamp : string) : row :=
  dict [("user_id", user_id u); ("username", username u);
        ("first_name", first_name u); ("last_name", last_name u);
        ("status", status); ("reason", reason); ("timestamp", timestamp)].

(** Lines 296-299: the wait read back from the reason text. *)
Definition flood_wait (reason : string) : result (list event) :=
  if Py.startswith "FloodWait_" reason then
    match Py.split_char "_" reason !! 1%nat with
    | None => Raise (Exn IndexError "list index out of range")
    | Some field =>
        match Py.int (Py.rstrip_char "s" field) with
        | None => Raise (Exn ValueError "invalid literal for int() with base 10")
        | Some wait_seconds => Ok [Sleep (inject_Z wait_seconds)]
        end
    end
  else Ok [].

(** The body of the inner loop, lines 262-313: the effects, the row added to
    [results] (or the exception that leaves the loop) and the counters. *)
Definition body (u : user) (w : world) (st : state)
  : list event * result row * state :=
  let '(calls, user_entity) := get_user_entity u w in
  match user_entity with
  | None =>
      (calls ++ [Sleep 1], Ok (result_row u "Failed" "UserNotFound" (now w)),
       State (success_count st) (failure_count st + 1) (skipped_count st))
  | Some e =>
      let calls := calls ++ [Call (GetParticipantRequest e)] in
      if is_user_in_channel w then
        (calls ++ [Sleep 1], Ok (result_row u "Skipped" "AlreadyMember" (now w)),
         State (success_count st) (failure_count st) (skipped_count st + 1))
      else
        let calls := calls ++ [Call (InviteToChannelRequest e)] in
        let '(success, reason) := add_user_to_channel w in
        if success then
          (calls ++ [Sleep 1], Ok (result_row u "Success" reason (now w)),
           State (success_count st + 1) (failure_count st) (skipped_count st))
        else
          let st := State (success_count st) (failure_count st + 1) (skipped_count st) in
          match flood_wait reason with
          | Raise x => (calls, Raise x, st)
          | Ok wait =>
              (calls ++ wait ++ [Sleep 1], Ok (result_row u "Failed" reason (now w)), st)
          end
  end.

(** The inner loop, [for user in batch], lines 261-313; [i] is the position
    of the batch's first user in the whole list. *)
Fixpoint batch_loop (i : nat) (batch : list user) (worlds : nat -> world) (st : state)
  : list (user * list event) * result (list row) * state :=
  match batch with
  | [] => ([], Ok [], st)
  | u :: rest =>
      let '(evs, r, st') := body u (worlds i) st in
      match r with
      | Raise x => ([(u, evs)], Raise x, st')
      | Ok record =>
          let '(steps, results, st'') := batch_loop (S i) rest worlds st' in
          ((u, evs) :: steps,
           match results with Ok rows => Ok (record :: rows) | Raise x => Raise x end,
           st'')
      end
  end.

(** [write_result_to_csv], lines 200-214. *)
Definition write_result_to_csv (results : list row) : list event :=
  match results with
  | [] => []
  | _ => [Append results]
  end.

(** One batch: the users it goes through, then what follows the inner loop
    (lines 315-322). *)
Record batch := Batch {
  members : list (user * list event);
  flush : list event
}.

(** [range(0, total, step)] for a positive [step]. *)
Definition range_step (total step : nat) : list nat :=
  map (fun k => k * step)%nat (seq 0 ((total + step - 1) / step)).

Section Loop.

Variable BATCH_SIZE : Z.
Variable BATCH_DELAY : Z.
Variable users : list user.
Variable worlds : nat -> world.

(** The outer loop, lines 254-322, over the batch starts still to come. *)
Fixpoint batches (starts : list nat) (st : state) : list batch * state * option exn :=
  match starts with
  | [] => ([], st, None)
  | i :: later =>
      let batch := take (Z.to_nat BATCH_SIZE) (drop i users) in
      let '(steps, results, st') := batch_loop i batch worlds st in
      match results with
      | Raise x => ([Batch steps []], st', Some x)
      | Ok results =>
          let written :=
            write_result_to_csv results
              ++ (if Z.of_nat i + BATCH_SIZE <? Z.of_nat (length users)
                  then [Sleep (inject_Z BATCH_DELAY)] else []) in
          let '(more, st'', x) := batches later st' in
          (Batch steps written :: more, st'', x)
      end
  end.

(** Lines 245-322. A zero step makes [range] raise; a negative one gives no
    batch at all. *)
Definition process : list batch * state * option exn :=
  if BATCH_SIZE =? 0 then
    ([], initial, Some (Exn ValueError "range() arg 3 must not be zero"))
  else if BATCH_SIZE <? 0 then ([], initial, None)
  else batches (range_step (length users) (Z.to_nat BATCH_SIZE)) initial.

End Loop.

Definition batch_trace (b : batch) : list event := flatten (members b) ++ flush b.

Record session := Session {
  authenticate : result bool;
  csv_file : option (list reader_row);
  output_file : option (list row);
  get_channel : result unit;
  worlds : nat -> world;
  disconnect : result unit
}.

Record run := Run {
  before : list event;
  steps : list batch;
  after : list event;
  ending : termination
}.

Definition trace (r : run) : list event :=
  before r ++ flat_map batch_trace (steps r) ++ after r.

(** The users a run attempts. *)
Definition attempted (r : run) : list user :=
  flat_map (fun b => map fst (members b)) (steps r).

(** [main] around [invite_users_to_channel], lines 217-359: every exception
    of the inner function is caught and printed, and the client is
    disconnected in the [finally] clause. *)
Definition main (BATCH_SIZE BATCH_DELAY : Z) (s : session) : run :=
  let finally := match disconnect s with Ok _ => Returned | Raise e => Uncaught e end in
  match authenticate s with
  | Raise _ | Ok false => Run [Call Start] [] [Call Disconnect] finally
  | Ok true =>
  match read_users_from_csv (csv_file s) with
  | Raise _ => Run [Call Start] [] [Call Disconnect] finally
  | Ok [] => Run [Call Start] [] [Call Disconnect] finally
  | Ok users =>
  match get_channel s with
  | Raise _ => Run [Call Start; Call GetChannel] [] [Call Disconnect] finally
  | Ok _ =>
  let '(steps, _, _) := process BATCH_SIZE BATCH_DELAY users (worlds s) in
  Run [Call Start; Call GetChannel] steps [Call Disconnect] finally
  end end end.

(** The process: the settings of lines 32-40, the checks of lines 43-50, the
    client construction and [asyncio.run(main())]. *)
Record environ := Environ {
  TG_API_ID : option string;
  TG_API_HASH : option string;
  TG_TARGET_CHANNEL : option string;
  BATCH_SIZE : option string;
  BATCH_DELAY : option string
}.

Definition is_set (v : option string) : bool :=
  match v with Some s => Py.truthy s | None => false end.

Definition script (env : environ) (s : session) : termination :=
  match Py.int (default "10" (BATCH_SIZE env)), Py.int (default "5" (BATCH_DELAY env)) with
  | Some batch_size, Some batch_delay =>
      if negb (is_set (TG_API_ID env)) || negb (is_set (TG_API_HASH env)) then
        Uncaught (Exn ValueError "TG_API_ID and TG_API_HASH must be set in .env file")
      else if negb (is_set (TG_TARGET_CHANNEL env)) then
        Uncaught (Exn ValueError "TG_TARGET_CHANNEL must be set in .env file")
      else if negb (Py.str_isdigit (default "" (TG_API_ID env))) then
        Uncaught (Exn ValueError "TG_API_ID must be a numeric string")
      else
        match Py.int (default "" (TG_API_ID env)) with
        | None => Uncaught (Exn ValueError "invalid literal for int() with base 10")
        | Some _ => ending (main batch_size batch_delay s)
        end
  | _, _ => Uncaught (Exn ValueError "invalid literal for int() with base 10")
  end.

End InviteUsers.

(** * Terms of the statements and sample inputs *)

Section CharacterClassTerms.

(** No range of [l1] meets a range of [l2]; every range of [l1] lies within
    a range of [l2]. *)
Definition apart (l1 l2 : list (N * N)) : bool :=
  forallb (fun r1 => forallb (fun r2 => (snd r1 <? fst r2) || (snd r2 <? fst r1))%N l2) l1.


(** The ASCII digits. *)
Definition ascii_digit (c : char) : bool := (("0"%chr <=? c) && (c <=? "9"%chr))%N.

End CharacterClassTerms.

Section NormalizePhoneTerms.

Import AddPatients.

(** The international form: ['+251'] and nine characters that the pattern
    [\d] matches, the decimal digits of any script. *)
Definition international (s : string) : Prop :=
  exists d : string,
    s = "+251" +:+ d /\ Py.len d = 9%nat /\ Py.all_chars Py.isdigit d = true.

(** [digits], line 74-77, is a string of digits, after a ['+'] when the
    cleaned input starts with one. *)
Definition digits_or_plus (digits : string) : Prop :=
  Py.all_chars Py.isdigit digits = true
  \/ exists r : string, digits = String "+" r /\ Py.all_chars Py.isdigit r = true.

(** The same with the nine digits among ['0'] to ['9']. *)
Definition international_ascii (s : string) : Prop :=
  exists d : string,
    s = "+251" +:+ d /\ Py.len d = 9%nat /\ Py.all_chars ascii_digit d = true.

(** The number +251 912 345 678 with its last nine digits written in
    Arabic-Indic digits (U+0660 to U+0669). *)
Definition arabic_indic_number : string :=
  "+251" +:+ of_codes [1641; 1633; 1634; 1635; 1636; 1637; 1638; 1639; 1640]%N.

End NormalizePhoneTerms.

Section ReadPatientsTerms.

Import AddPatients.

(** The text of a column of a row, the empty string when the row lacks the
    column or has [None] there. *)
Definition column (r : reader_row) (k : string) : string :=
  written (get_field r k (Some "")).

(** The row has a field in each of the [columns] it has: none is [None]. *)
Definition filled (columns : list string) (r : reader_row) : Prop :=
  forall k, k ∈ columns -> r !! k <> Some None.

(** The key of a row of the patient file, and the entry built from it. *)
Definition patient_key (r : reader_row) : string :=
  normalize_phone (Py.strip (column r "C-Phone")).

Definition patient_entry (r : reader_row) : patient :=
  new_patient (Py.strip (column r "Card No.")) (Py.strip (column r "Name"))
              (patient_key r).

(** What holds of the entries loaded from the rows read so far. *)
Record loaded (rows : list reader_row) (ps : list patient) (seen : gset string) : Prop := {
  loaded_seen : forall k, k ∈ seen <-> k ∈ phone <$> ps;
  loaded_nodup : NoDup (phone <$> ps);
  loaded_first : forall p, p ∈ ps ->
    exists before r after,
      rows = before ++ r :: after /\ p = patient_entry r
      /\ Py.truthy (phone p) = true
      /\ forall r', r' ∈ before -> patient_key r' <> phone p;
  loaded_all : forall r, r ∈ rows -> Py.truthy (patient_key r) = true ->
    patient_key r ∈ phone <$> ps
}.

End ReadPatientsTerms.

Section ReadUsersTerms.

Import InviteUsers.

(** The id and the name of a row of the user file, and the entry built from
    the row. *)
Definition row_user_id (r : reader_row) : string := Py.strip (column r "user_id").

Definition row_username (r : reader_row) : string := Py.strip (column r "username").

Definition user_entry (r : reader_row) : user :=
  User (row_user_id r) (row_username r) (column r "first_name") (column r "last_name").

(** A row that has a name and no id. *)
Definition name_only (r : reader_row) : Prop := row_user_id r = "" /\ row_username r <> "".

(** What holds of the users loaded from the rows read so far. *)
Record users_loaded (rows : list reader_row) (us : list user) (seen : gset string) : Prop := {
  users_seen : forall k, k ∈ seen <-> k <> "" /\ k ∈ user_id <$> us;
  users_nodup : NoDup (filter (fun k => k <> "") (user_id <$> us));
  users_first : forall u, u ∈ us ->
    exists before r after,
      rows = before ++ r :: after /\ u = user_entry r
      /\ (user_id u <> "" \/ username u <> "")
      /\ (user_id u <> "" -> forall r', r' ∈ before -> row_user_id r' <> user_id u);
  users_all : forall r, r ∈ rows -> row_user_id r <> "" ->
    row_user_id r ∈ user_id <$> us;
  users_name_only :
    filter (fun u => user_id u = "") us = user_entry <$> filter name_only rows
}.

End ReadUsersTerms.

Section FirstOccurrenceTerms.

(** Two rows of the patient file with one phone number, written in two ways,
    and two equal rows of the user file that have a name and no id. *)
Definition abebe : reader_row :=
  fields [("Card No.", "17"); ("Name", "Abebe Kebede"); ("C-Phone", "0912 345 678")].

Definition abebe_again : reader_row :=
  fields [("Card No.", "52"); ("Name", "A. Kebede"); ("C-Phone", "+251912345678")].

Definition bob : reader_row := fields [("user_id", ""); ("username", "bob")].


Definition user_cut_short : reader_row :=
  <["username" := None]> (<["first_name" := None]> (fields [("user_id", "1")])).

End FirstOccurrenceTerms.

(** A key is in the log when some row of the file has it in [column]. *)
Definition logged (column : string) (file : option (list row)) (k : string) : Prop :=
  exists rows r, file = Some rows /\ r ∈ rows /\ r !! column = Some k.

Section ResumeInvitesTerms.

Import InviteUsers.

(** The same outside, with another result log on disk. *)
Definition with_log (s : session) (log : option (list row)) : session :=
  Session (authenticate s) (csv_file s) log (get_channel s) (worlds s) (disconnect s).

(** One user who can be found and is not yet in the channel. *)
Definition newcomer : world :=
  World (Raise (Exn UsernameNotOccupiedError "")) (Ok 1) (Ok 1)
        (Raise (Exn UserNotParticipantError "")) (Ok tt) "2024-01-01 10:00:00".

Definition one_user : session :=
  Session (Ok true) (Some [fields [("user_id", "1"); ("username", "")]]) None (Ok tt)
          (fun _ => newcomer) (Ok tt).

Definition first_run : run := main 10 5 one_user.

Definition log_after_first_run : option (list row) :=
  output_after (trace first_run).

Definition second_run : run := main 10 5 (with_log one_user log_after_first_run).

End ResumeInvitesTerms.

Section PatientsLoopTerms.

Import AddPatients.

(** The requests the [try] block sends for an item and the exception that
    leaves it, if any: neither depends on the counters. *)
Definition requests (p : patient) (w : world) : list event := fst (attempt p w initial).

Definition escaping (p : patient) (w : world) : option exn :=
  match snd (attempt p w initial) with
  | Escaped e => Some e
  | Done _ _ _ => None
  end.

(** The two classes that the loop treats as throttling. *)
Definition throttle (e : exn) : bool :=
  match class e with
  | PeerFloodError | FloodWaitError _ => true
  | _ => false
  end.

Section BodyTerms.

Variables (N : Z) (dry : bool) (total : nat).

(** The shapes an iteration can take. *)
Inductive iteration (i : nat) (p : patient) (w : world) (st : state)
  : list event -> state -> control -> Prop :=
| it_dry_run :
    dry = true ->
    iteration i p w st
      [Append [result_row p "DryRun" "Simulated" (now w)]; Sleep (1 # 2)]
      (simulated st) Continue
| it_peer_flood e :
    dry = false -> escaping p w = Some e -> class e = PeerFloodError ->
    iteration i p w st
      (requests p w ++ [Append [result_row p "Failed" "PeerFlood" (now w)]]) st Break
| it_flood_stop e wait :
    dry = false -> escaping p w = Some e -> class e = FloodWaitError wait ->
    600 < wait ->
    iteration i p w st
      (requests p w
         ++ [Append [result_row p "Failed" ("FloodWait_" +:+ Py.str wait +:+ "s") (now w)]])
      st Break
| it_flood_wait e wait :
    dry = false -> escaping p w = Some e -> class e = FloodWaitError wait ->
    wait <= 600 ->
    iteration i p w st (requests p w ++ [Sleep (inject_Z wait)]) st Continue
| it_error e :
    dry = false -> escaping p w = Some e -> throttle e = false ->
    iteration i p w st
      (requests p w
         ++ [Append [result_row p "Failed" (Py.slice_to 50 (message e)) (now w)]]
         ++ pause N total i w (failed st) ++ cleanup w)
      (failed st) Continue
| it_done status reason st' :
    dry = false -> escaping p w = None ->
    (status = "Success" /\ st' = succeeded st)
    \/ ((status = "Failed" \/ status = "Skipped") /\ count st' = count st) ->
    iteration i p w st
      (requests p w ++ [Append [result_row p status reason (now w)]]
         ++ pause N total i w st' ++ cleanup w)
      st' Continue.

(** What an iteration does to the counter the limit is tested on: it grows by
    the number of [Success] and [DryRun] rows written. *)
Definition counted (rows : list row) : Z :=
  Z.of_nat (length (List.filter
                      (fun r => has_status "Success" r || has_status "DryRun" r) rows)).

End BodyTerms.

End PatientsLoopTerms.

Section MessagesLoopTerms.

Import SafeDM.

(** The requests an iteration sends for a user, and the exception
    [send_message] raises when the user was resolved. *)
Definition sending (text : string) (user : reader_row) (w : world) : list event :=
  match snd (resolve user w) with
  | Some e => fst (resolve user w) ++ [Call (SendMessage e text)]
  | None => fst (resolve user w)
  end.

Definition raised (user : reader_row) (w : world) : option exn :=
  match snd (resolve user w), send_message w with
  | Some _, Raise x => Some x
  | _, _ => None
  end.

(** The message text built for a user at lines 135-139, or the exception
    raised there. *)
Definition text_for (messages : list string) (link : option string) (user : reader_row)
    (w : world) : result string :=
  message_text messages (choice_draw w) link (get_field user "first_name" (Some "Friend")).

Section BodyTerms.

Variables (N : Z) (dry : bool).

(** Lines 211-216: the pause. *)
Definition dm_pause (w : world) (count : Z) : list event :=
  if count <? N
  then [Sleep (inject_Z (Py.randint MIN_DELAY MAX_DELAY (random_draw w)))]
  else [].

(** The shapes an iteration can take once the message [text] is there. *)
Inductive dm_iteration (text : string) (user : reader_row) (w : world) (count : Z)
  : list event -> Z -> control -> Prop :=
| dm_dry_run :
    dry = true -> dm_iteration text user w count [Sleep 1] (count + 1) Continue
| dm_peer_flood e :
    dry = false -> raised user w = Some e -> class e = PeerFloodError ->
    dm_iteration text user w count
      (sending text user w ++ [Append [result_row user "Failed" "PeerFlood" (now w)]])
      count Break
| dm_flood_wait e wait :
    dry = false -> raised user w = Some e -> class e = FloodWaitError wait ->
    dm_iteration text user w count (sending text user w) count Break
| dm_logged status reason count' :
    dry = false ->
    match raised user w with Some e => throttle e = false | None => True end ->
    (status = "Success" /\ count' = count + 1) \/ (status = "Failed" /\ count' = count) ->
    dm_iteration text user w count
      (sending text user w ++ [Append [result_row user status reason (now w)]]
         ++ dm_pause w count')
      count' Continue.

(** The counter grows by the number of [Success] rows written, and in a dry
    run by one per item. *)
Definition sent (rows : list row) : Z :=
  Z.of_nat (length (List.filter (has_status "Success") rows)).

(** What an iteration appends and how it moves the counter. *)
Definition progress (k : nat) (rows : list row) : Z :=
  if dry then Z.of_nat k else sent rows.

End BodyTerms.

End MessagesLoopTerms.

Section DecimalTerms.

Import Decimal.

(** The value of a digit sequence read after the digits that gave [acc]. *)
Fixpoint decimal_value (d : uint) (acc : Z) : Z :=
  match d with
  | Nil => acc
  | D0 l => decimal_value l (10 * acc + 0)
  | D1 l => decimal_value l (10 * acc + 1)
  | D2 l => decimal_value l (10 * acc + 2)
  | D3 l => decimal_value l (10 * acc + 3)
  | D4 l => decimal_value l (10 * acc + 4)
  | D5 l => decimal_value l (10 * acc + 5)
  | D6 l => decimal_value l (10 * acc + 6)
  | D7 l => decimal_value l (10 * acc + 7)
  | D8 l => decimal_value l (10 * acc + 8)
  | D9 l => decimal_value l (10 * acc + 9)
  end.

(** The characters [str] produces: digits, after a ['-'] for a negative
    number. *)
Definition digit_or_minus (c : char) : bool := Py.isdigit c || N.eqb c "-"%chr.

End DecimalTerms.

Section InvitesLoopTerms.

Import InviteUsers.

(** The requests sent for a user and the pauses taken, up to the row being
    added to [results]. *)
Definition inviting (u : user) (w : world) : list event := fst (fst (body u w initial)).

(** The status and the reason recorded for a user. *)
Definition verdict (u : user) (w : world) : string * string :=
  match snd (get_user_entity u w) with
  | None => ("Failed", "UserNotFound")
  | Some _ =>
      if is_user_in_channel w then ("Skipped", "AlreadyMember")
      else
        let '(success, reason) := add_user_to_channel w in
        (if success then "Success" else "Failed", reason)
  end.

Section BatchesTerms.

Variables (B D : Z) (users : list user) (w : nat -> world).

(** The iterations over a batch whose first user is at position [i], and the
    rows they add to [results]. *)
Fixpoint steps_of (i : nat) (batch : list user) : list (user * list event) :=
  match batch with
  | [] => []
  | u :: rest => (u, inviting u (w i)) :: steps_of (S i) rest
  end.

Fixpoint rows_of (i : nat) (batch : list user) : list row :=
  match batch with
  | [] => []
  | u :: rest =>
      result_row u (verdict u (w i)).1 (verdict u (w i)).2 (now (w i))
        :: rows_of (S i) rest
  end.

(** The slice [users[i:i+BATCH_SIZE]], and the batch the outer loop makes of
    it: the iterations, then the write, then the pause between batches. *)
Definition chunk (i : nat) : list user := take (Z.to_nat B) (drop i users).

Definition batch_of (i : nat) : batch :=
  Batch (steps_of i (chunk i))
        (write_result_to_csv (rows_of i (chunk i))
           ++ (if Z.of_nat i + B <? Z.of_nat (length users)
               then [Sleep (inject_Z D)] else [])).

End BatchesTerms.

End InvitesLoopTerms.

(** The iteration writes exactly one row, it carries [k] in column [key], and
    nothing but requests precede the write: in particular no sleep does. *)
Definition written_once (key k : string) (evs : list event) : Prop :=
  exists pre r post,
    evs = pre ++ Append [r] :: post
    /\ forallb is_call pre = true
    /\ appended post = []
    /\ r !! key = Some k.

Section SamplesTerms.

(** A patient file with three patients, no result log yet, and a session in
    which every request outside the loop succeeds. *)
Definition patient_row (card name phone : string) : reader_row :=
  fields [("Card No.", card); ("Name", name); ("C-Phone", phone)].

Definition clinic_rows : list reader_row :=
  [patient_row "1" "Abebe Kebede" "0911111111";
   patient_row "2" "Sara Tesfaye" "0922222222";
   patient_row "3" "Dawit Haile" "0933333333"].

Definition clinic (ws : nat -> AddPatients.world) : AddPatients.session :=
  AddPatients.Session (Ok tt) (Ok true) (Ok tt) (Some clinic_rows) None (Ok tt) ws (Ok tt).

Definition abebe_kebede : AddPatients.patient :=
  AddPatients.Patient "1" "Abebe Kebede" "Abebe" "Kebede" "+251911111111".

Definition sara_tesfaye : AddPatients.patient :=
  AddPatients.Patient "2" "Sara Tesfaye" "Sara" "Tesfaye" "+251922222222".

Definition dawit_haile : AddPatients.patient :=
  AddPatients.Patient "3" "Dawit Haile" "Dawit" "Haile" "+251933333333".

(** What Telegram may answer for a patient: the invite succeeds, the number
    is not on Telegram, or the invite raises [e]. *)
Definition not_a_member : result unit := Raise (Exn UserNotParticipantError "").

Definition added : AddPatients.world :=
  AddPatients.World (Ok (Some 7)) not_a_member (Ok tt) (Ok tt) 100 "2024-01-01 10:00:00".

Definition absent : AddPatients.world :=
  AddPatients.World (Ok None) (Ok tt) (Ok tt) (Ok tt) 3 "2024-01-01 10:00:00".

Definition refused (e : error_class) : AddPatients.world :=
  AddPatients.World (Ok (Some 7)) not_a_member (Raise (Exn e "refused")) (Ok tt) 3
                    "2024-01-01 10:00:00".

(** The first patient gets the answer [first], the others are added. *)
Definition first_then_added (first : AddPatients.world) (i : nat) : AddPatients.world :=
  match i with O => first | _ => added end.

(** A user file for [safe_dm_invite.py] with two users, and what Telegram
    may answer for a user. *)
Definition dm_rows : list reader_row :=
  [fields [("user_id", "1"); ("username", ""); ("first_name", "Abebe")];
   fields [("user_id", "2"); ("username", ""); ("first_name", "Sara")]].

Definition delivered : SafeDM.world :=
  SafeDM.World (Raise (Exn UsernameNotOccupiedError "")) (Ok 1) (Ok tt) 0 100
               "2024-01-01 10:00:00".


(** No [messages.txt] and no channel link are set: the default message is
    sent, with ['[LINK]'] for the link. *)
Definition mailing (rows : list reader_row) (ws : nat -> SafeDM.world) : SafeDM.session :=
  SafeDM.Session (Ok tt) (Ok true) None None (Some rows) None ws (Ok tt).

Definition default_text : string := "Hello! Join our channel here: [LINK]".


(** Two users for [invite_users_to_channel.py]; the invite of the first
    raises [e]. *)
Definition invite_rows : list reader_row :=
  [fields [("user_id", "1"); ("username", "")];
   fields [("user_id", "2"); ("username", "")]].

Definition rejected (e : error_class) : InviteUsers.world :=
  InviteUsers.World (Raise (Exn UsernameNotOccupiedError "")) (Ok 1) (Ok 1)
                    not_a_member (Raise (Exn e "refused")) "2024-01-01 10:00:00".

Definition first_rejected (e : error_class) : InviteUsers.session :=
  InviteUsers.Session (Ok true) (Some invite_rows) None (Ok tt)
    (fun i => match i with O => rejected e | _ => newcomer end) (Ok tt).

End SamplesTerms.

Section ThrottlingTerms.


End ThrottlingTerms.

Section ExitStatusTerms.

(** A complete configuration for each of the two scripts. *)
Definition patients_environ : AddPatients.environ :=
  AddPatients.Environ (Some "12345") (Some "0123456789abcdef") (Some "@clinic").

Definition invites_environ : InviteUsers.environ :=
  InviteUsers.Environ (Some "12345") (Some "0123456789abcdef") (Some "@clinic") None None.

(** The patient file is missing. *)
Definition no_patient_file : AddPatients.session :=
  AddPatients.Session (Ok tt) (Ok true) (Ok tt) None None (Ok tt) (fun _ => added) (Ok tt).

End ExitStatusTerms.

Section ResumeSamplesTerms.

(** The clinic's file with a result log in which the first patient is
    recorded as failed. *)
Definition resumed_clinic : AddPatients.session :=
  AddPatients.Session (Ok tt) (Ok true) (Ok tt) (Some clinic_rows)
    (Some [dict [("phone", "+251911111111"); ("status", "Failed")]])
    (Ok tt) (fun _ => added) (Ok tt).

Definition resumed_mailing : SafeDM.session :=
  SafeDM.Session (Ok tt) (Ok true) None None (Some dm_rows)
    (Some [dict [("user_id", "1"); ("status", "Failed")]]) (fun _ => delivered) (Ok tt).

End ResumeSamplesTerms.

Section WordsTerms.

(** A word, as [str.split] yields it: not empty and free of whitespace. *)
Definition word (w : string) : Prop :=
  w <> "" /\ Py.all_chars (fun c => negb (Py.isspace c)) w = true.

End WordsTerms.

Section LaterRunsTerms.

(** The same outside, with the result log as the run [r] left it; [earlier]
    is what was done before [r] since the log did not exist. *)
Definition later_patients (earlier : list event) (s : AddPatients.session)
    (r : AddPatients.run) : AddPatients.session :=
  AddPatients.Session (AddPatients.start s) (AddPatients.is_user_authorized s)
    (AddPatients.get_me s) (AddPatients.csv_file s)
    (output_after (earlier ++ AddPatients.trace r))
    (AddPatients.get_channel s) (AddPatients.worlds s) (AddPatients.disconnect s).

Definition later_messages (earlier : list event) (s : SafeDM.session) (r : SafeDM.run)
  : SafeDM.session :=
  SafeDM.Session (SafeDM.start s) (SafeDM.is_user_authorized s)
    (SafeDM.TG_TARGET_CHANNEL_LINK s) (SafeDM.messages_file s) (SafeDM.csv_file s)
    (output_after (earlier ++ SafeDM.trace r))
    (SafeDM.worlds s) (SafeDM.disconnect s).

End LaterRunsTerms.

Section RequestsTerms.

(** Whether throttling cuts the iteration short: a [PeerFloodError] or a
    [FloodWaitError] leaves the [try] block. *)
Definition cut_short (p : AddPatients.patient) (w : AddPatients.world) : bool :=
  match escaping p w with
  | Some e => throttle e
  | None => false
  end.

(** The contact import raises [e]; and the membership check fails with an
    error of its own, after which the invite raises [e]. *)
Definition import_fails (e : error_class) : AddPatients.world :=
  AddPatients.World (Raise (Exn e "refused")) not_a_member (Ok tt) (Ok tt) 100
                    "2024-01-01 10:00:00".

Definition check_fails (e : error_class) : AddPatients.world :=
  AddPatients.World (Ok (Some 7)) (Raise (Exn OtherError "timeout"))
                    (Raise (Exn e "refused")) (Ok tt) 3 "2024-01-01 10:00:00".

End RequestsTerms.

Section CountersTerms.

(** The number of rows that carry [status]. *)
Definition tally (status : string) (rows : list row) : Z :=
  Z.of_nat (length (List.filter (has_status status) rows)).

Definition three_users : list InviteUsers.user :=
  [InviteUsers.User "1" "" "" ""; InviteUsers.User "2" "" "" "";
   InviteUsers.User "3" "" "" ""].

End CountersTerms.

Section MessageTerms.

(** What [TARGET_CHANNEL_LINK or "[LINK]"] evaluates to. *)
Definition link_or_default (link : option string) : string :=
  match link with
  | Some l => if Py.truthy l then l else "[LINK]"
  | None => "[LINK]"
  end.

End MessageTerms.

Section ConfigurationTerms.


End ConfigurationTerms.

(** * Verification *)

(** ** Facts about the string operations *)

Section StringFacts.

Local Open Scope nat_scope.

Lemma app_String (c : char) (a b : string) :
  String c a +:+ b = String c (a +:+ b).
Proof. reflexivity. Qed.

Lemma length_app (a b : string) :
  Py.len (a +:+ b) = Py.len a + Py.len b.
Proof. induction a as [|c a IH]; simpl; [reflexivity | now rewrite IH]. Qed.

Lemma all_chars_app f (a b : string) :
  Py.all_chars f (a +:+ b) = Py.all_chars f a && Py.all_chars f b.
Proof.
  induction a as [|c a IH]; simpl; [reflexivity|].
  now rewrite IH, andb_assoc.
Qed.

Lemma all_chars_impl (f g : char -> bool) (s : string) :
  (forall c, f c = true -> g c = true) ->
  Py.all_chars f s = true -> Py.all_chars g s = true.
Proof.
  intros Hfg. induction s as [|c s IH]; simpl; [reflexivity|].
  intros [Hc Hs]%andb_true_iff. rewrite (Hfg _ Hc), (IH Hs). reflexivity.
Qed.

Lemma all_chars_slice_from f n (s : string) :
  Py.all_chars f s = true -> Py.all_chars f (Py.slice_from n s) = true.
Proof.
  revert s. induction n as [|n IH]; intros [|c s]; simpl; try reflexivity.
  - intros H; exact H.
  - intros [_ Hs]%andb_true_iff. now apply IH.
Qed.

Lemma length_slice_from n (s : string) :
  Py.len (Py.slice_from n s) = Py.len s - n.
Proof.
  revert s. induction n as [|n IH]; intros [|c s]; simpl; try reflexivity.
  apply IH.
Qed.

(** [s.startswith(p)] splits [s] at [len(p)]. *)
Lemma prefix_split (p s : string) :
  Py.startswith p s = true -> s = p +:+ Py.slice_from (Py.len p) s.
Proof.
  revert s. induction p as [|a p IH]; intros s; simpl.
  - destruct s; reflexivity.
  - destruct s as [|b s]; simpl; [discriminate|].
    intros [Hab H]%andb_true_iff. apply N.eqb_eq in Hab as ->.
    f_equal. now apply IH.
Qed.

Lemma sub_non_digits_all (s : string) :
  Py.all_chars Py.isdigit (Py.sub_non_digits s) = true.
Proof.
  induction s as [|c s IH]; simpl; [reflexivity|].
  destruct (Py.isdigit c) eqn:Hc; simpl; [rewrite Hc|]; exact IH.
Qed.

Lemma sub_non_digits_id (s : string) :
  Py.all_chars Py.isdigit s = true -> Py.sub_non_digits s = s.
Proof.
  induction s as [|c s IH]; simpl; [reflexivity|].
  intros [Hc Hs]%andb_true_iff. rewrite Hc. f_equal. now apply IH.
Qed.

Lemma lstrip_with_id f (s : string) :
  Py.all_chars (fun c => negb (f c)) s = true -> Py.lstrip_with f s = s.
Proof.
  destruct s as [|c s]; simpl; [reflexivity|].
  intros [Hc _]%andb_true_iff. apply negb_true_iff in Hc. now rewrite Hc.
Qed.

Lemma rstrip_with_id f (s : string) :
  Py.all_chars (fun c => negb (f c)) s = true -> Py.rstrip_with f s = s.
Proof.
  induction s as [|c s IH]; simpl; [reflexivity|].
  intros [Hc Hs]%andb_true_iff. apply negb_true_iff in Hc.
  rewrite (IH Hs), Hc. destruct s; reflexivity.
Qed.

Lemma strip_id (s : string) :
  Py.all_chars (fun c => negb (Py.isspace c)) s = true -> Py.strip s = s.
Proof.
  intros H. unfold Py.strip. rewrite (lstrip_with_id _ _ H). now apply rstrip_with_id.
Qed.

(** Replacing a character that does not occur changes nothing. *)
Lemma replace_absent (a : char) (new s : string) :
  Py.all_chars (fun c => negb (N.eqb a c)) s = true ->
  Py.replace (String a EmptyString) new s = s.
Proof.
  unfold Py.replace. induction s as [|c s IH]; simpl; [reflexivity|].
  intros [Hc Hs]%andb_true_iff. apply negb_true_iff in Hc.
  rewrite Hc. cbn [andb]. f_equal. now apply IH.
Qed.

(** Character classes are compared range by range. *)
Lemma in_ranges_iff (c : char) (l : list (N * N)) :
  Py.in_ranges c l = true <-> exists r, In r l /\ (fst r <= c <= snd r)%N.
Proof.
  unfold Py.in_ranges. rewrite existsb_exists.
  split; intros (r & Hr & H); exists r; (split; [exact Hr|]).
  - apply andb_true_iff in H as [H1 H2]. apply N.leb_le in H1, H2. lia.
  - apply andb_true_iff. split; apply N.leb_le; lia.
Qed.

Lemma apart_sound (l1 l2 : list (N * N)) (c : char) :
  apart l1 l2 = true -> Py.in_ranges c l1 = true -> Py.in_ranges c l2 = false.
Proof.
  intros Hap (r1 & Hr1 & H1)%in_ranges_iff.
  destruct (Py.in_ranges c l2) eqn:H2; [|reflexivity].
  apply in_ranges_iff in H2 as (r2 & Hr2 & H2).
  unfold apart in Hap. rewrite forallb_forall in Hap. specialize (Hap r1 Hr1).
  rewrite forallb_forall in Hap. specialize (Hap r2 Hr2).
  apply orb_true_iff in Hap as [H|H]; apply N.ltb_lt in H; lia.
Qed.


Lemma isdigit_not_space (c : char) :
  Py.isdigit c = true -> negb (Py.isspace c) = true.
Proof.
  intros H. apply negb_true_iff.
  exact (apart_sound Py.decimal_digits Py.whitespace c eq_refl H).
Qed.

Lemma isdigit_not_char (a c : char) :
  Py.isdigit a = false -> Py.isdigit c = true -> negb (N.eqb a c) = true.
Proof.
  intros Ha Hc. apply negb_true_iff, N.eqb_neq. intros Heq. subst. congruence.
Qed.

Lemma truthy_length (s : string) : Py.truthy s = true <-> 0 < Py.len s.
Proof. destruct s; simpl; split; (discriminate || lia || reflexivity). Qed.

End StringFacts.

(** ** [normalize_phone] *)

Section NormalizePhone.

Import AddPatients.

Lemma international_length (s : string) : international s -> Py.len s = 13%nat.
Proof. intros (d & -> & Hd & _). rewrite length_app, Hd. reflexivity. Qed.

Lemma classify_digits (digits : string) :
  digits_or_plus digits ->
  let out :=
    if Py.startswith "09" digits && (Py.len digits =? 10)%nat
    then "+251" +:+ Py.slice_from 1 digits
    else if Py.startswith "+251" digits && (Py.len digits =? 13)%nat
    then digits
    else if Py.startswith "251" digits && (Py.len digits =? 12)%nat
    then "+" +:+ digits
    else "" in
  out = "" \/ international out.
Proof.
  intros Hd out. subst out.
  destruct (Py.startswith "09" digits && (Py.len digits =? 10)%nat) eqn:H09.
  { right. apply andb_true_iff in H09 as [Hp Hl]. apply Nat.eqb_eq in Hl.
    exists (Py.slice_from 1 digits). split; [reflexivity|]. split.
    - rewrite length_slice_from, Hl. reflexivity.
    - destruct Hd as [Hd|(r & -> & _)]; [now apply all_chars_slice_from|].
      discriminate Hp. }
  destruct (Py.startswith "+251" digits && (Py.len digits =? 13)%nat) eqn:Hi.
  { right. apply andb_true_iff in Hi as [Hp Hl]. apply Nat.eqb_eq in Hl.
    destruct Hd as [Hd|(r & -> & Hr)].
    - (* a string of digits does not start with '+' *)
      apply prefix_split in Hp. rewrite Hp, all_chars_app in Hd. discriminate Hd.
    - exists (Py.slice_from 4 (String "+" r)). split; [now apply prefix_split|]. split.
      + rewrite length_slice_from, Hl. reflexivity.
      + change (Py.slice_from 4 (String "+" r)) with (Py.slice_from 3 r).
        now apply all_chars_slice_from. }
  destruct (Py.startswith "251" digits && (Py.len digits =? 12)%nat) eqn:H251;
    [|left; reflexivity].
  right. apply andb_true_iff in H251 as [Hp Hl]. apply Nat.eqb_eq in Hl.
  destruct Hd as [Hd|(r & -> & _)]; [|discriminate Hp].
  exists (Py.slice_from 3 digits). split; [|split].
  - apply prefix_split in Hp. rewrite Hp at 1. reflexivity.
  - rewrite length_slice_from, Hl. reflexivity.
  - now apply all_chars_slice_from.
Qed.

Lemma normalize_phone_cases (phone : string) :
  normalize_phone phone = "" \/ international (normalize_phone phone).
Proof.
  unfold normalize_phone.
  set (cleaned := Py.replace "-" "" (Py.replace " " "" (Py.strip phone))).
  destruct (negb (Py.truthy cleaned) || (Py.len cleaned <? 8)%nat);
    [left; reflexivity|].
  apply classify_digits.
  destruct (Py.startswith "+" cleaned).
  - right. eexists. split; [reflexivity | apply sub_non_digits_all].
  - left. apply sub_non_digits_all.
Qed.

Lemma normalize_phone_local (s : string) :
  Py.len s = 10%nat ->
  Py.all_chars Py.isdigit s = true ->
  Py.startswith "09" s = true ->
  normalize_phone s = "+251" +:+ Py.slice_from 1 s.
Proof.
  intros Hlen Hdig Hpre. unfold normalize_phone.
  rewrite (strip_id s) by (eapply all_chars_impl; [apply isdigit_not_space | exact Hdig]).
  rewrite (replace_absent " " "" s)
    by (eapply all_chars_impl; [intros c Hc; apply isdigit_not_char; [reflexivity | exact Hc] | exact Hdig]).
  rewrite (replace_absent "-" "" s)
    by (eapply all_chars_impl; [intros c Hc; apply isdigit_not_char; [reflexivity | exact Hc] | exact Hdig]).
  assert (Ht : Py.truthy s = true) by (apply truthy_length; lia).
  rewrite Ht, Hlen. simpl negb. simpl orb. cbv iota.
  assert (Hplus : Py.startswith "+" s = false).
  { apply prefix_split in Hpre. rewrite Hpre. reflexivity. }
  rewrite Hplus, (sub_non_digits_id s Hdig), Hpre, Hlen. reflexivity.
Qed.

(** Deleting one character, [s.replace(c, '')], character by character. *)
Lemma replace_char_cons (a c : char) (s : string) :
  Py.replace (String a EmptyString) "" (String c s)
  = if N.eqb a c then Py.replace (String a EmptyString) "" s
    else String c (Py.replace (String a EmptyString) "" s).
Proof.
  unfold Py.replace. cbn [Py.replace_from Py.startswith Py.len Nat.sub].
  destruct (N.eqb a c); cbn [andb]; [destruct s|]; reflexivity.
Qed.

Lemma replace_char_app (a : char) (s t : string) :
  Py.replace (String a EmptyString) "" (s +:+ t)
  = Py.replace (String a EmptyString) "" s +:+ Py.replace (String a EmptyString) "" t.
Proof.
  induction s as [|c s IH]; [reflexivity|].
  rewrite app_String, !replace_char_cons. destruct (N.eqb a c); [exact IH|].
  rewrite app_String. now f_equal.
Qed.

Lemma sub_non_digits_replace_char (a : char) (s : string) :
  Py.isdigit a = false ->
  Py.sub_non_digits (Py.replace (String a EmptyString) "" s) = Py.sub_non_digits s.
Proof.
  intros Ha. induction s as [|c s IH]; [reflexivity|].
  rewrite replace_char_cons. destruct (N.eqb a c) eqn:Hac.
  - apply N.eqb_eq in Hac as <-. cbn [Py.sub_non_digits]. now rewrite Ha.
  - cbn [Py.sub_non_digits]. now rewrite IH.
Qed.

Lemma isspace_not_digit (c : char) : Py.isspace c = true -> Py.isdigit c = false.
Proof.
  intros Hs. destruct (Py.isdigit c) eqn:Hd; [|reflexivity].
  apply isdigit_not_space in Hd. rewrite Hs in Hd. discriminate.
Qed.

Lemma sub_non_digits_lstrip (s : string) :
  Py.sub_non_digits (Py.lstrip_with Py.isspace s) = Py.sub_non_digits s.
Proof.
  induction s as [|c s IH]; [reflexivity|].
  cbn [Py.lstrip_with]. destruct (Py.isspace c) eqn:Hc; [|reflexivity].
  cbn [Py.sub_non_digits]. now rewrite (isspace_not_digit c Hc).
Qed.

Lemma sub_non_digits_rstrip (s : string) :
  Py.sub_non_digits (Py.rstrip_with Py.isspace s) = Py.sub_non_digits s.
Proof.
  induction s as [|c s IH]; [reflexivity|].
  cbn [Py.rstrip_with Py.sub_non_digits]. rewrite <- IH.
  destruct (Py.rstrip_with Py.isspace s) as [|c' r].
  - destruct (Py.isspace c) eqn:Hc.
    + now rewrite (isspace_not_digit c Hc).
    + cbn [Py.sub_non_digits]. reflexivity.
  - reflexivity.
Qed.

Lemma sub_non_digits_strip (s : string) :
  Py.sub_non_digits (Py.strip s) = Py.sub_non_digits s.
Proof. unfold Py.strip. now rewrite sub_non_digits_rstrip, sub_non_digits_lstrip. Qed.

(** The digits of the cleaned number (line 67) are those of the input. *)
Lemma sub_non_digits_cleaned (phone : string) :
  Py.sub_non_digits (Py.replace "-" "" (Py.replace " " "" (Py.strip phone)))
  = Py.sub_non_digits phone.
Proof.
  rewrite !sub_non_digits_replace_char by reflexivity. apply sub_non_digits_strip.
Qed.

Lemma prefix_plus_digits (s : string) :
  Py.startswith "+" s = true ->
  Py.sub_non_digits (Py.slice_from 1 s) = Py.sub_non_digits s.
Proof.
  intros H. apply prefix_split in H. rewrite H at 2. reflexivity.
Qed.

Lemma prefix_String_digit (c : char) (p s : string) :
  Py.isdigit c = false -> Py.all_chars Py.isdigit s = true ->
  Py.startswith (String c p) s = false.
Proof.
  intros Hc Hs. destruct s as [|b s]; [reflexivity|]. cbn [Py.startswith].
  destruct (N.eqb_spec c b) as [->|]; [|reflexivity].
  cbn [Py.all_chars] in Hs. rewrite Hc in Hs. discriminate.
Qed.

(** What [normalize_phone] returns is made of the decimal digits of its
    input: it is empty, or ['+251'] and what follows the first digit, or
    the first three digits, of the input's digits. *)
Lemma normalize_phone_from_digits (phone : string) :
  normalize_phone phone = ""
  \/ exists n, normalize_phone phone
               = "+251" +:+ Py.slice_from n (Py.sub_non_digits phone).
Proof.
  unfold normalize_phone.
  pose proof (sub_non_digits_cleaned phone) as Hclean.
  pose proof (sub_non_digits_all phone) as HD.
  set (D := Py.sub_non_digits phone) in *.
  set (cleaned := Py.replace "-" "" (Py.replace " " "" (Py.strip phone))) in *.
  destruct (negb (Py.truthy cleaned) || (Py.len cleaned <? 8)%nat); [now left|].
  destruct (Py.startswith "+" cleaned) eqn:Hplus.
  - rewrite (prefix_plus_digits _ Hplus), Hclean.
    change (Py.startswith "09" ("+" +:+ D)) with false.
    change (Py.startswith "251" ("+" +:+ D)) with false.
    change (Py.startswith "+251" ("+" +:+ D)) with (Py.startswith "251" D).
    cbn [andb].
    destruct (Py.startswith "251" D) eqn:Hp; cbn [andb]; [|now left].
    destruct (Py.len ("+" +:+ D) =? 13)%nat; [|now left].
    right. exists 3%nat. apply prefix_split in Hp. rewrite Hp at 1. reflexivity.
  - rewrite Hclean.
    destruct (Py.startswith "09" D && (Py.len D =? 10)%nat); [right; now exists 1%nat|].
    rewrite (prefix_String_digit "+" "251" D eq_refl HD). cbn [andb].
    destruct (Py.startswith "251" D) eqn:Hp; cbn [andb]; [|now left].
    destruct (Py.len D =? 12)%nat; [|now left].
    right. exists 3%nat. apply prefix_split in Hp. rewrite Hp at 1. reflexivity.
Qed.

(** C10, as stated, fails: the pattern [\d] matches the decimal digits of
    every script, and [normalize_phone] returns a number written with
    ['+251'] and nine Arabic-Indic digits as it is, 13 characters of which
    the last nine are not among ['0'] to ['9']. *)
Lemma normalize_phone_keeps_foreign_digits :
  normalize_phone arabic_indic_number = arabic_indic_number
  /\ Py.len arabic_indic_number = 13%nat
  /\ Py.slice_to 4 arabic_indic_number = "+251"
  /\ Py.all_chars (fun c => negb (ascii_digit c)) (Py.slice_from 4 arabic_indic_number)
     = true
  /\ ~ international_ascii arabic_indic_number.
Proof.
  split; [reflexivity|]. split; [reflexivity|]. split; [reflexivity|].
  split; [reflexivity|].
  intros (d & Heq & _ & Hd). injection Heq as <-. discriminate Hd.
Qed.

(** C10 (amended). For every input string, [normalize_phone] returns the
    empty string or a string of 13 characters made of ['+251'] and exactly
    nine decimal digits, where a decimal digit is a character that the
    pattern [\d] matches: a digit of any script. The nine digits are among
    ['0'] to ['9'] when all the decimal digits of the input are. A local
    number of ten decimal digits that starts with ['09'] is returned as
    ['+251'] followed by its last nine digits. *)
Theorem normalize_phone_international :
  (forall phone : string,
      normalize_phone phone = ""
      \/ (Py.len (normalize_phone phone) = 13%nat
          /\ international (normalize_phone phone)))
  /\ (forall phone : string,
        Py.all_chars ascii_digit (Py.sub_non_digits phone) = true ->
        normalize_phone phone = "" \/ international_ascii (normalize_phone phone))
  /\ (forall s : string,
        Py.len s = 10%nat ->
        Py.all_chars Py.isdigit s = true ->
        Py.startswith "09" s = true ->
        normalize_phone s = "+251" +:+ Py.slice_from 1 s).
Proof.
  split; [|split].
  - intros phone. destruct (normalize_phone_cases phone) as [H|H]; [now left|right].
    split; [now apply international_length | exact H].
  - intros phone Hascii.
    destruct (normalize_phone_from_digits phone) as [H|[n H]]; [now left|right].
    exists (Py.slice_from n (Py.sub_non_digits phone)).
    split; [exact H|]. split; [|now apply all_chars_slice_from].
    destruct (normalize_phone_cases phone) as [H0|Hint]; [rewrite H in H0; discriminate|].
    apply international_length in Hint. rewrite H, length_app in Hint.
    cbn [Py.len] in Hint. lia.
  - exact normalize_phone_local.
Qed.

Lemma normalize_phone_international_witness :
  (normalize_phone "091-234 5678" = ""
   \/ international_ascii (normalize_phone "091-234 5678"))
  /\ normalize_phone "0912345678" = "+251912345678".
Proof.
  split.
  - exact (proj1 (proj2 normalize_phone_international) "091-234 5678" eq_refl).
  - exact (proj2 (proj2 normalize_phone_international) "0912345678"
             eq_refl eq_refl eq_refl).
Defined.

End NormalizePhone.

(** ** Loading the work items *)

Section ReadPatients.

Import AddPatients.

Lemma phone_new_patient c n k : phone (new_patient c n k) = k.
Proof. reflexivity. Qed.

Lemma strip_field_column (r : reader_row) (k : string) :
  r !! k <> Some None ->
  strip_field (get_field r k (Some "")) = Ok (Py.strip (column r k)).
Proof.
  unfold column, get_field. destruct (r !! k) as [[v|]|]; [reflexivity| |reflexivity].
  intros H. now contradict H.
Qed.

Lemma strip_field_raises (r : reader_row) (k : string) (s : string) :
  strip_field (get_field r k (Some "")) = Ok s -> r !! k <> Some None.
Proof. unfold get_field. destruct (r !! k) as [[v|]|]; now try discriminate. Qed.

(** A turn of the loop raises for a row that has [None] in one of the three
    columns, and only for such a row. *)
Lemma read_row_filled ps seen r acc :
  read_row (ps, seen) r = Ok acc -> filled ["Name"; "C-Phone"; "Card No."] r.
Proof.
  unfold read_row.
  destruct (strip_field (get_field r "Name" _)) as [name|] eqn:Hn; [|discriminate].
  destruct (strip_field (get_field r "C-Phone" _)) as [phone|] eqn:Hp; [|discriminate].
  destruct (strip_field (get_field r "Card No." _)) as [card|] eqn:Hc; [|discriminate].
  intros _ k Hk.
  repeat (apply elem_of_cons in Hk as [->|Hk]); [| | |inversion Hk];
    eauto using strip_field_raises.
Qed.

(** Otherwise it either skips the row or appends its entry. *)
Lemma read_row_cases (ps : list patient) (seen : gset string) (r : reader_row) :
  filled ["Name"; "C-Phone"; "Card No."] r ->
  (read_row (ps, seen) r = Ok (ps, seen)
   /\ (Py.truthy (patient_key r) = false \/ patient_key r ∈ seen))
  \/ (read_row (ps, seen) r = Ok (ps ++ [patient_entry r], {[patient_key r]} ∪ seen)
      /\ Py.truthy (patient_key r) = true /\ patient_key r ∉ seen).
Proof.
  intros Hr. unfold read_row, patient_entry, patient_key.
  rewrite !strip_field_column by (apply Hr; set_solver).
  cbn [mbind result_bind].
  destruct (Py.truthy (Py.strip (column r "C-Phone"))) eqn:Hphone; simpl.
  - destruct (Py.truthy (normalize_phone _)) eqn:Hnorm; simpl.
    + case_bool_decide; [left | right]; auto.
    + left. auto.
  - left. split; [reflexivity|]. left.
    destruct (Py.strip (column r "C-Phone")); [reflexivity | discriminate].
Qed.

Lemma loaded_nil : loaded [] [] ∅.
Proof.
  split.
  - intros k. set_solver.
  - constructor.
  - intros p Hp. inversion Hp.
  - intros r Hr. inversion Hr.
Qed.

Lemma loaded_step rows ps seen r acc :
  read_row (ps, seen) r = Ok acc ->
  loaded rows ps seen -> loaded (rows ++ [r]) (fst acc) (snd acc).
Proof.
  intros Hread [Hseen Hnd Hfirst Hall].
  destruct (read_row_cases ps seen r (read_row_filled _ _ _ _ Hread))
    as [[Heq Hskip]|(Heq & Hk & Hnew)];
    rewrite Heq in Hread; injection Hread as <-; simpl.
  - split; auto.
    + intros p Hp. destruct (Hfirst p Hp) as (b & r0 & a & -> & Hrest).
      exists b, r0, (a ++ [r]). split; [now rewrite <- app_assoc | exact Hrest].
    + intros r' [Hr'|Hr']%elem_of_app Ht; [now apply Hall|].
      apply list_elem_of_singleton in Hr' as ->.
      destruct Hskip as [Hf|Hin]; [congruence | now apply Hseen].
  - split.
    + intros k. rewrite fmap_app, elem_of_app, elem_of_union, elem_of_singleton.
      simpl. rewrite list_elem_of_singleton, Hseen. tauto.
    + rewrite fmap_app. apply NoDup_app. split; [exact Hnd|]. split.
      * intros k Hin Hk'. simpl in Hk'. apply list_elem_of_singleton in Hk' as ->.
        apply Hnew, Hseen, Hin.
      * apply NoDup_singleton.
    + intros p [Hp|Hp]%elem_of_app.
      * destruct (Hfirst p Hp) as (b & r0 & a & -> & Hrest).
        exists b, r0, (a ++ [r]). split; [now rewrite <- app_assoc | exact Hrest].
      * apply list_elem_of_singleton in Hp as ->.
        exists rows, r, []. split; [reflexivity|]. split; [reflexivity|].
        split; [exact Hk|].
        intros r' Hr' Heq'. simpl in Heq'.
        apply Hnew, Hseen. rewrite <- Heq'. apply Hall; [exact Hr'|].
        rewrite Heq'. exact Hk.
    + intros r' [Hr'|Hr']%elem_of_app Ht; rewrite fmap_app, elem_of_app.
      * left. now apply Hall.
      * right. apply list_elem_of_singleton in Hr' as ->. simpl.
        apply list_elem_of_singleton. reflexivity.
Qed.

Lemma loaded_fold rows more ps seen acc :
  read_rows more (ps, seen) = Ok acc ->
  loaded rows ps seen -> loaded (rows ++ more) (fst acc) (snd acc).
Proof.
  revert rows ps seen.
  induction more as [|r more IH]; intros rows ps seen; cbn [read_rows].
  - intros [= <-] H. now rewrite app_nil_r.
  - destruct (read_row (ps, seen) r) as [[ps' seen']|e] eqn:Hr; [|discriminate].
    cbn [mbind result_bind]. intros Hrest H.
    replace (rows ++ r :: more) with ((rows ++ [r]) ++ more)
      by now rewrite <- app_assoc.
    apply (IH _ ps' seen' Hrest). exact (loaded_step _ _ _ r _ Hr H).
Qed.



(** The patient file: one entry per distinct valid phone number, built from
    the first row that carries it. *)
Lemma read_patient_csv_first rows ps :
  read_patient_csv (Some rows) = Ok ps ->
  NoDup (phone <$> ps)
  /\ (forall r, r ∈ rows -> patient_key r <> "" ->
        exists p, p ∈ ps /\ phone p = patient_key r)
  /\ (forall p, p ∈ ps ->
        exists before r after,
          rows = before ++ r :: after /\ p = patient_entry r /\ phone p <> ""
          /\ forall r', r' ∈ before -> patient_key r' <> phone p).
Proof.
  unfold read_patient_csv.
  destruct (read_rows rows ([], ∅)) as [[ps0 seen]|e] eqn:Hread; [|discriminate].
  cbn [fmap result_fmap fst]. intros [= <-].
  destruct (loaded_fold [] rows [] ∅ _ Hread loaded_nil) as [_ Hnd Hfirst Hall].
  simpl in *. split; [exact Hnd|]. split.
  - intros r Hr Hk.
    assert (Ht : Py.truthy (patient_key r) = true)
      by (destruct (patient_key r); [congruence | reflexivity]).
    destruct (proj1 (list_elem_of_fmap _ _ _) (Hall r Hr Ht)) as (p & Hp & Hin). eauto.
  - intros p Hp. destruct (Hfirst p Hp) as (b & r & a & -> & -> & Ht & Hb).
    exists b, r, a. repeat split; auto.
    intros Heq. rewrite Heq in Ht. discriminate.
Qed.

End ReadPatients.

Section ReadUsers.

Import InviteUsers.

Lemma truthy_nonempty (s : string) : Py.truthy s = true <-> s <> "".
Proof. destruct s; simpl; split; congruence. Qed.

Lemma truthy_empty (s : string) : Py.truthy s = false <-> s = "".
Proof. destruct s; simpl; split; congruence. Qed.

(** A turn of the loop skips an empty row and a row whose id was seen, and
    appends the entry of any other row. *)
Lemma read_user_row_filled us seen r acc :
  read_row (us, seen) r = Ok acc -> filled ["user_id"; "username"] r.
Proof.
  unfold read_row.
  destruct (strip_field (get_field r "user_id" _)) as [uid|] eqn:Hi; [|discriminate].
  destruct (strip_field (get_field r "username" _)) as [name|] eqn:Hn; [|discriminate].
  intros _ k Hk.
  repeat (apply elem_of_cons in Hk as [->|Hk]); [| |inversion Hk];
    eauto using strip_field_raises.
Qed.

Lemma read_user_row_cases (us : list user) (seen : gset string) (r : reader_row) :
  filled ["user_id"; "username"] r ->
  (read_row (us, seen) r = Ok (us, seen)
   /\ ((row_user_id r = "" /\ row_username r = "")
       \/ (row_user_id r <> "" /\ row_user_id r ∈ seen)))
  \/ (read_row (us, seen) r = Ok (us ++ [user_entry r], {[row_user_id r]} ∪ seen)
      /\ row_user_id r <> "" /\ row_user_id r ∉ seen)
  \/ (read_row (us, seen) r = Ok (us ++ [user_entry r], seen) /\ name_only r).
Proof.
  intros Hr. unfold read_row, user_entry, name_only, row_user_id, row_username.
  rewrite !strip_field_column by (apply Hr; set_solver).
  cbn [mbind result_bind]. fold (column r "first_name") (column r "last_name").
  destruct (Py.truthy (Py.strip (column r "user_id"))) eqn:Hid; simpl.
  - apply truthy_nonempty in Hid. case_bool_decide; simpl.
    + left. auto.
    + right. left. auto.
  - apply truthy_empty in Hid.
    destruct (Py.truthy (Py.strip (column r "username"))) eqn:Hname; simpl.
    + apply truthy_nonempty in Hname. right. right. auto.
    + apply truthy_empty in Hname. left. auto.
Qed.

Lemma users_loaded_nil : users_loaded [] [] ∅.
Proof.
  split.
  - intros k. split; [set_solver|]. intros [_ H]. inversion H.
  - constructor.
  - intros u Hu. inversion Hu.
  - intros r Hr. inversion Hr.
  - reflexivity.
Qed.

Lemma users_loaded_step rows us seen r acc :
  read_row (us, seen) r = Ok acc ->
  users_loaded rows us seen -> users_loaded (rows ++ [r]) (fst acc) (snd acc).
Proof.
  intros Hread [Hseen Hnd Hfirst Hall Hname].
  assert (Hkeep : forall u, u ∈ us ->
    exists before r0 after,
      rows ++ [r] = before ++ r0 :: after /\ u = user_entry r0
      /\ (user_id u <> "" \/ username u <> "")
      /\ (user_id u <> "" -> forall r', r' ∈ before -> row_user_id r' <> user_id u)).
  { intros u Hu. destruct (Hfirst u Hu) as (b & r0 & a & -> & Hrest).
    exists b, r0, (a ++ [r]). split; [now rewrite <- app_assoc | exact Hrest]. }
  destruct (read_user_row_cases us seen r (read_user_row_filled _ _ _ _ Hread))
    as [[Hrow Hskip]|[(Hrow & Hid & Hnew)|(Hrow & Hempty & Hnm)]];
    rewrite Hrow in Hread; injection Hread as <-; clear Hrow; cbn [fst snd].
  - (* the row is skipped *)
    split; auto.
    + intros r' [Hr'|Hr']%elem_of_app Ht; [now apply Hall|].
      apply list_elem_of_singleton in Hr' as ->.
      destruct Hskip as [[He _]|[_ Hin]]; [congruence | now apply Hseen].
    + rewrite filter_app, Hname. cbn.
      rewrite decide_False; [now rewrite app_nil_r|].
      intros [He Hn]. destruct Hskip as [[_ Hn']|[Hid _]]; congruence.
  - (* a new id *)
    split.
    + intros k. rewrite fmap_app, elem_of_app, elem_of_union, elem_of_singleton.
      simpl. rewrite list_elem_of_singleton, Hseen.
      split; [intros [Hk|Hk]; [subst k|]; tauto | tauto].
    + rewrite fmap_app, filter_app. apply NoDup_app. split; [exact Hnd|]. split.
      * intros k [Hk Hin]%list_elem_of_filter Hk'. cbn in Hk'.
        rewrite decide_True in Hk' by exact Hid.
        apply list_elem_of_singleton in Hk' as ->.
        apply Hnew, Hseen. auto.
      * cbn. rewrite decide_True by exact Hid. apply NoDup_singleton.
    + intros u [Hu|Hu]%elem_of_app; [now apply Hkeep|].
      apply list_elem_of_singleton in Hu as ->.
      exists rows, r, []. split; [reflexivity|]. split; [reflexivity|].
      split; [now left|].
      intros _ r' Hr' Heq. simpl in Heq.
      apply Hnew, Hseen. split; [exact Hid|]. rewrite <- Heq. apply Hall; [exact Hr'|].
      now rewrite Heq.
    + intros r' [Hr'|Hr']%elem_of_app Ht; rewrite fmap_app, elem_of_app.
      * left. now apply Hall.
      * right. apply list_elem_of_singleton in Hr' as ->. simpl.
        apply list_elem_of_singleton. reflexivity.
    + rewrite !filter_app, Hname, fmap_app. cbn.
      rewrite decide_False by (simpl; exact Hid).
      rewrite decide_False by (intros [He _]; congruence).
      reflexivity.
  - (* a row with a name and no id *)
    split.
    + intros k. rewrite Hseen, fmap_app, elem_of_app. simpl.
      rewrite list_elem_of_singleton, Hempty.
      split; [tauto | intros [Hk [Hin| ->]]; [tauto | congruence]].
    + rewrite fmap_app, filter_app. cbn. rewrite Hempty.
      rewrite decide_False by congruence. now rewrite app_nil_r.
    + intros u [Hu|Hu]%elem_of_app; [now apply Hkeep|].
      apply list_elem_of_singleton in Hu as ->.
      exists rows, r, []. split; [reflexivity|]. split; [reflexivity|].
      split; [now right|]. simpl. intros Hid. congruence.
    + intros r' [Hr'|Hr']%elem_of_app Ht; rewrite fmap_app, elem_of_app.
      * left. now apply Hall.
      * apply list_elem_of_singleton in Hr' as ->. congruence.
    + rewrite !filter_app, Hname, fmap_app. cbn.
      rewrite decide_True by (simpl; exact Hempty).
      rewrite decide_True by (split; assumption).
      reflexivity.
Qed.

Lemma users_loaded_fold rows more us seen acc :
  read_rows more (us, seen) = Ok acc ->
  users_loaded rows us seen -> users_loaded (rows ++ more) (fst acc) (snd acc).
Proof.
  revert rows us seen.
  induction more as [|r more IH]; intros rows us seen; cbn [read_rows].
  - intros [= <-] H. now rewrite app_nil_r.
  - destruct (read_row (us, seen) r) as [[us' seen']|e] eqn:Hr; [|discriminate].
    cbn [mbind result_bind]. intros Hrest H.
    replace (rows ++ r :: more) with ((rows ++ [r]) ++ more)
      by now rewrite <- app_assoc.
    apply (IH _ us' seen' Hrest). exact (users_loaded_step _ _ _ r _ Hr H).
Qed.



(** The user file: one entry per distinct non-empty id, built from the first
    row that carries it; the rows that have only a name are all kept. *)
Lemma read_users_from_csv_first rows us :
  read_users_from_csv (Some rows) = Ok us ->
  NoDup (filter (fun k => k <> "") (user_id <$> us))
  /\ (forall r, r ∈ rows -> row_user_id r <> "" ->
        exists u, u ∈ us /\ user_id u = row_user_id r)
  /\ (forall u, u ∈ us ->
        exists before r after,
          rows = before ++ r :: after /\ u = user_entry r
          /\ (user_id u <> "" ->
              forall r', r' ∈ before -> row_user_id r' <> user_id u))
  /\ filter (fun u => user_id u = "") us = user_entry <$> filter name_only rows.
Proof.
  unfold read_users_from_csv.
  destruct (read_rows rows ([], ∅)) as [[us0 seen]|e] eqn:Hread; [|discriminate].
  cbn [fmap result_fmap fst]. intros [= <-].
  destruct (users_loaded_fold [] rows [] ∅ _ Hread users_loaded_nil)
    as [_ Hnd Hfirst Hall Hname].
  simpl in *. split; [exact Hnd|]. split; [|split; [|exact Hname]].
  - intros r Hr Hk.
    destruct (proj1 (list_elem_of_fmap _ _ _) (Hall r Hr Hk)) as (u & Hu & Hin). eauto.
  - intros u Hu. destruct (Hfirst u Hu) as (b & r & a & -> & -> & _ & Hb).
    exists b, r, a. auto.
Qed.

End ReadUsers.

Section FirstOccurrence.

(** C7, as stated, fails on [invite_users_to_channel.py]: two rows with the
    same name and no id give two equal entries, so no choice of key makes the
    loaded entries pairwise distinct. *)
Lemma rows_without_id_are_not_deduplicated :
  exists us : list InviteUsers.user,
    InviteUsers.read_users_from_csv (Some [bob; bob]) = Ok us
    /\ forall key : InviteUsers.user -> string, ~ NoDup (key <$> us).
Proof.
  exists [InviteUsers.User "" "bob" "" ""; InviteUsers.User "" "bob" "" ""].
  split; [vm_compute; reflexivity|].
  intros key Hnd. simpl in Hnd. apply NoDup_cons in Hnd as [Hnotin _].
  apply Hnotin. apply list_elem_of_singleton. reflexivity.
Qed.

(** C7 (amended). The patient list holds exactly one entry per distinct valid
    phone number (the normalised form is the key; rows whose number does not
    normalise are dropped), and the user list one entry per distinct
    non-empty user id; in both, the entry is the one built from the first row
    that carries the key. Rows of the user file that have a name and no id
    are all kept, in order, duplicates included. *)
Theorem first_occurrence_wins :
  (forall (rows : list reader_row) (ps : list AddPatients.patient),
      AddPatients.read_patient_csv (Some rows) = Ok ps ->
      NoDup (AddPatients.phone <$> ps)
      /\ (forall r, r ∈ rows -> patient_key r <> "" ->
            exists p, p ∈ ps /\ AddPatients.phone p = patient_key r)
      /\ (forall p, p ∈ ps ->
            exists before r after,
              rows = before ++ r :: after /\ p = patient_entry r
              /\ AddPatients.phone p <> ""
              /\ forall r', r' ∈ before -> patient_key r' <> AddPatients.phone p))
  /\ (forall (rows : list reader_row) (us : list InviteUsers.user),
        InviteUsers.read_users_from_csv (Some rows) = Ok us ->
        NoDup (filter (fun k => k <> "") (InviteUsers.user_id <$> us))
        /\ (forall r, r ∈ rows -> row_user_id r <> "" ->
              exists u, u ∈ us /\ InviteUsers.user_id u = row_user_id r)
        /\ (forall u, u ∈ us ->
              exists before r after,
                rows = before ++ r :: after /\ u = user_entry r
                /\ (InviteUsers.user_id u <> "" ->
                    forall r', r' ∈ before -> row_user_id r' <> InviteUsers.user_id u))
        /\ filter (fun u => InviteUsers.user_id u = "") us
           = user_entry <$> filter name_only rows).
Proof.
  split.
  - exact read_patient_csv_first.
  - exact read_users_from_csv_first.
Qed.

Lemma first_occurrence_wins_witness :
  NoDup (AddPatients.phone <$>
           [AddPatients.Patient "17" "Abebe Kebede" "Abebe" "Kebede" "+251912345678"])
  /\ NoDup (filter (fun k => k <> "")
              (InviteUsers.user_id <$>
                 [InviteUsers.User "" "bob" "" ""; InviteUsers.User "" "bob" "" ""])).
Proof.
  split.
  - exact (proj1 (proj1 first_occurrence_wins [abebe; abebe_again] _ eq_refl)).
  - exact (proj1 (proj2 first_occurrence_wins [bob; bob] _ eq_refl)).
Defined.

End FirstOccurrence.

(** ** Resuming from the result log *)

Section ResumePatients.

Import AddPatients.

Lemma processed_phones_fold (rows : list row) (init : gset string) (k : string) :
  k ∈ fold_left
        (fun processed r =>
           let phone := get r "phone" "" in
           if Py.truthy phone then {[phone]} ∪ processed else processed)
        rows init
  <-> k ∈ init \/ exists r, r ∈ rows /\ get r "phone" "" = k /\ Py.truthy k = true.
Proof.
  revert init. induction rows as [|r rows IH]; intros init; cbn [fold_left].
  - split; [now left|]. intros [H|(r & Hr & _)]; [exact H | inversion Hr].
  - rewrite IH. cbv zeta. split.
    + intros [Hin|(r' & Hr' & Hk)].
      * destruct (Py.truthy (get r "phone" "")) eqn:Ht; [|now left].
        apply elem_of_union in Hin as [->%elem_of_singleton|Hin]; [|now left].
        right. exists r. split; [left|]; auto.
      * right. exists r'. split; [now right | exact Hk].
    + intros [Hin|(r' & Hr' & Hk & Ht)].
      * left. destruct (Py.truthy (get r "phone" "")); [apply elem_of_union; right|]; exact Hin.
      * apply elem_of_cons in Hr' as [->|Hr'].
        -- left. rewrite Hk, Ht. apply elem_of_union. left. now apply elem_of_singleton.
        -- right. exists r'. auto.
Qed.

Lemma get_processed_phones_logged (file : option (list row)) (k : string) :
  k <> "" -> logged "phone" file k -> k ∈ get_processed_phones file.
Proof.
  intros Hk (rows & r & -> & Hr & Hcol). unfold get_processed_phones.
  apply processed_phones_fold. right. exists r.
  split; [exact Hr|]. unfold get. rewrite Hcol.
  split; [reflexivity | now apply truthy_nonempty].
Qed.

(** The loop enters the items in order and leaves out none before the one
    it stops at. *)
Lemma loop_attempted N dry total i remaining w st :
  exists rest, remaining = map fst (fst (loop N dry total i remaining w st)) ++ rest.
Proof.
  revert i st. induction remaining as [|p remaining IH]; intros i st; cbn [loop].
  - now exists [].
  - destruct (N <=? count st); [now exists (p :: remaining)|].
    destruct (body N dry total i p (w i) st) as [[evs st'] []].
    + destruct (IH (S i) st') as [rest Hrest].
      destruct (loop N dry total (S i) remaining w st') as [steps st''].
      exists rest. simpl in *. now f_equal.
    + now exists remaining.
Qed.

(** The items of a run are among those of the file that are not in the
    log. *)
Lemma attempted_remaining N dry s p :
  p ∈ attempted (main_with N dry s) ->
  exists patients,
    read_patient_csv (csv_file s) = Ok patients
    /\ p ∈ patients /\ phone p ∉ get_processed_phones (output_file s).
Proof.
  unfold main_with, attempted, stopped.
  destruct (start s); [|intros H; inversion H].
  destruct (is_user_authorized s) as [[|]|];
    [|intros H; inversion H|intros H; inversion H].
  destruct (get_me s); [|intros H; inversion H].
  destruct (read_patient_csv (csv_file s)) as [patients|]; [|intros H; inversion H].
  set (remaining := filter _ patients).
  destruct remaining as [|p0 remaining'] eqn:Hrem; [intros H; inversion H|].
  destruct (get_channel s); [|intros H; inversion H].
  rewrite <- Hrem.
  destruct (loop_attempted N dry (length remaining) 0 remaining (worlds s) initial)
    as [rest Hrest].
  destruct (loop N dry (length remaining) 0 remaining (worlds s) initial) as [steps st].
  simpl in *. intros Hp. exists patients. split; [reflexivity|].
  assert (Hin : p ∈ remaining) by (rewrite Hrest; apply elem_of_app; now left).
  subst remaining. apply list_elem_of_filter in Hin as [Hnot Hin]. auto.
Qed.

Lemma attempted_not_logged N dry s p :
  p ∈ attempted (main_with N dry s) -> ~ logged "phone" (output_file s) (phone p).
Proof.
  intros (patients & Hread & Hin & Hnot)%attempted_remaining Hlog.
  apply Hnot, get_processed_phones_logged; [|exact Hlog].
  destruct (csv_file s) as [rows|]; [|discriminate].
  destruct (read_patient_csv_first rows patients Hread) as (_ & _ & Hfirst).
  destruct (Hfirst p Hin) as (_ & _ & _ & _ & _ & Hne & _). exact Hne.
Qed.

End ResumePatients.

Section ResumeMessages.

Import SafeDM.

Lemma processed_users_fold (rows : list row) (init : gset string) (k : string) :
  k ∈ fold_left
        (fun processed r =>
           match r !! "user_id" with
           | Some uid => if Py.truthy uid then {[uid]} ∪ processed else processed
           | None => processed
           end)
        rows init
  <-> k ∈ init \/ exists r, r ∈ rows /\ r !! "user_id" = Some k /\ Py.truthy k = true.
Proof.
  revert init. induction rows as [|r rows IH]; intros init; cbn [fold_left].
  - split; [now left|]. intros [H|(r & Hr & _)]; [exact H | inversion Hr].
  - rewrite IH. split.
    + intros [Hin|(r' & Hr' & Hk)].
      * destruct (r !! "user_id") as [uid|] eqn:Hcol; [|now left].
        destruct (Py.truthy uid) eqn:Ht; [|now left].
        apply elem_of_union in Hin as [Hin|Hin]; [|now left].
        apply elem_of_singleton in Hin. subst k.
        right. exists r. split; [left|]; auto.
      * right. exists r'. split; [now right | exact Hk].
    + intros [Hin|(r' & Hr' & Hk & Ht)].
      * left. destruct (r !! "user_id") as [uid|]; [|exact Hin].
        destruct (Py.truthy uid); [apply elem_of_union; right|]; exact Hin.
      * apply elem_of_cons in Hr' as [Heq|Hr'].
        -- subst r'. left. rewrite Hk, Ht. apply elem_of_union. left.
           now apply elem_of_singleton.
        -- right. exists r'. auto.
Qed.

Lemma get_processed_users_logged (file : option (list row)) (k : string) :
  k <> "" -> logged "user_id" file k -> k ∈ get_processed_users file.
Proof.
  intros Hk (rows & r & -> & Hr & Hcol). unfold get_processed_users.
  apply processed_users_fold. right. exists r.
  split; [exact Hr|]. split; [exact Hcol | now apply truthy_nonempty].
Qed.

Lemma dm_loop_attempted N dry ms link i users w count :
  exists rest, users = map fst (loop N dry ms link i users w count).1.1 ++ rest.
Proof.
  revert i count. induction users as [|u users IH]; intros i count; cbn [loop].
  - now exists [].
  - destruct (N <=? count); [now exists (u :: users)|].
    destruct (body N dry ms link u (w i) count) as [[[evs count'] []]|e].
    + destruct (IH (S i) count') as [rest Hrest].
      destruct (loop N dry ms link (S i) users w count') as [[steps count''] x].
      exists rest. simpl in *. now f_equal.
    + now exists users.
    + now exists users.
Qed.

Lemma dm_attempted_candidate N dry s r :
  r ∈ attempted (main_with N dry s) ->
  exists rows,
    csv_file s = Some rows /\ r ∈ rows
    /\ candidate (get_processed_users (output_file s)) r = true.
Proof.
  unfold main_with, attempted, stopped.
  destruct (start s); [|intros H; inversion H].
  destruct (is_user_authorized s) as [[|]|];
    [|intros H; inversion H|intros H; inversion H].
  destruct (csv_file s) as [rows|]; [|intros H; inversion H].
  set (users := filter _ rows).
  destruct users as [|u0 users'] eqn:Husers; [intros H; inversion H|].
  rewrite <- Husers.
  destruct (dm_loop_attempted N dry (load_messages (messages_file s))
              (TG_TARGET_CHANNEL_LINK s) 0 users (worlds s) 0) as [rest Hrest].
  destruct (loop N dry _ _ 0 users (worlds s) 0) as [[steps c] x].
  assert (Hsteps : r ∈ map fst steps -> r ∈ users)
    by (intros Hr; rewrite Hrest; apply elem_of_app; now left).
  intros Hr. exists rows. split; [reflexivity|].
  assert (Hin : r ∈ users) by (destruct x; apply Hsteps, Hr).
  subst users. apply list_elem_of_filter in Hin as [Hc Hin]. auto.
Qed.

Lemma dm_attempted_not_logged N dry s r :
  r ∈ attempted (main_with N dry s) ->
  exists uid, get_field r "user_id" None = Some uid /\ uid <> ""
              /\ ~ logged "user_id" (output_file s) uid.
Proof.
  intros (rows & _ & _ & Hc)%dm_attempted_candidate.
  unfold candidate in Hc. destruct (get_field r "user_id" None) as [uid|]; [|discriminate].
  apply andb_true_iff in Hc as [Ht Hnot]. apply bool_decide_eq_true in Hnot.
  apply truthy_nonempty in Ht.
  exists uid. split; [reflexivity|]. split; [exact Ht|].
  intros Hlog. now apply Hnot, get_processed_users_logged.
Qed.

End ResumeMessages.

Section ResumeInvites.

Import InviteUsers.

(** [invite_users_to_channel.py] never reads its result log. *)
Lemma invite_ignores_log B D s log :
  main B D (with_log s log) = main B D s.
Proof. reflexivity. Qed.

End ResumeInvites.

(** C2, as stated, fails on [invite_users_to_channel.py]: the first run
    records user 1 as [Success], and the second run on that log attempts
    user 1 again. *)
Lemma invite_users_reattempts_logged_user :
  log_after_first_run
  = Some [InviteUsers.result_row (InviteUsers.User "1" "" "" "") "Success" "Success"
                                  "2024-01-01 10:00:00"]
  /\ logged "user_id" log_after_first_run "1"
  /\ InviteUsers.attempted second_run = [InviteUsers.User "1" "" "" ""].
Proof.
  assert (Hlog : log_after_first_run
                 = Some [InviteUsers.result_row (InviteUsers.User "1" "" "" "")
                           "Success" "Success" "2024-01-01 10:00:00"])
    by reflexivity.
  split; [exact Hlog|]. split.
  - eexists _, _. split; [exact Hlog|]. split; [apply list_elem_of_singleton; reflexivity|].
    reflexivity.
  - reflexivity.
Qed.

(** C2 (amended). A run of [add_patients_to_channel.py] or of
    [safe_dm_invite.py] attempts no item whose key is in the result log it
    starts from, whatever status the log gives it;
    [invite_users_to_channel.py] does not read the log, so what it attempts
    does not depend on it. *)
Theorem resume_skips_logged_keys :
  (forall N dry (s : AddPatients.session) (p : AddPatients.patient),
      p ∈ AddPatients.attempted (AddPatients.main_with N dry s) ->
      ~ logged "phone" (AddPatients.output_file s) (AddPatients.phone p))
  /\ (forall N dry (s : SafeDM.session) (r : reader_row),
        r ∈ SafeDM.attempted (SafeDM.main_with N dry s) ->
        exists uid, get_field r "user_id" None = Some uid /\ uid <> ""
                    /\ ~ logged "user_id" (SafeDM.output_file s) uid)
  /\ (forall B D (s : InviteUsers.session) (log : option (list row)),
        InviteUsers.main B D (with_log s log) = InviteUsers.main B D s).
Proof.
  split; [exact attempted_not_logged|].
  split; [exact dm_attempted_not_logged | exact invite_ignores_log].
Qed.

Lemma resume_skips_logged_keys_witness :
  AddPatients.attempted (AddPatients.main false resumed_clinic) = [sara_tesfaye; dawit_haile]
  /\ ~ logged "phone" (AddPatients.output_file resumed_clinic) "+251922222222"
  /\ (exists uid,
         get_field (fields [("user_id", "2"); ("username", ""); ("first_name", "Sara")])
                   "user_id" None
         = Some uid
         /\ uid <> "" /\ ~ logged "user_id" (SafeDM.output_file resumed_mailing) uid)
  /\ InviteUsers.main 10 5 (with_log one_user log_after_first_run)
     = InviteUsers.main 10 5 one_user.
Proof.
  split; [reflexivity|]. split; [|split].
  - exact (proj1 resume_skips_logged_keys AddPatients.DAILY_LIMIT_configured false
             resumed_clinic sara_tesfaye
             (list_elem_of_here sara_tesfaye [dawit_haile])).
  - exact (proj1 (proj2 resume_skips_logged_keys) SafeDM.DAILY_LIMIT_configured false
             resumed_mailing
             (fields [("user_id", "2"); ("username", ""); ("first_name", "Sara")])
             (list_elem_of_here _ [])).
  - exact (proj2 (proj2 resume_skips_logged_keys) 10 5 one_user log_after_first_run).
Defined.

(** ** Result rows and traces *)

Section Traces.

Lemma appended_app (t1 t2 : list event) : appended (t1 ++ t2) = appended t1 ++ appended t2.
Proof. unfold appended. now rewrite flat_map_app. Qed.

Lemma appended_calls (t : list event) : forallb is_call t = true -> appended t = [].
Proof.
  induction t as [|[] t IH]; simpl; try discriminate; auto.
Qed.

Lemma forallb_app_true {A} (f : A -> bool) (l1 l2 : list A) :
  forallb f l1 = true -> forallb f l2 = true -> forallb f (l1 ++ l2) = true.
Proof. intros H1 H2. rewrite forallb_app, H1, H2. reflexivity. Qed.

Lemma flatten_app {A} (s1 s2 : list (A * list event)) :
  flatten (s1 ++ s2) = flatten s1 ++ flatten s2.
Proof. unfold flatten. now rewrite flat_map_app. Qed.

End Traces.

(** ** The loop of [add_patients_to_channel.py] *)

Section PatientsLoop.

Import AddPatients.

Lemma has_status_result_row s p status reason ts :
  has_status s (result_row p status reason ts) = bool_decide (status = s).
Proof.
  unfold has_status.
  assert (H : result_row p status reason ts !! "status" = Some status) by reflexivity.
  rewrite H. apply bool_decide_ext. split; congruence.
Qed.

Lemma phone_result_row p status reason ts :
  result_row p status reason ts !! "phone" = Some (phone p).
Proof. reflexivity. Qed.

Lemma attempt_cases p w st :
  fst (attempt p w st) = requests p w
  /\ forallb is_call (requests p w) = true
  /\ match escaping p w with
     | Some e => snd (attempt p w st) = Escaped e
     | None =>
         exists status reason st',
           snd (attempt p w st) = Done status reason st'
           /\ ((status = "Success" /\ st' = succeeded st)
               \/ ((status = "Failed" \/ status = "Skipped") /\ count st' = count st))
     end.
Proof.
  unfold escaping, requests, attempt, resolve_phone_to_user, invite_step, invite_anyway.
  destruct (import_contacts w) as [[u|]|e0];
    [destruct (get_participant w) as [|e1];
       [|destruct (class e1); (destruct (invite_to_channel w) as [|e2];
                                [|destruct (class e2)])]| |];
    cbn [fst snd forallb is_call andb];
    (split; [reflexivity|]); (split; [reflexivity|]);
    try reflexivity;
    eexists _, _, _; (split; [reflexivity|]);
    first [ left; split; reflexivity
          | right; split; [left; reflexivity | reflexivity]
          | right; split; [right; reflexivity | reflexivity] ].
Qed.

Lemma cleanup_calls w : forallb is_call (cleanup w) = true.
Proof. unfold cleanup. destruct (resolve_phone_to_user w); reflexivity. Qed.

Section Body.

Variables (N : Z) (dry : bool) (total : nat).

Local Abbreviation iteration := (iteration N dry total).

Lemma body_iteration i p w st :
  iteration i p w st (body N dry total i p w st).1.1 (body N dry total i p w st).1.2
            (body N dry total i p w st).2.
Proof.
  unfold body. destruct dry eqn:Hdry; [apply it_dry_run; reflexivity|].
  destruct (attempt_cases p w st) as (Hcalls & _ & Hout).
  destruct (attempt p w st) as [calls out]. cbn [fst snd] in Hcalls, Hout. subst calls.
  destruct (escaping p w) as [e|] eqn:Hesc.
  - subst out. destruct (class e) eqn:Hclass;
      lazymatch type of Hclass with
      | _ = PeerFloodError => apply (it_peer_flood _ _ _ _ _ _ _ e); auto
      | _ = FloodWaitError _ =>
          destruct (600 <? seconds) eqn:Hlong;
          [ apply (it_flood_stop _ _ _ _ _ _ _ e seconds); auto; now apply Z.ltb_lt
          | apply (it_flood_wait _ _ _ _ _ _ _ e seconds); auto; now apply Z.ltb_ge ]
      | _ =>
          apply (it_error _ _ _ _ _ _ _ e);
          [reflexivity | exact Hesc | unfold throttle; rewrite Hclass; reflexivity]
      end.
  - destruct Hout as (status & reason & st' & -> & Hst).
    apply (it_done _ _ _ _ _ _ _ status reason st'); auto.
Qed.

Lemma counted_app (r1 r2 : list row) : counted (r1 ++ r2) = counted r1 + counted r2.
Proof. unfold counted. rewrite List.filter_app, List.length_app. lia. Qed.

Lemma pause_no_rows i w st : appended (pause N total i w st) = [].
Proof. unfold pause. now destruct (_ && _). Qed.

Lemma counted_one p status reason ts :
  counted [result_row p status reason ts]
  = if bool_decide (status = "Success") || bool_decide (status = "DryRun") then 1 else 0.
Proof.
  unfold counted. cbn [List.filter]. rewrite !has_status_result_row.
  now destruct (_ || _).
Qed.

Ltac status_count :=
  rewrite counted_one;
  repeat (rewrite bool_decide_eq_false_2 by discriminate);
  repeat (rewrite bool_decide_eq_true_2 by reflexivity);
  cbn [orb count simulated succeeded failed]; lia.

Lemma iteration_appended i p w st evs st' ctl :
  iteration i p w st evs st' ctl ->
  (exists wait e, evs = requests p w ++ [Sleep (inject_Z wait)] /\ appended evs = []
                  /\ dry = false /\ escaping p w = Some e
                  /\ class e = FloodWaitError wait /\ wait <= 600
                  /\ st' = st /\ ctl = Continue)
  \/ (exists status reason,
         appended evs = [result_row p status reason (now w)]
         /\ count st' = count st + counted (appended evs)).
Proof.
  destruct (attempt_cases p w st) as (_ & Hcalls & _).
  pose proof (appended_calls _ Hcalls) as Hreq.
  pose proof (appended_calls _ (cleanup_calls w)) as Hclean.
  intros [Hdry|e Hdry He Hc|e wait Hdry He Hc Hw|e wait Hdry He Hc Hw
          |e Hdry He Ht|status reason st'' Hdry He Hst].
  - right. exists "DryRun", "Simulated". split; [reflexivity|].
    cbn [appended flat_map app]. status_count.
  - right. exists "Failed", "PeerFlood".
    rewrite appended_app, Hreq. split; [reflexivity|].
    cbn [appended flat_map app]. status_count.
  - right. exists "Failed", ("FloodWait_" +:+ Py.str wait +:+ "s").
    rewrite appended_app, Hreq. split; [reflexivity|].
    cbn [appended flat_map app]. status_count.
  - left. exists wait, e. rewrite appended_app, Hreq. auto 10.
  - right. exists "Failed", (Py.slice_to 50 (message e)).
    rewrite !appended_app, Hreq, pause_no_rows, Hclean. split; [reflexivity|].
    cbn [appended flat_map app]. status_count.
  - right. exists status, reason.
    rewrite !appended_app, Hreq, pause_no_rows, Hclean. split; [reflexivity|].
    cbn [appended flat_map app]. destruct Hst as [[-> ->]|[[->| ->] ->]]; status_count.
Qed.

Lemma iteration_count i p w st evs st' ctl :
  iteration i p w st evs st' ctl ->
  count st' = count st + counted (appended evs) /\ 0 <= counted (appended evs) <= 1.
Proof.
  intros [(wait & e & _ & -> & _ & _ & _ & _ & -> & _)|(status & reason & -> & Hc)]
           %iteration_appended.
  - unfold counted. cbn. lia.
  - split; [exact Hc|]. rewrite counted_one. destruct (_ || _); lia.
Qed.

Variable w : nat -> world.

Lemma loop_cons i p rest st :
  loop N dry total i (p :: rest) w st
  = if N <=? count st then ([], st)
    else
      let '(evs, st', ctl) := body N dry total i p (w i) st in
      match ctl with
      | Break => ([(p, evs)], st')
      | Continue =>
          let '(steps, st'') := loop N dry total (S i) rest w st' in
          ((p, evs) :: steps, st'')
      end.
Proof. reflexivity. Qed.

(** The loop enters an item when there is one and the limit is not
    reached. *)
Lemma loop_enters i p rest st :
  count st < N -> exists evs steps, (loop N dry total i (p :: rest) w st).1 = (p, evs) :: steps.
Proof.
  intros Hlt. rewrite loop_cons.
  destruct (N <=? count st) eqn:Hle; [apply Z.leb_le in Hle; lia|].
  destruct (body N dry total i p (w i) st) as [[evs st'] []].
  - destruct (loop N dry total (S i) rest w st') as [steps st'']. now exists evs, steps.
  - now exists evs, [].
Qed.

(** What holds of the [k]-th item a run of the loop enters: the counter was
    below the limit, the iteration is the body's at index [i + k], and the
    loop goes on to the next item exactly when the iteration does not break
    and the limit is still not reached. *)
Lemma loop_lookup remaining i st k p evs :
  (loop N dry total i remaining w st).1 !! k = Some (p, evs) ->
  exists st_k st' ctl,
    remaining !! k = Some p
    /\ count st_k < N
    /\ count st_k
       = count st
         + counted (appended (flatten (take k (loop N dry total i remaining w st).1)))
    /\ iteration (i + k) p (w (i + k)%nat) st_k evs st' ctl
    /\ (ctl = Break -> length (loop N dry total i remaining w st).1 = S k)
    /\ (ctl = Continue -> count st' < N -> is_Some (remaining !! S k) ->
        is_Some ((loop N dry total i remaining w st).1 !! S k)).
Proof.
  revert i st k. induction remaining as [|p0 rest IH]; intros i st k.
  - cbn. intros H. discriminate.
  - rewrite loop_cons. destruct (N <=? count st) eqn:Hle; [intros H; discriminate|].
    apply Z.leb_gt in Hle.
    pose proof (body_iteration i p0 (w i) st) as Hit.
    destruct (body N dry total i p0 (w i) st) as [[evs0 st0] ctl0]. cbn [fst snd] in Hit.
    destruct ctl0.
    + specialize (IH (S i) st0).
      destruct (loop N dry total (S i) rest w st0) as [steps st''] eqn:Hloop.
      cbn [fst snd] in *. destruct k as [|k]; cbn [lookup list_lookup take].
      * intros [= <- <-]. exists st, st0, Continue.
        replace (i + 0)%nat with i by lia.
        split; [reflexivity|]. split; [exact Hle|].
        split; [unfold counted; cbn; lia|]. split; [exact Hit|].
        split; [discriminate|]. intros _ Hlt [p1 Hp1].
        destruct rest as [|p1' rest']; [discriminate|].
        destruct (loop_enters (S i) p1' rest' st0 Hlt) as (evs1 & steps1 & Hsteps).
        rewrite Hloop in Hsteps. cbn [fst] in Hsteps. subst steps. cbn. eauto.
      * intros Hk. destruct (IH k Hk) as (st_k & st' & ctl & Hrem & Hlt & Hcount & Hitk & Hb & Hc).
        exists st_k, st', ctl.
        replace (i + S k)%nat with (S i + k)%nat by lia.
        split; [exact Hrem|]. split; [exact Hlt|]. split; [|split; [exact Hitk|]].
        -- change (flatten ((p0, evs0) :: take k steps))
             with (evs0 ++ flatten (take k steps)).
           rewrite appended_app, counted_app, Hcount.
           destruct (iteration_count _ _ _ _ _ _ _ Hit) as [-> _]. lia.
        -- split; [intros Hbr; cbn; f_equal; auto | exact Hc].
    + cbn [fst snd]. destruct k as [|k]; [|intros H; discriminate].
      intros [= <- <-]. exists st, st0, Break.
      replace (i + 0)%nat with i by lia.
      split; [reflexivity|]. split; [exact Hle|].
      split; [unfold counted; cbn; lia|]. split; [exact Hit|].
      split; [reflexivity | discriminate].
Qed.

(** The rows counted against the limit never outnumber what is left of it. *)
Lemma loop_counted remaining i st :
  count st <= N ->
  count st + counted (appended (flatten (loop N dry total i remaining w st).1)) <= N.
Proof.
  revert i st. induction remaining as [|p0 rest IH]; intros i st Hst.
  - unfold counted. cbn. lia.
  - rewrite loop_cons. destruct (N <=? count st) eqn:Hle; [unfold counted; cbn; lia|].
    apply Z.leb_gt in Hle.
    pose proof (body_iteration i p0 (w i) st) as Hit.
    destruct (body N dry total i p0 (w i) st) as [[evs0 st0] ctl0]. cbn [fst snd] in Hit.
    destruct (iteration_count _ _ _ _ _ _ _ Hit) as [Hc Hb].
    destruct ctl0.
    + assert (Hst0 : count st0 <= N) by lia. specialize (IH (S i) st0 Hst0).
      destruct (loop N dry total (S i) rest w st0) as [steps st'']. cbn [fst snd] in *.
      change (flatten ((p0, evs0) :: steps)) with (evs0 ++ flatten steps).
      rewrite appended_app, counted_app. lia.
    + cbn [fst snd]. change (flatten [(p0, evs0)]) with (evs0 ++ []).
      rewrite app_nil_r. lia.
Qed.

End Body.

End PatientsLoop.

(** ** The loop of [safe_dm_invite.py] *)

Section MessagesLoop.

Import SafeDM.

Lemma dm_has_status_result_row s user status reason ts :
  has_status s (result_row user status reason ts) = bool_decide (status = s).
Proof.
  unfold has_status.
  assert (H : result_row user status reason ts !! "status" = Some status) by reflexivity.
  rewrite H. apply bool_decide_ext. split; congruence.
Qed.

Lemma resolve_calls user w : forallb is_call (fst (resolve user w)) = true.
Proof.
  unfold resolve.
  destruct (get_field user "username" None) as [username|];
    [destruct (Py.truthy username)|];
    cbn [fst snd];
    try (destruct (get_entity_by_name w); [reflexivity|]);
    (destruct (get_field user "user_id" None) as [uid|]; [destruct (Py.truthy uid)|];
     try reflexivity; destruct (Py.int uid); reflexivity).
Qed.

Lemma sending_calls text user w : forallb is_call (sending text user w) = true.
Proof.
  unfold sending. pose proof (resolve_calls user w) as H.
  destruct (snd (resolve user w)); [|exact H].
  now apply forallb_app_true.
Qed.

Lemma load_messages_not_nil file : load_messages file <> [].
Proof.
  unfold load_messages. destruct file as [lines|]; [|discriminate].
  destruct (map _ _); discriminate.
Qed.

(** The text is built from a message of the list; it fails for want of a
    message, or for want of a name when the row has [None] there. *)
Lemma message_text_cases ms raw link first_name :
  match message_text ms raw link first_name with
  | Ok _ => ms <> [] /\ first_name <> None
  | Raise e =>
      (ms = [] /\ class e = IndexError)
      \/ (ms <> [] /\ first_name = None /\ class e = TypeError)
  end.
Proof.
  unfold message_text, Py.choice.
  destruct ms as [|m ms'].
  - cbn. now left.
  - destruct (_ !! _) as [template|] eqn:Hm.
    + destruct first_name; [split; discriminate | right; repeat split; discriminate].
    + apply lookup_ge_None in Hm.
      pose proof (Z.mod_pos_bound raw (Z.of_nat (length (m :: ms')))
                    ltac:(cbn [length]; lia)). lia.
Qed.

Section Body.

Variables (N : Z) (dry : bool) (ms : list string) (link : option string).

Local Abbreviation dm_pause := (dm_pause N).

Local Abbreviation dm_iteration := (dm_iteration N dry).

Local Abbreviation deliver := (deliver N dry).

Local Abbreviation body := (body N dry ms link).

Local Abbreviation loop := (loop N dry ms link).

Local Abbreviation text_for := (text_for ms link).

Lemma dm_deliver_iteration text user w count :
  dm_iteration text user w count (deliver text user w count).1.1
               (deliver text user w count).1.2 (deliver text user w count).2.
Proof.
  unfold SafeDM.deliver. destruct dry eqn:Hdry; [apply dm_dry_run; reflexivity|].
  pose proof (dm_logged N false text user w count) as Hlog.
  pose proof (dm_peer_flood N false text user w count) as Hpeer.
  pose proof (dm_flood_wait N false text user w count) as Hflood.
  unfold sending, raised, log_and_wait, dm_pause in *.
  destruct (resolve user w) as [calls [e|]]; cbn [fst snd] in *.
  - destruct (send_message w) as [|x].
    + apply Hlog; auto.
    + destruct (class x) eqn:Hclass;
        lazymatch type of Hclass with
        | _ = PeerFloodError => apply (Hpeer x); auto
        | _ = FloodWaitError _ => apply (Hflood x seconds); auto
        | _ =>
            apply Hlog;
            [reflexivity | unfold throttle; rewrite Hclass; reflexivity | right; auto]
        end.
  - apply Hlog; auto.
Qed.

(** The body fails when the text cannot be built, and otherwise does what
    follows with that text. *)
Lemma dm_body_cases user w count :
  (exists e, text_for user w = Raise e /\ body user w count = Raise e)
  \/ (exists text,
         text_for user w = Ok text
         /\ body user w count = Ok (deliver text user w count)).
Proof.
  unfold SafeDM.body, text_for.
  destruct (message_text _ _ _ _) as [text|e]; [right|left]; eauto.
Qed.

Lemma sent_app (r1 r2 : list row) : sent (r1 ++ r2) = sent r1 + sent r2.
Proof. unfold sent. rewrite List.filter_app, List.length_app. lia. Qed.

Lemma sent_one user status reason ts :
  sent [result_row user status reason ts]
  = if bool_decide (status = "Success") then 1 else 0.
Proof.
  unfold sent. cbn [List.filter]. rewrite dm_has_status_result_row.
  now destruct (bool_decide _).
Qed.

Lemma dm_pause_no_rows w count : appended (dm_pause w count) = [].
Proof. unfold dm_pause. now destruct (_ <? _). Qed.

Local Abbreviation progress := (progress dry).

Lemma dm_iteration_count text user w count evs count' ctl :
  dm_iteration text user w count evs count' ctl ->
  count' = count + progress 1 (appended evs)
  /\ 0 <= progress 1 (appended evs) <= 1
  /\ (appended evs = []
      \/ exists status reason, appended evs = [result_row user status reason (now w)]).
Proof.
  pose proof (appended_calls _ (sending_calls text user w)) as Hreq.
  unfold progress.
  intros [Hdry|e Hdry He Hc|e wait Hdry He Hc|status reason count'' Hdry He Hst];
    rewrite Hdry.
  - cbn. split; [reflexivity|]. split; [lia | now left].
  - rewrite appended_app, Hreq. cbn [appended flat_map app].
    rewrite sent_one, bool_decide_eq_false_2 by discriminate.
    split; [lia|]. split; [lia|]. right. eauto.
  - rewrite Hreq. unfold sent. cbn. split; [lia|]. split; [lia | now left].
  - rewrite !appended_app, Hreq, dm_pause_no_rows. cbn [appended flat_map app].
    rewrite sent_one. split; [|split; [destruct (bool_decide _); lia | right; eauto]].
    destruct Hst as [[-> ->]|[-> ->]].
    + rewrite bool_decide_eq_true_2 by reflexivity. reflexivity.
    + rewrite bool_decide_eq_false_2 by discriminate. lia.
Qed.

Variable w : nat -> world.

Lemma dm_loop_cons i user rest count :
  loop i (user :: rest) w count
  = if N <=? count then ([], count, None)
    else
      match body user (w i) count with
      | Raise e => ([(user, [])], count, Some e)
      | Ok (evs, count', ctl) =>
          match ctl with
          | Break => ([(user, evs)], count', None)
          | Continue =>
              let '(steps, count'', raised) := loop (S i) rest w count' in
              ((user, evs) :: steps, count'', raised)
          end
      end.
Proof. reflexivity. Qed.

Lemma dm_loop_enters i user rest count :
  count < N -> exists evs steps, (loop i (user :: rest) w count).1.1 = (user, evs) :: steps.
Proof.
  intros Hlt. rewrite dm_loop_cons.
  destruct (N <=? count) eqn:Hle; [apply Z.leb_le in Hle; lia|].
  destruct (body user (w i) count) as [[[evs count'] []]|e].
  - destruct (loop (S i) rest w count') as [[steps count''] x]. now exists evs, steps.
  - now exists evs, [].
  - now exists [], [].
Qed.

(** What holds of the [k]-th item a run of the loop enters: the text could
    not be built, and the item is the last one, or the iteration has one of
    the shapes above. *)
Lemma dm_loop_lookup users i count k user evs :
  (loop i users w count).1.1 !! k = Some (user, evs) ->
  exists count_k,
    users !! k = Some user
    /\ count_k < N
    /\ count_k
       = count + progress k (appended (flatten (take k (loop i users w count).1.1)))
    /\ ((exists e,
            text_for user (w (i + k)%nat) = Raise e /\ evs = []
            /\ length (loop i users w count).1.1 = S k
            /\ (loop i users w count).2 = Some e)
        \/ (exists text count' ctl,
               text_for user (w (i + k)%nat) = Ok text
               /\ dm_iteration text user (w (i + k)%nat) count_k evs count' ctl
               /\ (ctl = Break -> length (loop i users w count).1.1 = S k)
               /\ (ctl = Continue -> count' < N -> is_Some (users !! S k) ->
                   is_Some ((loop i users w count).1.1 !! S k)))).
Proof.
  revert i count k. induction users as [|u0 rest IH]; intros i count k.
  - cbn. intros H. discriminate.
  - rewrite dm_loop_cons. destruct (N <=? count) eqn:Hle; [intros H; discriminate|].
    apply Z.leb_gt in Hle.
    destruct (dm_body_cases u0 (w i) count) as [(e & Htext & ->)|(text & Htext & ->)].
    { cbn [fst snd]. destruct k as [|k]; [|intros H; discriminate].
      intros [= <- <-]. exists count. replace (i + 0)%nat with i by lia.
      split; [reflexivity|]. split; [exact Hle|].
      split; [unfold progress, sent; destruct dry; cbn; lia|].
      left. exists e. auto. }
    pose proof (dm_deliver_iteration text u0 (w i) count) as Hit.
    destruct (deliver text u0 (w i) count) as [[evs0 count0] ctl0]. cbn [fst snd] in Hit.
    destruct ctl0.
    + specialize (IH (S i) count0).
      destruct (loop (S i) rest w count0) as [[steps count''] x] eqn:Hloop.
      cbn [fst snd] in *. destruct k as [|k]; cbn [lookup list_lookup take].
      * intros [= <- <-]. exists count.
        replace (i + 0)%nat with i by lia.
        split; [reflexivity|]. split; [exact Hle|].
        split; [unfold progress, sent; destruct dry; cbn; lia|].
        right. exists text, count0, Continue.
        split; [exact Htext|]. split; [exact Hit|].
        split; [discriminate|]. intros _ Hlt [u1 Hu1].
        destruct rest as [|u1' rest']; [discriminate|].
        destruct (dm_loop_enters (S i) u1' rest' count0 Hlt) as (evs1 & steps1 & Hsteps).
        rewrite Hloop in Hsteps. cbn [fst] in Hsteps. subst steps. cbn. eauto.
      * intros Hk.
        destruct (IH k Hk) as (count_k & Hrem & Hlt & Hcount & Hcases).
        exists count_k.
        replace (i + S k)%nat with (S i + k)%nat by lia.
        split; [exact Hrem|]. split; [exact Hlt|]. split.
        -- change (flatten ((u0, evs0) :: take k steps))
             with (evs0 ++ flatten (take k steps)).
           destruct (dm_iteration_count _ _ _ _ _ _ _ Hit) as (Hc0 & _ & _).
           rewrite Hcount, Hc0. unfold progress. destruct dry; [lia|].
           rewrite appended_app, sent_app. lia.
        -- destruct Hcases as [(e & Ht & He & Hlen & Hx)|(tx & c' & ctl & Ht & Hitk & Hb & Hc)].
           ++ left. exists e. repeat split; auto. cbn. now f_equal.
           ++ right. exists tx, c', ctl. split; [exact Ht|]. split; [exact Hitk|].
              split; [intros Hbr; cbn; f_equal; auto | exact Hc].
    + cbn [fst snd]. destruct k as [|k]; [|intros H; discriminate].
      intros [= <- <-]. exists count.
      replace (i + 0)%nat with i by lia.
      split; [reflexivity|]. split; [exact Hle|].
      split; [unfold progress, sent; destruct dry; cbn; lia|].
      right. exists text, count0, Break.
      split; [exact Htext|]. split; [exact Hit|].
      split; [reflexivity | discriminate].
Qed.

(** The counter never passes the limit it started below. *)
Lemma dm_loop_progress users i count :
  count <= N ->
  count
  + progress (length (loop i users w count).1.1)
             (appended (flatten (loop i users w count).1.1)) <= N.
Proof.
  revert i count. induction users as [|u0 rest IH]; intros i count Hst.
  - unfold progress, sent. destruct dry; cbn; lia.
  - rewrite dm_loop_cons.
    destruct (N <=? count) eqn:Hle;
      [unfold progress, sent; destruct dry; cbn; lia|].
    apply Z.leb_gt in Hle.
    destruct (dm_body_cases u0 (w i) count) as [(e & Htext & ->)|(text & Htext & ->)].
    { unfold progress, sent. destruct dry; cbn; lia. }
    pose proof (dm_deliver_iteration text u0 (w i) count) as Hit.
    destruct (deliver text u0 (w i) count) as [[evs0 count0] ctl0]. cbn [fst snd] in Hit.
    destruct (dm_iteration_count _ _ _ _ _ _ _ Hit) as (Hc & Hb & _).
    destruct ctl0.
    + assert (Hst0 : count0 <= N) by lia. specialize (IH (S i) count0 Hst0).
      destruct (loop (S i) rest w count0) as [[steps count''] x]. cbn [fst snd] in *.
      change (flatten ((u0, evs0) :: steps)) with (evs0 ++ flatten steps).
      revert Hc Hb IH. unfold progress. destruct dry.
      * cbn [length]. lia.
      * rewrite appended_app, sent_app. lia.
    + cbn [fst snd]. change (flatten [(u0, evs0)]) with (evs0 ++ []).
      rewrite app_nil_r. revert Hc Hb. unfold progress.
      destruct dry; cbn [length]; lia.
Qed.

End Body.

End MessagesLoop.

(** ** [str] and [int] on integers *)

Section Decimal.

Import Decimal.

Lemma int_digits_uint (d : uint) (acc : Z) (after_digit : bool) :
  d <> Nil \/ after_digit = true ->
  Py.int_digits acc after_digit (Py.digits d) = Some (decimal_value d acc).
Proof.
  revert acc after_digit.
  induction d as [|d IH|d IH|d IH|d IH|d IH|d IH|d IH|d IH|d IH|d IH];
    intros acc after_digit Hd;
    [destruct Hd as [Hd| ->]; [congruence | reflexivity] | ..];
    cbn [Py.digits Py.int_digits decimal_value];
    (match goal with
     | |- context [Py.isdigit ?c] => change (Py.isdigit c) with true
     end);
    cbv iota; apply IH; now right.
Qed.

Lemma decimal_value_pos (d : uint) (acc : positive) :
  decimal_value d (Z.pos acc) = Z.pos (Pos.of_uint_acc d acc).
Proof.
  revert acc.
  induction d as [|d IH|d IH|d IH|d IH|d IH|d IH|d IH|d IH|d IH|d IH]; intros acc;
    cbn [decimal_value Pos.of_uint_acc]; [reflexivity | ..];
    rewrite <- IH; f_equal; lia.
Qed.

Lemma decimal_value_0 (d : uint) : decimal_value d 0 = Z.of_N (Pos.of_uint d).
Proof.
  induction d as [|d IH|d IH|d IH|d IH|d IH|d IH|d IH|d IH|d IH|d IH];
    cbn [decimal_value Pos.of_uint]; [reflexivity | exact IH | ..];
    apply (decimal_value_pos d).
Qed.

(** [str] produces ASCII digits. *)
Lemma digits_ascii (d : uint) : Py.all_chars ascii_digit (Py.digits d) = true.
Proof.
  induction d as [|d IH|d IH|d IH|d IH|d IH|d IH|d IH|d IH|d IH|d IH];
    cbn [Py.digits Py.all_chars]; [reflexivity | ..];
    (match goal with
     | |- context [ascii_digit ?c] => change (ascii_digit c) with true
     end); exact IH.
Qed.

Lemma ascii_digit_isdigit (c : char) : ascii_digit c = true -> Py.isdigit c = true.
Proof.
  unfold ascii_digit. intros [H1 H2]%andb_true_iff. apply N.leb_le in H1, H2.
  apply in_ranges_iff. exists (48, 57)%N. split; [now left|].
  change ("0"%chr) with 48%N in H1. change ("9"%chr) with 57%N in H2. cbn [fst snd]. lia.
Qed.

Lemma digits_isdigit (d : uint) : Py.all_chars Py.isdigit (Py.digits d) = true.
Proof. eapply all_chars_impl; [apply ascii_digit_isdigit | apply digits_ascii]. Qed.

Lemma str_chars (z : Z) : Py.all_chars digit_or_minus (Py.str z) = true.
Proof.
  assert (Hd : forall d, Py.all_chars digit_or_minus (Py.digits d) = true).
  { intros d. eapply all_chars_impl; [|apply digits_isdigit].
    intros c Hc. unfold digit_or_minus. now rewrite Hc. }
  unfold Py.str. destruct z as [|p|p]; cbn [Z.to_int].
  - reflexivity.
  - apply Hd.
  - cbn [Py.all_chars]. rewrite Hd. reflexivity.
Qed.

(** What [int] drops around a number is whitespace. *)
Lemma int_space_isspace (c : char) : Py.int_space c = true -> Py.isspace c = true.
Proof.
  unfold Py.int_space. destruct (c <? 127)%N; [|auto].
  intros H. apply in_ranges_iff.
  apply orb_true_iff in H as [[H1 H2]%andb_true_iff|H].
  - apply N.leb_le in H1, H2. exists (9, 13)%N. split; [now left | cbn [fst snd]; lia].
  - apply N.eqb_eq in H as ->. exists (28, 32)%N. split; [right; now left | cbn [fst snd]; lia].
Qed.

Lemma digit_or_minus_not_space (c : char) :
  digit_or_minus c = true -> negb (Py.isspace c) = true.
Proof.
  unfold digit_or_minus. intros [H|H]%orb_true_iff.
  - now apply isdigit_not_space.
  - apply N.eqb_eq in H as ->. reflexivity.
Qed.

Lemma digit_or_minus_not_char (a c : char) :
  digit_or_minus a = false -> digit_or_minus c = true -> negb (N.eqb c a) = true.
Proof.
  intros Ha Hc. apply negb_true_iff, N.eqb_neq. intros Heq. subst. congruence.
Qed.

Lemma not_int_space (f : char -> bool) (s : string) :
  (forall c, f c = true -> negb (Py.isspace c) = true) ->
  Py.all_chars f s = true ->
  Py.rstrip_with Py.int_space (Py.lstrip_with Py.int_space s) = s.
Proof.
  intros Hf Hs.
  assert (H : Py.all_chars (fun c => negb (Py.int_space c)) s = true).
  { eapply all_chars_impl; [|exact Hs]. intros c Hc%Hf.
    apply negb_true_iff in Hc. apply negb_true_iff.
    destruct (Py.int_space c) eqn:Hi; [|reflexivity].
    apply int_space_isspace in Hi. congruence. }
  rewrite (lstrip_with_id _ _ H). now apply rstrip_with_id.
Qed.

(** A non-empty string of digits does not start with a sign. *)
Lemma int_unsigned (s : string) :
  Py.all_chars Py.isdigit s = true -> Py.int s = Py.int_digits 0 false s.
Proof.
  intros Hs. unfold Py.int.
  rewrite (not_int_space Py.isdigit s isdigit_not_space Hs).
  destruct s as [|c s]; [reflexivity|].
  cbn [Py.all_chars] in Hs. apply andb_true_iff in Hs as [Hc _].
  destruct (N.eqb_spec c "+"%chr) as [->|_]; [discriminate Hc|].
  destruct (N.eqb_spec c "-"%chr) as [->|_]; [discriminate Hc|].
  reflexivity.
Qed.

(** [int(str(z)) == z] *)
Lemma int_str (z : Z) : Py.int (Py.str z) = Some z.
Proof.
  assert (Hpos : forall p, Py.int_digits 0 false (Py.digits (Pos.to_uint p))
                           = Some (Z.pos p)).
  { intros p. rewrite int_digits_uint
      by (left; apply DecimalPos.Unsigned.to_uint_nonnil).
    now rewrite decimal_value_0, DecimalPos.Unsigned.of_to. }
  destruct z as [|p|p].
  - reflexivity.
  - change (Py.str (Z.pos p)) with (Py.digits (Pos.to_uint p)).
    rewrite int_unsigned by apply digits_isdigit. apply Hpos.
  - unfold Py.int.
    rewrite (not_int_space digit_or_minus _ digit_or_minus_not_space (str_chars (Z.neg p))).
    change (Py.str (Z.neg p)) with (String "-" (Py.digits (Pos.to_uint p))).
    cbv beta iota. change (("-"%chr =? "+"%chr)%N) with false.
    change (("-"%chr =? "-"%chr)%N) with true. cbv iota. rewrite Hpos. reflexivity.
Qed.

End Decimal.

(** ** The loop of [invite_users_to_channel.py] *)

Section InvitesLoop.

Import InviteUsers.

Lemma prefix_app (p s : string) : Py.startswith p (p +:+ s) = true.
Proof.
  induction p as [|c p IH]; [destruct s; reflexivity|].
  rewrite app_String. cbn [Py.startswith].
  rewrite N.eqb_refl. exact IH.
Qed.

Lemma rstrip_with_suffix f (a : string) (c : char) :
  Py.all_chars (fun x => negb (f x)) a = true -> f c = true ->
  Py.rstrip_with f (a +:+ String c EmptyString) = a.
Proof.
  intros Ha Hc. induction a as [|x a IH].
  - change ("" +:+ String c "") with (String c ""). cbn [Py.rstrip_with]. now rewrite Hc.
  - cbn [Py.all_chars] in Ha. apply andb_true_iff in Ha as [Hx Ha].
    apply negb_true_iff in Hx.
    rewrite app_String. cbn [Py.rstrip_with]. rewrite (IH Ha), Hx.
    destruct a; reflexivity.
Qed.

Lemma split_char_none sep (t : string) :
  Py.all_chars (fun c => negb (N.eqb c sep)) t = true -> Py.split_char sep t = [t].
Proof.
  induction t as [|c t IH]; [reflexivity|].
  cbn [Py.all_chars Py.split_char]. intros [Hc Ht]%andb_true_iff.
  apply negb_true_iff in Hc. now rewrite Hc, (IH Ht).
Qed.

Lemma split_char_app sep (a t : string) :
  Py.all_chars (fun c => negb (N.eqb c sep)) a = true ->
  Py.split_char sep (a +:+ String sep t) = a :: Py.split_char sep t.
Proof.
  induction a as [|c a IH].
  - intros _. change ("" +:+ String sep t) with (String sep t).
    cbn [Py.split_char]. now rewrite N.eqb_refl.
  - cbn [Py.all_chars]. intros [Hc Ha]%andb_true_iff. apply negb_true_iff in Hc.
    rewrite app_String. cbn [Py.split_char]. now rewrite Hc, (IH Ha).
Qed.

Lemma str_without (a : char) (z : Z) :
  digit_or_minus a = false ->
  Py.all_chars (fun c => negb (N.eqb c a)) (Py.str z) = true
  /\ Py.all_chars (fun c => negb (N.eqb a c)) (Py.str z) = true.
Proof.
  intros Ha. split; (eapply all_chars_impl; [|apply str_chars]); intros c Hc.
  - now apply digit_or_minus_not_char.
  - rewrite N.eqb_sym. now apply digit_or_minus_not_char.
Qed.

(** The wait is read back from the reason text as it was written into it. *)
Lemma flood_wait_roundtrip (wait : Z) :
  flood_wait ("FloodWait_" +:+ Py.str wait +:+ "s") = Ok [Sleep (inject_Z wait)].
Proof.
  unfold flood_wait. rewrite prefix_app.
  change ("FloodWait_" +:+ Py.str wait +:+ "s")
    with ("FloodWait" +:+ String "_" (Py.str wait +:+ "s")).
  rewrite split_char_app by reflexivity.
  rewrite split_char_none.
  - cbn [lookup list_lookup]. unfold Py.rstrip_char.
    rewrite rstrip_with_suffix; [|apply str_without; reflexivity | reflexivity].
    now rewrite int_str.
  - rewrite all_chars_app. apply andb_true_iff. split; [|reflexivity].
    apply str_without. reflexivity.
Qed.

(** [add_user_to_channel] gives a reason that [flood_wait] reads without
    failing: a wait for [FloodWaitError], nothing otherwise. *)
Lemma add_user_flood_wait (w : world) :
  flood_wait (snd (add_user_to_channel w))
  = Ok (match invite_to_channel w with
        | Raise e =>
            match class e with
            | FloodWaitError wait => [Sleep (inject_Z wait)]
            | _ => []
            end
        | Ok _ => []
        end).
Proof.
  unfold add_user_to_channel. destruct (invite_to_channel w) as [|e]; [reflexivity|].
  destruct (class e); cbn [snd]; try reflexivity.
  apply flood_wait_roundtrip.
Qed.

Lemma get_by_id_calls u w : forallb is_call (fst (get_by_id u w)) = true.
Proof.
  unfold get_by_id. destruct (Py.truthy (user_id u)); [|reflexivity].
  destruct (Py.int (user_id u)); [|reflexivity].
  destruct (get_entity_by_id w) as [|x]; [reflexivity|].
  destruct (class x); reflexivity.
Qed.

Lemma get_user_entity_calls u w : forallb is_call (fst (get_user_entity u w)) = true.
Proof.
  unfold get_user_entity. pose proof (get_by_id_calls u w) as H.
  destruct (Py.truthy (username u)); [|exact H].
  destruct (Py.truthy _); [|exact H].
  destruct (get_entity_by_name w); [reflexivity|].
  destruct (get_by_id u w). exact H.
Qed.

(** No exception leaves the body: it yields one row for the user and, before
    the row is added to [results], only requests and sleeps, the last of
    which is the one-second sleep of line 313. *)
Lemma body_row u w st :
  exists st',
    body u w st
    = (inviting u w, Ok (result_row u (verdict u w).1 (verdict u w).2 (now w)), st')
    /\ appended (inviting u w) = []
    /\ exists evs, inviting u w = evs ++ [Sleep 1].
Proof.
  unfold inviting, verdict, body.
  pose proof (get_user_entity_calls u w) as Hcalls.
  destruct (get_user_entity u w) as [calls [e|]]; cbn [fst snd] in *.
  - destruct (is_user_in_channel w); cbn [fst snd].
    + eexists. split; [reflexivity|]. split; [|eauto].
      rewrite !appended_app, (appended_calls _ Hcalls). reflexivity.
    + pose proof (add_user_flood_wait w) as Hflood.
      destruct (add_user_to_channel w) as [[|] reason]; cbn [fst snd] in *.
      * eexists. split; [reflexivity|]. split; [|eauto].
        rewrite !appended_app, (appended_calls _ Hcalls). reflexivity.
      * rewrite Hflood. cbn [fst snd]. eexists. split; [reflexivity|]. split.
        -- rewrite !appended_app, (appended_calls _ Hcalls).
           destruct (invite_to_channel w) as [|x]; [reflexivity|].
           destruct (class x); reflexivity.
        -- eexists. rewrite app_assoc. reflexivity.
  - eexists. split; [reflexivity|]. split; [|eauto].
    rewrite appended_app, (appended_calls _ Hcalls). reflexivity.
Qed.

Section Batches.

Variables (B D : Z) (users : list user) (w : nat -> world).

Local Abbreviation steps_of := (steps_of w).

Local Abbreviation rows_of := (rows_of w).

Lemma steps_of_users i batch : map fst (steps_of i batch) = batch.
Proof.
  revert i. induction batch as [|u rest IH]; intros i; cbn; [reflexivity|].
  now rewrite IH.
Qed.

Lemma steps_of_no_rows i batch : appended (flatten (steps_of i batch)) = [].
Proof.
  revert i. induction batch as [|u rest IH]; intros i; [reflexivity|].
  cbn [steps_of]. change (flatten ((u, inviting u (w i)) :: steps_of (S i) rest))
    with (inviting u (w i) ++ flatten (steps_of (S i) rest)).
  rewrite appended_app, IH.
  destruct (body_row u (w i) initial) as (_ & _ & -> & _). reflexivity.
Qed.

Lemma rows_of_users i batch :
  map (fun r : row => r !! "user_id") (rows_of i batch)
  = map (fun u => Some (user_id u)) batch.
Proof.
  revert i. induction batch as [|u rest IH]; intros i; [reflexivity|].
  cbn [rows_of map]. rewrite IH. reflexivity.
Qed.

Lemma batch_loop_all i batch st :
  exists st', batch_loop i batch w st = (steps_of i batch, Ok (rows_of i batch), st').
Proof.
  revert i st. induction batch as [|u rest IH]; intros i st; cbn [batch_loop].
  - now exists st.
  - destruct (body_row u (w i) st) as (st0 & -> & _).
    destruct (IH (S i) st0) as (st' & ->). now exists st'.
Qed.

Local Abbreviation chunk := (chunk B users).

Local Abbreviation batch_of := (batch_of B D users w).

Lemma batches_all starts st :
  exists st', batches B D users w starts st = (map batch_of starts, st', None).
Proof.
  revert st. induction starts as [|i later IH]; intros st; cbn [batches map].
  - now exists st.
  - fold (chunk i). destruct (batch_loop_all i (chunk i) st) as (st0 & ->).
    destruct (IH st0) as (st' & ->). now exists st'.
Qed.

Lemma chunks_take (m start : nat) :
  flat_map chunk (map (fun k => k * Z.to_nat B)%nat (seq start m))
  = take (m * Z.to_nat B) (drop (start * Z.to_nat B) users).
Proof.
  revert start. induction m as [|m IH]; intros start; [reflexivity|].
  cbn [seq map flat_map]. rewrite IH. unfold chunk.
  replace (S start * Z.to_nat B)%nat with (start * Z.to_nat B + Z.to_nat B)%nat by lia.
  rewrite <- drop_drop, take_take_drop. f_equal.
Qed.

Lemma chunks_cover :
  0 < B -> flat_map chunk (range_step (length users) (Z.to_nat B)) = users.
Proof.
  intros HB. unfold range_step. rewrite chunks_take. cbn [drop Nat.mul].
  apply take_ge.
  assert (Hb : (0 < Z.to_nat B)%nat) by lia.
  set (b := Z.to_nat B) in *. set (n := length users).
  pose proof (Nat.div_mod (n + b - 1) b ltac:(lia)) as Hdiv.
  pose proof (Nat.mod_upper_bound (n + b - 1) b ltac:(lia)) as Hmod.
  nia.
Qed.

(** With a positive batch size the loop goes through every loaded user, in
    order, batch by batch, and no exception leaves it. *)
Lemma process_all :
  0 < B ->
  exists st,
    process B D users w = (map batch_of (range_step (length users) (Z.to_nat B)), st, None).
Proof.
  intros HB. unfold process.
  destruct (B =? 0) eqn:H0; [apply Z.eqb_eq in H0; lia|].
  destruct (B <? 0) eqn:Hneg; [apply Z.ltb_lt in Hneg; lia|].
  apply batches_all.
Qed.

Lemma batches_users (starts : list nat) :
  flat_map (fun b => map fst (members b)) (map batch_of starts) = flat_map chunk starts.
Proof.
  induction starts as [|i later IH]; [reflexivity|].
  cbn [map flat_map]. rewrite IH. cbn [members batch_of]. now rewrite steps_of_users.
Qed.

Lemma write_result_to_csv_rows rows : appended (write_result_to_csv rows) = rows.
Proof. destruct rows; [reflexivity|]. cbn. now rewrite app_nil_r. Qed.

Lemma batch_of_rows i :
  appended (flatten (members (batch_of i))) = []
  /\ appended (flush (batch_of i)) = rows_of i (chunk i)
  /\ map (fun r : row => r !! "user_id") (appended (flush (batch_of i)))
     = map (fun m => Some (user_id m.1)) (members (batch_of i)).
Proof.
  cbn [members flush batch_of]. split; [apply steps_of_no_rows|].
  assert (Hrows : appended
                    (write_result_to_csv (rows_of i (chunk i))
                       ++ (if Z.of_nat i + B <? Z.of_nat (length users)
                           then [Sleep (inject_Z D)] else []))
                  = rows_of i (chunk i)).
  { rewrite appended_app, write_result_to_csv_rows.
    destruct (_ <? _); cbn; now rewrite app_nil_r. }
  rewrite Hrows. split; [reflexivity|].
  rewrite rows_of_users. rewrite <- (steps_of_users i (chunk i)) at 1.
  rewrite !map_map. reflexivity.
Qed.

End Batches.

End InvitesLoop.

(** * The claims *)

(** ** One row per attempted item *)

Section OneRow.

Lemma patients_written_once N dry total i p w st evs st' ctl :
  iteration N dry total i p w st evs st' ctl ->
  (exists e wait,
      dry = false /\ escaping p w = Some e /\ class e = FloodWaitError wait
      /\ wait <= 600 /\ appended evs = [])
  \/ written_once "phone" (AddPatients.phone p) evs.
Proof.
  destruct (attempt_cases p w st) as (_ & Hcalls & _).
  pose proof (appended_calls _ (cleanup_calls w)) as Hclean.
  intros [Hdry|e Hdry He Hc|e wait Hdry He Hc Hw|e wait Hdry He Hc Hw
          |e Hdry He Ht|status reason st'' Hdry He Hst].
  - right. exists [], (AddPatients.result_row p "DryRun" "Simulated" (AddPatients.now w)),
      [Sleep (1 # 2)]. repeat split.
  - right. eexists (requests p w), _, []. repeat split. exact Hcalls.
  - right. eexists (requests p w), _, []. repeat split. exact Hcalls.
  - left. exists e, wait. repeat split; auto.
    rewrite appended_app, (appended_calls _ Hcalls). reflexivity.
  - right. eexists (requests p w), _, _. split; [reflexivity|].
    split; [exact Hcalls|]. split; [|reflexivity].
    now rewrite appended_app, pause_no_rows, Hclean.
  - right. eexists (requests p w), _, _. split; [reflexivity|].
    split; [exact Hcalls|]. split; [|reflexivity].
    now rewrite appended_app, pause_no_rows, Hclean.
Qed.

Lemma messages_written_once N dry text user w count evs count' ctl :
  dm_iteration N dry text user w count evs count' ctl ->
  dry = false ->
  (exists e wait,
      raised user w = Some e /\ class e = FloodWaitError wait /\ appended evs = [])
  \/ written_once "user_id" (written (get_field user "user_id" None)) evs.
Proof.
  pose proof (sending_calls text user w) as Hcalls.
  intros [Hdry|e Hdry He Hc|e wait Hdry He Hc|status reason count'' Hdry He Hst] Hnot.
  - congruence.
  - right. eexists (sending text user w), _, []. repeat split. exact Hcalls.
  - left. exists e, wait. repeat split; auto. now apply appended_calls.
  - right. eexists (sending text user w), _, _. split; [reflexivity|].
    split; [exact Hcalls|]. split; [apply dm_pause_no_rows | reflexivity].
Qed.

(** With the messages [load_messages] returns, the text fails to be built
    for the rows that have [None] for a first name, and only for them. *)
Lemma text_for_loaded file link user w e :
  text_for (SafeDM.load_messages file) link user w = Raise e ->
  user !! "first_name" = Some None /\ class e = TypeError.
Proof.
  unfold text_for. intros H.
  pose proof (message_text_cases (SafeDM.load_messages file) (SafeDM.choice_draw w) link
                (get_field user "first_name" (Some "Friend"))) as Hc.
  rewrite H in Hc. destruct Hc as [[Hnil _]|(_ & Hname & Hclass)].
  - now apply load_messages_not_nil in Hnil.
  - split; [|exact Hclass]. unfold get_field in Hname.
    destruct (user !! "first_name") as [[v|]|]; now try discriminate.
Qed.

End OneRow.

(** C1, as stated, fails: [add_patients_to_channel.py] attempts the three
    patients of the file and writes two rows when the invite of the first
    raises a flood wait of 30 seconds. *)
Lemma short_flood_wait_leaves_no_row :
  let r := AddPatients.main false (clinic (first_then_added (refused (FloodWaitError 30)))) in
  AddPatients.attempted r = [abebe_kebede; sara_tesfaye; dawit_haile]
  /\ length (appended (AddPatients.trace r)) = 2%nat.
Proof. split; reflexivity. Qed.

(** A line of the user file that stops after the id: [safe_dm_invite.py]
    enters the item and raises a [TypeError] when it builds the message
    text. The run ends there, without a row, without a request for the item
    and without disconnecting; the user of the next line is not reached. *)
Lemma short_line_ends_the_mailing :
  let r := SafeDM.main false
             (mailing [user_cut_short; fields [("user_id", "2"); ("first_name", "Sara")]]
                      (fun _ => delivered)) in
  SafeDM.attempted r = [user_cut_short]
  /\ SafeDM.trace r = [Call Start; Call IsUserAuthorized]
  /\ exists e, SafeDM.ending r = Uncaught e /\ class e = TypeError.
Proof. split; [reflexivity|]. split; [reflexivity|]. eexists. split; reflexivity. Qed.

Lemma steps_of_sleep w i batch m :
  m ∈ steps_of w i batch -> exists evs, m.2 = evs ++ [Sleep 1].
Proof.
  revert i. induction batch as [|u rest IH]; intros i; cbn [steps_of].
  - intros H. inversion H.
  - intros [->|H]%elem_of_cons; [|eauto].
    destruct (body_row u (w i) InviteUsers.initial) as (_ & _ & _ & evs & ->).
    now exists evs.
Qed.

(** C1 (amended). In [add_patients_to_channel.py] every item the loop enters,
    dry-run items and the items that stop the run included, gets exactly one
    row, appended before any sleep of its iteration, except an item whose
    invite raises a flood wait of at most 600 seconds, which gets none. In
    [safe_dm_invite.py] the same holds outside dry-run mode, with two
    exceptions that get no row: an item on which any flood wait is raised,
    and an item whose line of the user file is too short to have a
    [first_name] field, for which building the message text raises a
    [TypeError] that ends the loop and the run before any effect of the
    iteration. In [invite_users_to_channel.py] with a positive batch size
    every loaded user is gone through and gets one row; the rows of a batch
    are appended together when the batch is over, after the one-second sleep
    that ends each user's iteration. *)
Theorem one_row_per_attempt :
  (forall N dry total i remaining w st k p evs,
      (AddPatients.loop N dry total i remaining w st).1 !! k = Some (p, evs) ->
      (exists e wait,
          dry = false /\ escaping p (w (i + k)%nat) = Some e
          /\ class e = FloodWaitError wait /\ wait <= 600 /\ appended evs = [])
      \/ written_once "phone" (AddPatients.phone p) evs)
  /\ (forall N messages_file link i users w count k user evs,
        let run := SafeDM.loop N false (SafeDM.load_messages messages_file) link
                               i users w count in
        run.1.1 !! k = Some (user, evs) ->
        (exists e wait,
            raised user (w (i + k)%nat) = Some e /\ class e = FloodWaitError wait
            /\ appended evs = [])
        \/ (user !! "first_name" = Some None /\ evs = []
            /\ length run.1.1 = S k
            /\ exists e, run.2 = Some e /\ class e = TypeError)
        \/ written_once "user_id" (written (get_field user "user_id" None)) evs)
  /\ (forall B D users w,
        0 < B ->
        exists batches st,
          InviteUsers.process B D users w = (batches, st, None)
          /\ flat_map (fun b => map fst (InviteUsers.members b)) batches = users
          /\ forall b, b ∈ batches ->
               appended (flatten (InviteUsers.members b)) = []
               /\ (forall m, m ∈ InviteUsers.members b -> exists evs, m.2 = evs ++ [Sleep 1])
               /\ map (fun r : row => r !! "user_id") (appended (InviteUsers.flush b))
                  = map (fun m => Some (InviteUsers.user_id m.1)) (InviteUsers.members b)).
Proof.
  split; [|split].
  - intros N dry total i remaining w st k p evs Hk.
    destruct (loop_lookup _ _ _ _ _ _ _ _ _ _ Hk) as (st_k & st' & ctl & _ & _ & _ & Hit & _).
    exact (patients_written_once _ _ _ _ _ _ _ _ _ _ Hit).
  - intros N file link i users w count k user evs run Hk. subst run.
    destruct (dm_loop_lookup _ _ _ _ _ _ _ _ _ _ _ Hk)
      as (c_k & _ & _ & _ & [(e & Htext & -> & Hlen & Hx)|(text & c' & ctl & _ & Hit & _)]).
    + right. left. destruct (text_for_loaded _ _ _ _ _ Htext) as [Hname Hclass].
      repeat split; eauto.
    + destruct (messages_written_once _ _ _ _ _ _ _ _ _ Hit eq_refl) as [H|H]; auto.
  - intros B D users w HB. destruct (process_all B D users w HB) as (st & Hp).
    eexists _, st. split; [exact Hp|]. split.
    + rewrite batches_users. now apply chunks_cover.
    + intros b (i & -> & _)%list_elem_of_fmap.
      destruct (batch_of_rows B D users w i) as (Hm & _ & Hrows).
      split; [exact Hm|]. split; [|exact Hrows].
      intros m Hm'. exact (steps_of_sleep _ _ _ _ Hm').
Qed.

Lemma one_row_per_attempt_witness :
  ((exists e wait,
       false = false /\ escaping abebe_kebede added = Some e
       /\ class e = FloodWaitError wait /\ wait <= 600
       /\ appended (AddPatients.body 9999 false 1 0 abebe_kebede added AddPatients.initial).1.1
          = [])
   \/ written_once "phone" "+251911111111"
        (AddPatients.body 9999 false 1 0 abebe_kebede added AddPatients.initial).1.1)
  /\ ((exists e wait,
          raised (fields [("user_id", "1")]) delivered = Some e
          /\ class e = FloodWaitError wait
          /\ appended (SafeDM.deliver 35 false default_text (fields [("user_id", "1")])
                                      delivered 0).1.1 = [])
      \/ (fields [("user_id", "1")] !! "first_name" = Some None
          /\ (SafeDM.deliver 35 false default_text (fields [("user_id", "1")])
                             delivered 0).1.1 = []
          /\ length (SafeDM.loop 35 false (SafeDM.load_messages None) None 0
                                 [fields [("user_id", "1")]] (fun _ => delivered) 0).1.1
             = 1%nat
          /\ exists e,
               (SafeDM.loop 35 false (SafeDM.load_messages None) None 0
                            [fields [("user_id", "1")]] (fun _ => delivered) 0).2 = Some e
               /\ class e = TypeError)
      \/ written_once "user_id" (written (get_field (fields [("user_id", "1")]) "user_id" None))
           (SafeDM.deliver 35 false default_text (fields [("user_id", "1")])
                           delivered 0).1.1)
  /\ exists batches st,
       InviteUsers.process 10 5 [InviteUsers.User "1" "" "" ""] (fun _ => newcomer)
       = (batches, st, None)
       /\ flat_map (fun b => map fst (InviteUsers.members b)) batches
          = [InviteUsers.User "1" "" "" ""]
       /\ forall b, b ∈ batches ->
            appended (flatten (InviteUsers.members b)) = []
            /\ (forall m, m ∈ InviteUsers.members b -> exists evs, m.2 = evs ++ [Sleep 1])
            /\ map (fun r : row => r !! "user_id") (appended (InviteUsers.flush b))
               = map (fun m => Some (InviteUsers.user_id m.1)) (InviteUsers.members b).
Proof.
  split; [|split].
  - exact (proj1 one_row_per_attempt 9999 false 1%nat 0%nat [abebe_kebede]
             (fun _ => added) AddPatients.initial 0%nat abebe_kebede _ eq_refl).
  - exact (proj1 (proj2 one_row_per_attempt) 35 None None 0%nat [fields [("user_id", "1")]]
             (fun _ => delivered) 0 0%nat (fields [("user_id", "1")]) _ eq_refl).
  - exact (proj2 (proj2 one_row_per_attempt) 10 5 [InviteUsers.User "1" "" "" ""]
             (fun _ => newcomer) eq_refl).
Defined.

(** ** The daily limit *)

Section DailyLimit.

Lemma sent_le_counted (rows : list row) : 0 <= sent rows <= counted rows.
Proof.
  unfold sent, counted. induction rows as [|r rows IH]; cbn [List.filter]; [cbn; lia|].
  destruct (has_status "Success" r); cbn [orb length].
  - lia.
  - destruct (has_status "DryRun" r); cbn [length]; lia.
Qed.

(** The iterations of a run are those of the loop, started on the items that
    remain with all counters at zero. *)
Lemma patients_main_steps N dry s :
  AddPatients.steps (AddPatients.main_with N dry s) = []
  \/ exists remaining,
       AddPatients.steps (AddPatients.main_with N dry s)
       = (AddPatients.loop N dry (length remaining) 0 remaining (AddPatients.worlds s)
                           AddPatients.initial).1.
Proof.
  unfold AddPatients.main_with, AddPatients.stopped.
  destruct (AddPatients.start s); [|now left].
  destruct (AddPatients.is_user_authorized s) as [[|]|]; try now left.
  destruct (AddPatients.get_me s); [|now left].
  destruct (AddPatients.read_patient_csv _) as [patients|]; [|now left].
  destruct (filter _ patients) as [|p0 rest] eqn:Hrem; [now left|].
  destruct (AddPatients.get_channel s); [|now left].
  right. exists (p0 :: rest).
  now destruct (AddPatients.loop N dry _ 0 (p0 :: rest) _ _).
Qed.

Lemma messages_main_steps N dry s :
  SafeDM.steps (SafeDM.main_with N dry s) = []
  \/ exists users,
       SafeDM.steps (SafeDM.main_with N dry s)
       = (SafeDM.loop N dry (SafeDM.load_messages (SafeDM.messages_file s))
                      (SafeDM.TG_TARGET_CHANNEL_LINK s) 0 users (SafeDM.worlds s) 0).1.1.
Proof.
  unfold SafeDM.main_with, SafeDM.stopped.
  destruct (SafeDM.start s); [|now left].
  destruct (SafeDM.is_user_authorized s) as [[|]|]; try now left.
  destruct (SafeDM.csv_file s) as [rows|]; [|now left].
  destruct (filter _ rows) as [|u0 rest] eqn:Hrem; [now left|].
  right. exists (u0 :: rest).
  now destruct (SafeDM.loop N dry _ _ 0 (u0 :: rest) _ _) as [[steps c] [e|]].
Qed.

End DailyLimit.

(** C3, as stated, fails: with a limit of one and three candidates,
    [add_patients_to_channel.py] goes on to the second candidate when the
    first one is not on Telegram, because only successes are counted. *)
Lemma second_candidate_attempted_under_limit_one :
  let r := AddPatients.main_with 1 false (clinic (first_then_added absent)) in
  AddPatients.attempted r = [abebe_kebede; sara_tesfaye]
  /\ sent (appended (AddPatients.trace r)) = 1.
Proof. split; reflexivity. Qed.

(** C3 (amended). With a daily limit [N >= 0], a run of
    [add_patients_to_channel.py] or of [safe_dm_invite.py] writes at most [N]
    [Success] rows, and it enters an item only while fewer than [N] items
    have been counted: a success counts, and so does every item of a dry run;
    items that fail or are skipped do not, so more than [N] candidates may be
    attempted. [invite_users_to_channel.py] has no limit: with a positive
    batch size it goes through every loaded user. *)
Theorem daily_limit_counts_successes :
  (forall N dry s,
      0 <= N ->
      let steps := AddPatients.steps (AddPatients.main_with N dry s) in
      sent (appended (flatten steps)) <= N
      /\ counted (appended (flatten steps)) <= N
      /\ forall k p evs,
           steps !! k = Some (p, evs) ->
           counted (appended (flatten (take k steps))) < N)
  /\ (forall N dry s,
        0 <= N ->
        let steps := SafeDM.steps (SafeDM.main_with N dry s) in
        sent (appended (flatten steps)) <= N
        /\ progress dry (length steps) (appended (flatten steps)) <= N
        /\ forall k user evs,
             steps !! k = Some (user, evs) ->
             progress dry k (appended (flatten (take k steps))) < N)
  /\ (forall B D users w,
        0 < B ->
        exists batches st,
          InviteUsers.process B D users w = (batches, st, None)
          /\ flat_map (fun b => map fst (InviteUsers.members b)) batches = users).
Proof.
  split; [|split].
  - intros N dry s HN steps.
    destruct (patients_main_steps N dry s) as [Hnil|[remaining Hsteps]]; subst steps.
    + rewrite Hnil. unfold sent, counted. cbn. split; [lia|]. split; [lia|].
      intros k p evs H. destruct k; discriminate.
    + rewrite Hsteps.
      pose proof (loop_counted N dry (length remaining) (AddPatients.worlds s)
                    remaining 0 AddPatients.initial HN) as Hc.
      cbn [AddPatients.count AddPatients.initial] in Hc.
      pose proof (sent_le_counted
                    (appended (flatten (AddPatients.loop N dry (length remaining) 0 remaining
                                          (AddPatients.worlds s) AddPatients.initial).1))).
      split; [lia|]. split; [lia|].
      intros k p evs Hk.
      destruct (loop_lookup _ _ _ _ _ _ _ _ _ _ Hk)
        as (st_k & _ & _ & _ & Hlt & Hcount & _).
      cbn [AddPatients.count AddPatients.initial] in Hcount. lia.
  - intros N dry s HN steps.
    destruct (messages_main_steps N dry s) as [Hnil|[users Hsteps]]; subst steps.
    + rewrite Hnil. unfold progress, sent. cbn. split; [lia|].
      split; [destruct dry; lia|].
      intros k p evs H. destruct k; discriminate.
    + rewrite Hsteps.
      set (ms := SafeDM.load_messages (SafeDM.messages_file s)) in *.
      set (link := SafeDM.TG_TARGET_CHANNEL_LINK s) in *.
      pose proof (dm_loop_progress N dry ms link (SafeDM.worlds s) users 0 0 HN) as Hc.
      split; [|split; [lia|]].
      * (* a dry run writes no row at all *)
        revert Hc. unfold progress. destruct dry eqn:Hdry; [|lia]. intros _.
        enough (Hnone : forall us i c,
                  appended (flatten (SafeDM.loop N true ms link i us (SafeDM.worlds s) c).1.1)
                  = []).
        { rewrite Hnone. unfold sent. cbn. lia. }
        induction us as [|u us IH]; intros i c; [reflexivity|].
        rewrite dm_loop_cons. destruct (N <=? c); [reflexivity|].
        destruct (dm_body_cases N true ms link u (SafeDM.worlds s i) c)
          as [(e & _ & ->)|(text & _ & ->)]; [reflexivity|].
        cbn [SafeDM.deliver]. specialize (IH (S i) (c + 1)).
        destruct (SafeDM.loop N true ms link (S i) us (SafeDM.worlds s) (c + 1))
          as [[st c'] x].
        cbn [fst snd] in *. exact IH.
      * intros k user evs Hk.
        destruct (dm_loop_lookup _ _ _ _ _ _ _ _ _ _ _ Hk)
          as (c_k & _ & Hlt & Hcount & _). lia.
  - intros B D users w HB. destruct (process_all B D users w HB) as (st & Hp).
    eexists _, st. split; [exact Hp|].
    rewrite batches_users. now apply chunks_cover.
Qed.

Lemma daily_limit_counts_successes_witness :
  (let steps := AddPatients.steps
                  (AddPatients.main_with 1 false (clinic (first_then_added absent))) in
   sent (appended (flatten steps)) <= 1
   /\ counted (appended (flatten steps)) <= 1
   /\ counted (appended (flatten (take 1 steps))) < 1)
  /\ (let steps := SafeDM.steps
                     (SafeDM.main_with 1 false (mailing dm_rows (fun _ => delivered))) in
      sent (appended (flatten steps)) <= 1
      /\ progress false (length steps) (appended (flatten steps)) <= 1
      /\ progress false 0 (appended (flatten (take 0 steps))) < 1)
  /\ exists batches st,
       InviteUsers.process 10 5 [InviteUsers.User "1" "" "" ""] (fun _ => newcomer)
       = (batches, st, None)
       /\ flat_map (fun b => map fst (InviteUsers.members b)) batches
          = [InviteUsers.User "1" "" "" ""].
Proof.
  split; [|split].
  - pose (H := proj1 daily_limit_counts_successes 1 false
                 (clinic (first_then_added absent)) ltac:(now intro)).
    exact (conj (proj1 H)
             (conj (proj1 (proj2 H)) (proj2 (proj2 H) 1%nat sara_tesfaye _ eq_refl))).
  - pose (H := proj1 (proj2 daily_limit_counts_successes) 1 false
                 (mailing dm_rows (fun _ => delivered)) ltac:(now intro)).
    exact (conj (proj1 H)
             (conj (proj1 (proj2 H)) (proj2 (proj2 H) 0%nat _ _ eq_refl))).
  - exact (proj2 (proj2 daily_limit_counts_successes) 10 5
             [InviteUsers.User "1" "" "" ""] (fun _ => newcomer) eq_refl).
Defined.

(** ** Throttling *)

Section Throttling.

Lemma throttle_peer_flood e : class e = PeerFloodError -> throttle e = true.
Proof. unfold throttle. now intros ->. Qed.

Lemma throttle_flood_wait e wait : class e = FloodWaitError wait -> throttle e = true.
Proof. unfold throttle. now intros ->. Qed.





End Throttling.







(** ** Dry runs *)

Section DryRun.

(** In a dry run [add_patients_to_channel.py] sends no request for an item:
    it writes the [DryRun] row and sleeps half a second. *)
Lemma patients_dry_run N total i remaining w st k p evs :
  (AddPatients.loop N true total i remaining w st).1 !! k = Some (p, evs) ->
  evs = [Append [AddPatients.result_row p "DryRun" "Simulated"
                   (AddPatients.now (w (i + k)%nat))];
         Sleep (1 # 2)].
Proof.
  intros Hk.
  destruct (loop_lookup _ _ _ _ _ _ _ _ _ _ Hk) as (st_k & st' & ctl & _ & _ & _ & Hit & _).
  destruct Hit as [Hdry|e Hdry|e wait Hdry|e wait Hdry|e Hdry|status reason st'' Hdry];
    [reflexivity | discriminate ..].
Qed.

(** In a dry run the loop of [safe_dm_invite.py] only sleeps. *)
Lemma messages_dry_run N ms link i users w count :
  appended (flatten (SafeDM.loop N true ms link i users w count).1.1) = []
  /\ forallb is_sleep (flatten (SafeDM.loop N true ms link i users w count).1.1) = true.
Proof.
  revert i count. induction users as [|u users IH]; intros i count; [now split|].
  rewrite dm_loop_cons. destruct (N <=? count); [now split|].
  destruct (dm_body_cases N true ms link u (w i) count)
    as [(e & _ & ->)|(text & _ & ->)]; [now split|].
  cbn [SafeDM.deliver]. specialize (IH (S i) (count + 1)).
  destruct (SafeDM.loop N true ms link (S i) users w (count + 1)) as [[steps c'] x].
  cbn [fst snd] in *. exact IH.
Qed.

End DryRun.

(** C6: [safe_dm_invite.py] in dry-run mode goes through the two users of the
    file and writes no row at all; this holds of every dry run of that
    script. *)
Theorem safe_dm_dry_run_writes_no_row :
  (let r := SafeDM.main true (mailing dm_rows (fun _ => delivered)) in
   length (SafeDM.attempted r) = 2%nat /\ appended (SafeDM.trace r) = [])
  /\ forall N s, appended (SafeDM.trace (SafeDM.main_with N true s)) = [].
Proof.
  split; [split; reflexivity|].
  intros N s. unfold SafeDM.trace.
  assert (Hsteps : appended (flatten (SafeDM.steps (SafeDM.main_with N true s))) = []).
  { destruct (messages_main_steps N true s) as [->|[users ->]]; [reflexivity|].
    apply messages_dry_run. }
  rewrite !appended_app, Hsteps.
  unfold SafeDM.main_with, SafeDM.stopped.
  destruct (SafeDM.start s); [|reflexivity].
  destruct (SafeDM.is_user_authorized s) as [[|]|]; try reflexivity.
  destruct (SafeDM.csv_file s) as [rows|]; [|reflexivity].
  destruct (filter _ rows) as [|u0 rest]; [reflexivity|].
  now destruct (SafeDM.loop N true _ _ 0 (u0 :: rest) _ _) as [[steps c] [e|]].
Qed.

(** ** The pause between items *)

Section Pause.

Lemma randint_bounds (a b raw : Z) : a <= b -> a <= Py.randint a b raw <= b.
Proof.
  intros Hab. unfold Py.randint.
  pose proof (Z.mod_pos_bound raw (b - a + 1) ltac:(lia)). lia.
Qed.

(** [add_patients_to_channel.py] pauses after an item exactly when the limit
    is not reached and the item is not the last one, for a number of seconds
    between [MIN_DELAY] and [MAX_DELAY]. *)
Lemma patients_pause N total i w st :
  (AddPatients.count st < N /\ (i < total - 1)%nat ->
   exists d, AddPatients.pause N total i w st = [Sleep (inject_Z d)]
             /\ AddPatients.MIN_DELAY <= d <= AddPatients.MAX_DELAY)
  /\ (N <= AddPatients.count st \/ (total - 1 <= i)%nat ->
      AddPatients.pause N total i w st = []).
Proof.
  unfold AddPatients.pause. split.
  - intros [Hc Hi].
    destruct (AddPatients.count st <? N) eqn:H1; [|apply Z.ltb_ge in H1; lia].
    destruct (Z.of_nat i <? Z.of_nat total - 1) eqn:H2; [|apply Z.ltb_ge in H2; lia].
    eexists. split; [reflexivity|]. now apply randint_bounds.
  - intros [Hc|Hi].
    + destruct (AddPatients.count st <? N) eqn:H1; [apply Z.ltb_lt in H1; lia|].
      reflexivity.
    + destruct (Z.of_nat i <? Z.of_nat total - 1) eqn:H2; [apply Z.ltb_lt in H2; lia|].
      now rewrite andb_false_r.
Qed.

End Pause.

(** C9: [safe_dm_invite.py], run on a file with one user whose message is
    sent, sleeps 160 seconds after writing the row of that last item. *)
Theorem safe_dm_sleeps_after_last_item :
  SafeDM.trace (SafeDM.main false
                  (mailing [fields [("user_id", "1"); ("username", "")]]
                           (fun _ => delivered)))
  = [Call Start; Call IsUserAuthorized; Call (GetEntityById 1);
     Call (SendMessage 1 "Hello! Join our channel here: [LINK]");
     Append [SafeDM.result_row (fields [("user_id", "1"); ("username", "")])
               "Success" "Sent" "2024-01-01 10:00:00"];
     Sleep (inject_Z 160); Call Disconnect].
Proof. reflexivity. Qed.

(** ** Exit status *)

Section ExitStatus.

Lemma patients_main_ending N dry s :
  AddPatients.start s = Ok tt ->
  (exists b, AddPatients.is_user_authorized s = Ok b) ->
  AddPatients.get_me s = Ok tt ->
  AddPatients.disconnect s = Ok tt ->
  AddPatients.ending (AddPatients.main_with N dry s) = Returned.
Proof.
  intros Hstart [b Hauth] Hme Hdis. unfold AddPatients.main_with, AddPatients.stopped.
  rewrite Hstart, Hauth, Hme, Hdis. destruct b; [|reflexivity].
  destruct (AddPatients.read_patient_csv _) as [patients|]; [|reflexivity].
  destruct (filter _ patients) as [|p0 rest]; [reflexivity|].
  destruct (AddPatients.get_channel s); [|reflexivity].
  now destruct (AddPatients.loop N dry _ 0 (p0 :: rest) _ _).
Qed.

Lemma invites_main_ending B D s :
  InviteUsers.disconnect s = Ok tt -> InviteUsers.ending (InviteUsers.main B D s) = Returned.
Proof.
  intros Hdis. unfold InviteUsers.main. rewrite Hdis.
  destruct (InviteUsers.authenticate s) as [[|]|]; try reflexivity.
  destruct (InviteUsers.read_users_from_csv _) as [[|u users]|]; try reflexivity.
  destruct (InviteUsers.get_channel s); [|reflexivity].
  now destruct (InviteUsers.process B D (u :: users) _) as [[steps st] x].
Qed.

End ExitStatus.

(** C8, as stated, fails: with a complete configuration and no patient file,
    [add_patients_to_channel.py] prints the error, returns from [main] and
    exits with status 0. *)
Lemma missing_patient_file_exits_with_zero :
  AddPatients.csv_file no_patient_file = None
  /\ exit_status (AddPatients.script patients_environ false no_patient_file) = 0.
Proof. split; reflexivity. Qed.

(** C8 (amended). [add_patients_to_channel.py] and
    [invite_users_to_channel.py] exit with status 1 when one of [TG_API_ID],
    [TG_API_HASH] and [TG_TARGET_CHANNEL] is not set. With a complete
    configuration they exit with status 0 whenever [main] returns, and it
    returns on normal completion, on a stop at the daily limit or on
    throttling, and also when the CSV file is missing: the first script needs
    its session to start and the client to disconnect, the second only the
    latter. *)
Theorem exit_status_of_a_run :
  (forall env dry s,
      AddPatients.is_set (AddPatients.TG_API_ID env) = false
      \/ AddPatients.is_set (AddPatients.TG_API_HASH env) = false
      \/ AddPatients.is_set (AddPatients.TG_TARGET_CHANNEL env) = false ->
      exit_status (AddPatients.script env dry s) = 1)
  /\ (forall env dry s n,
        AddPatients.is_set (AddPatients.TG_API_ID env) = true ->
        AddPatients.is_set (AddPatients.TG_API_HASH env) = true ->
        AddPatients.is_set (AddPatients.TG_TARGET_CHANNEL env) = true ->
        Py.int (default "" (AddPatients.TG_API_ID env)) = Some n ->
        AddPatients.start s = Ok tt ->
        (exists b, AddPatients.is_user_authorized s = Ok b) ->
        AddPatients.get_me s = Ok tt ->
        AddPatients.disconnect s = Ok tt ->
        exit_status (AddPatients.script env dry s) = 0)
  /\ (forall env s,
        InviteUsers.is_set (InviteUsers.TG_API_ID env) = false
        \/ InviteUsers.is_set (InviteUsers.TG_API_HASH env) = false
        \/ InviteUsers.is_set (InviteUsers.TG_TARGET_CHANNEL env) = false ->
        exit_status (InviteUsers.script env s) = 1)
  /\ (forall env s n b d,
        InviteUsers.is_set (InviteUsers.TG_API_ID env) = true ->
        InviteUsers.is_set (InviteUsers.TG_API_HASH env) = true ->
        InviteUsers.is_set (InviteUsers.TG_TARGET_CHANNEL env) = true ->
        Py.str_isdigit (default "" (InviteUsers.TG_API_ID env)) = true ->
        Py.int (default "" (InviteUsers.TG_API_ID env)) = Some n ->
        Py.int (default "10" (InviteUsers.BATCH_SIZE env)) = Some b ->
        Py.int (default "5" (InviteUsers.BATCH_DELAY env)) = Some d ->
        InviteUsers.disconnect s = Ok tt ->
        exit_status (InviteUsers.script env s) = 0).
Proof.
  split; [|split; [|split]].
  - intros env dry s H. unfold AddPatients.script.
    destruct (AddPatients.is_set (AddPatients.TG_API_ID env)); [|reflexivity].
    destruct (AddPatients.is_set (AddPatients.TG_API_HASH env)); [|reflexivity].
    destruct (AddPatients.is_set (AddPatients.TG_TARGET_CHANNEL env)); [|reflexivity].
    destruct H as [H|[H|H]]; discriminate H.
  - intros env dry s n Hid Hhash Hchan Hint Hstart Hauth Hme Hdis.
    unfold AddPatients.script. rewrite Hid, Hhash, Hchan, Hint. cbn [negb orb].
    unfold AddPatients.main. now rewrite patients_main_ending.
  - intros env s H. unfold InviteUsers.script.
    destruct (Py.int (default "10" _)); [|reflexivity].
    destruct (Py.int (default "5" _)); [|reflexivity].
    destruct (InviteUsers.is_set (InviteUsers.TG_API_ID env)); [|reflexivity].
    destruct (InviteUsers.is_set (InviteUsers.TG_API_HASH env)); [|reflexivity].
    destruct (InviteUsers.is_set (InviteUsers.TG_TARGET_CHANNEL env)); [|reflexivity].
    destruct H as [H|[H|H]]; discriminate H.
  - intros env s n b d Hid Hhash Hchan Hdig Hint Hb Hd Hdis.
    unfold InviteUsers.script. rewrite Hb, Hd, Hid, Hhash, Hchan, Hdig, Hint.
    cbn [negb orb]. now rewrite invites_main_ending.
Qed.

Lemma exit_status_of_a_run_witness :
  exit_status (AddPatients.script (AddPatients.Environ None None None) false no_patient_file)
  = 1
  /\ exit_status (AddPatients.script patients_environ false no_patient_file) = 0
  /\ exit_status (InviteUsers.script (InviteUsers.Environ None None None None None)
                                     (first_rejected PeerFloodError)) = 1
  /\ exit_status (InviteUsers.script invites_environ (first_rejected PeerFloodError)) = 0.
Proof.
  split; [|split; [|split]].
  - exact (proj1 exit_status_of_a_run (AddPatients.Environ None None None) false
             no_patient_file (or_introl eq_refl)).
  - exact (proj1 (proj2 exit_status_of_a_run) patients_environ false no_patient_file 12345
             eq_refl eq_refl eq_refl eq_refl eq_refl (ex_intro _ true eq_refl)
             eq_refl eq_refl).
  - exact (proj1 (proj2 (proj2 exit_status_of_a_run))
             (InviteUsers.Environ None None None None None)
             (first_rejected PeerFloodError) (or_introl eq_refl)).
  - exact (proj2 (proj2 (proj2 exit_status_of_a_run)) invites_environ
             (first_rejected PeerFloodError) 12345 10 5
             eq_refl eq_refl eq_refl eq_refl eq_refl eq_refl eq_refl eq_refl).
Defined.

(** * Further properties of the code *)

(** ** [normalize_phone]: digits, separators and fixed points *)

Section PhoneNumbers.

Import AddPatients.

Local Open Scope nat_scope.

Lemma plus_or_digit_not_space (c : char) :
  Py.isdigit c || N.eqb c "+"%chr = true -> negb (Py.isspace c) = true.
Proof.
  intros [H|H]%orb_true_iff; [now apply isdigit_not_space|].
  apply N.eqb_eq in H as ->. reflexivity.
Qed.

Lemma plus_or_digit_not_char (a c : char) :
  Py.isdigit a || N.eqb a "+"%chr = false ->
  Py.isdigit c || N.eqb c "+"%chr = true -> negb (N.eqb a c) = true.
Proof.
  intros Ha Hc. apply negb_true_iff, N.eqb_neq. intros ->. congruence.
Qed.

(** A string of digits, possibly after a ['+'], is its own cleaned form. *)
Lemma cleaned_id (s : string) :
  Py.all_chars (fun c => Py.isdigit c || N.eqb c "+"%chr) s = true ->
  Py.replace "-" "" (Py.replace " " "" (Py.strip s)) = s.
Proof.
  intros Hs.
  rewrite strip_id by (eapply all_chars_impl; [apply plus_or_digit_not_space | exact Hs]).
  rewrite (replace_absent " " "" s)
    by (eapply all_chars_impl;
        [intros c Hc; apply plus_or_digit_not_char; [reflexivity | exact Hc] | exact Hs]).
  apply replace_absent.
  eapply all_chars_impl;
    [intros c Hc; apply plus_or_digit_not_char; [reflexivity | exact Hc] | exact Hs].
Qed.

Lemma digits_plus_or_digit (d : string) :
  Py.all_chars Py.isdigit d = true ->
  Py.all_chars (fun c => Py.isdigit c || N.eqb c "+"%chr) d = true.
Proof. apply all_chars_impl. intros c ->. reflexivity. Qed.

Lemma normalize_phone_plus251 (d : string) :
  Py.len d = 9 -> Py.all_chars Py.isdigit d = true ->
  normalize_phone ("+251" +:+ d) = "+251" +:+ d.
Proof.
  intros Hl Hd. unfold normalize_phone.
  rewrite cleaned_id by (apply digits_plus_or_digit in Hd; cbn; exact Hd).
  change (Py.len ("+251" +:+ d)) with (4 + Py.len d). rewrite Hl.
  change (Py.truthy ("+251" +:+ d)) with true.
  change (Py.startswith "+" ("+251" +:+ d)) with true.
  cbv iota. cbn [negb orb Nat.ltb Nat.leb Nat.add].
  change (Py.slice_from 1 ("+251" +:+ d)) with ("251" +:+ d).
  rewrite (sub_non_digits_id ("251" +:+ d)) by (cbn; exact Hd).
  change ("+" +:+ ("251" +:+ d)) with ("+251" +:+ d).
  change (Py.startswith "09" ("+251" +:+ d)) with false.
  change (Py.startswith "+251" ("+251" +:+ d)) with (Py.startswith "" d).
  change (Py.len ("+251" +:+ d)) with (4 + Py.len d). rewrite Hl.
  destruct d; reflexivity.
Qed.

Lemma normalize_phone_251 (d : string) :
  Py.len d = 9 -> Py.all_chars Py.isdigit d = true ->
  normalize_phone ("251" +:+ d) = "+251" +:+ d.
Proof.
  intros Hl Hd. unfold normalize_phone.
  rewrite cleaned_id by (apply digits_plus_or_digit in Hd; cbn; exact Hd).
  change (Py.len ("251" +:+ d)) with (3 + Py.len d). rewrite Hl.
  change (Py.truthy ("251" +:+ d)) with true.
  change (Py.startswith "+" ("251" +:+ d)) with false.
  cbv iota. cbn [negb orb Nat.ltb Nat.leb Nat.add].
  rewrite (sub_non_digits_id ("251" +:+ d)) by (cbn; exact Hd).
  change (Py.startswith "09" ("251" +:+ d)) with false.
  change (Py.startswith "+251" ("251" +:+ d)) with false.
  change (Py.startswith "251" ("251" +:+ d)) with (Py.startswith "" d).
  change (Py.len ("251" +:+ d)) with (3 + Py.len d). rewrite Hl.
  destruct d; reflexivity.
Qed.

Lemma normalize_phone_fixed (s : string) : international s -> normalize_phone s = s.
Proof. intros (d & -> & Hl & Hd). now apply normalize_phone_plus251. Qed.

(** Deleting the spaces commutes with stripping the whitespace. *)
Lemma replace_space_lstrip (s : string) :
  Py.replace " " "" (Py.lstrip_with Py.isspace s)
  = Py.lstrip_with Py.isspace (Py.replace " " "" s).
Proof.
  induction s as [|c s IH]; [reflexivity|].
  rewrite replace_char_cons. cbn [Py.lstrip_with].
  destruct (N.eqb " "%chr c) eqn:Hc.
  - apply N.eqb_eq in Hc as <-. exact IH.
  - cbn [Py.lstrip_with]. destruct (Py.isspace c); [exact IH|].
    rewrite replace_char_cons, Hc. reflexivity.
Qed.

Lemma replace_space_rstrip_nonempty (s : string) :
  Py.rstrip_with Py.isspace s <> "" ->
  Py.replace " " "" (Py.rstrip_with Py.isspace s) <> "".
Proof.
  induction s as [|c s IH]; [intros H; exact H|].
  cbn [Py.rstrip_with]. destruct (Py.rstrip_with Py.isspace s) as [|c' r].
  - destruct (Py.isspace c) eqn:Hc; [intros H; exact H|]. intros _.
    rewrite replace_char_cons.
    destruct (N.eqb " "%chr c) eqn:Heq; [|discriminate].
    apply N.eqb_eq in Heq as <-. discriminate Hc.
  - intros _. rewrite replace_char_cons.
    destruct (N.eqb " "%chr c); [apply IH|]; discriminate.
Qed.

Lemma replace_space_rstrip (s : string) :
  Py.replace " " "" (Py.rstrip_with Py.isspace s)
  = Py.rstrip_with Py.isspace (Py.replace " " "" s).
Proof.
  induction s as [|c s IH]; [reflexivity|].
  rewrite replace_char_cons. cbn [Py.rstrip_with].
  pose proof (replace_space_rstrip_nonempty s) as Hne.
  destruct (N.eqb " "%chr c) eqn:Hc.
  - apply N.eqb_eq in Hc as <-. rewrite <- IH.
    destruct (Py.rstrip_with Py.isspace s); [reflexivity|].
    rewrite replace_char_cons. reflexivity.
  - cbn [Py.rstrip_with]. rewrite <- IH.
    destruct (Py.rstrip_with Py.isspace s) as [|c' r].
    + change (Py.replace " " "" "") with "".
      destruct (Py.isspace c); [reflexivity|]. rewrite replace_char_cons, Hc. reflexivity.
    + rewrite (replace_char_cons " " c), Hc.
      destruct (Py.replace " " "" (String c' r)); [|reflexivity].
      exfalso. apply Hne; [discriminate | reflexivity].
Qed.

Lemma replace_space_strip (s : string) :
  Py.replace " " "" (Py.strip s) = Py.strip (Py.replace " " "" s).
Proof. unfold Py.strip. now rewrite replace_space_rstrip, replace_space_lstrip. Qed.

(** X1. [normalize_phone] is idempotent: normalising a number that
    [normalize_phone] returned gives the same number again. *)
Theorem normalize_phone_idempotent (phone : string) :
  normalize_phone (normalize_phone phone) = normalize_phone phone.
Proof.
  destruct (normalize_phone_cases phone) as [->|H]; [reflexivity|].
  now apply normalize_phone_fixed.
Qed.

(** X2. A number that already has the country code is accepted: ['+251'] and
    nine digits is returned as it is, and ['251'] and nine digits is returned
    with a ['+'] in front. *)
Theorem normalize_phone_country_code (d : string) :
  Py.len d = 9 -> Py.all_chars Py.isdigit d = true ->
  normalize_phone ("+251" +:+ d) = "+251" +:+ d
  /\ normalize_phone ("251" +:+ d) = "+251" +:+ d.
Proof.
  intros Hl Hd. split; [now apply normalize_phone_plus251 | now apply normalize_phone_251].
Qed.

Lemma normalize_phone_country_code_witness :
  normalize_phone "+251912345678" = "+251912345678"
  /\ normalize_phone "251912345678" = "+251912345678".
Proof. exact (normalize_phone_country_code "912345678" eq_refl eq_refl). Defined.

(** X3. When [normalize_phone] accepts an input, the digits of the result
    are the digits of the input, whatever stands between them: the input
    holds ten digits that start with ['09'], and the result is ['+251'] and
    the last nine of them, or it holds twelve digits that start with ['251'],
    and the result is ['+'] and these twelve. *)
Theorem normalize_phone_keeps_the_digits (phone : string) :
  normalize_phone phone <> "" ->
  let D := Py.sub_non_digits phone in
  (Py.len D = 10 /\ Py.startswith "09" D = true
   /\ normalize_phone phone = "+251" +:+ Py.slice_from 1 D)
  \/ (Py.len D = 12 /\ Py.startswith "251" D = true
      /\ normalize_phone phone = "+" +:+ D).
Proof.
  intros Hne D. revert Hne. unfold normalize_phone.
  pose proof (sub_non_digits_cleaned phone) as Hclean. fold D in Hclean.
  set (cleaned := Py.replace "-" "" (Py.replace " " "" (Py.strip phone))) in *.
  destruct (negb (Py.truthy cleaned) || (Py.len cleaned <? 8)); [congruence|].
  pose proof (sub_non_digits_all phone) as HD. fold D in HD.
  destruct (Py.startswith "+" cleaned) eqn:Hplus.
  - rewrite (prefix_plus_digits _ Hplus), Hclean.
    change (Py.startswith "09" ("+" +:+ D)) with false.
    change (Py.startswith "251" ("+" +:+ D)) with false.
    change (Py.startswith "+251" ("+" +:+ D)) with (Py.startswith "251" D).
    change (Py.len ("+" +:+ D)) with (S (Py.len D)).
    cbn [andb].
    destruct (Py.startswith "251" D) eqn:Hp; cbn [andb]; [|congruence].
    destruct (S (Py.len D) =? 13) eqn:Hl; [|congruence].
    intros _. right. apply Nat.eqb_eq in Hl. split; [lia|]. split; reflexivity.
  - rewrite Hclean.
    destruct (Py.startswith "09" D && (Py.len D =? 10)) eqn:H09.
    { intros _. left. apply andb_true_iff in H09 as [Hp Hl]. apply Nat.eqb_eq in Hl. auto. }
    rewrite (prefix_String_digit "+" "251" D eq_refl HD). cbn [andb].
    destruct (Py.startswith "251" D && (Py.len D =? 12)) eqn:H251; [|congruence].
    intros _. right. apply andb_true_iff in H251 as [Hp Hl]. apply Nat.eqb_eq in Hl. auto.
Qed.

Lemma normalize_phone_keeps_the_digits_witness :
  let D := Py.sub_non_digits "+251 91-234-5678" in
  (Py.len D = 10 /\ Py.startswith "09" D = true
   /\ normalize_phone "+251 91-234-5678" = "+251" +:+ Py.slice_from 1 D)
  \/ (Py.len D = 12 /\ Py.startswith "251" D = true
      /\ normalize_phone "+251 91-234-5678" = "+" +:+ D).
Proof.
  exact (normalize_phone_keeps_the_digits "+251 91-234-5678"
           ltac:(vm_compute; discriminate)).
Defined.

(** X4. A space anywhere in the input does not change what
    [normalize_phone] returns. *)
Theorem normalize_phone_ignores_spaces (a b : string) :
  normalize_phone (a +:+ " " +:+ b) = normalize_phone (a +:+ b).
Proof.
  unfold normalize_phone. rewrite !replace_space_strip, !replace_char_app.
  reflexivity.
Qed.

End PhoneNumbers.

(** ** The loaders: names, order and validity of the entries *)

Section Stripping.

Lemma rstrip_with_twice f (s : string) :
  Py.rstrip_with f (Py.rstrip_with f s) = Py.rstrip_with f s.
Proof.
  induction s as [|c s IH]; [reflexivity|]. cbn [Py.rstrip_with].
  destruct (Py.rstrip_with f s) as [|c' r] eqn:Hr.
  - destruct (f c) eqn:Hc; [reflexivity|]. cbn [Py.rstrip_with]. now rewrite Hc.
  - change (Py.rstrip_with f (String c (String c' r)))
      with (match Py.rstrip_with f (String c' r) with
            | EmptyString => if f c then EmptyString else String c EmptyString
            | r0 => String c r0
            end).
    now rewrite IH.
Qed.

Lemma lstrip_with_head f (s : string) :
  match Py.lstrip_with f s with
  | EmptyString => True
  | String c _ => f c = false
  end.
Proof.
  induction s as [|c s IH]; [exact I|]. cbn [Py.lstrip_with].
  destruct (f c) eqn:Hc; [exact IH | exact Hc].
Qed.

Lemma rstrip_with_head f (c : char) (s : string) :
  f c = false -> exists r, Py.rstrip_with f (String c s) = String c r.
Proof.
  intros Hc. cbn [Py.rstrip_with]. rewrite Hc.
  destruct (Py.rstrip_with f s); eauto.
Qed.

(** [s.strip().strip() == s.strip()] *)
Lemma strip_twice (s : string) : Py.strip (Py.strip s) = Py.strip s.
Proof.
  unfold Py.strip. pose proof (lstrip_with_head Py.isspace s) as Hhead.
  destruct (Py.lstrip_with Py.isspace s) as [|c t]; [reflexivity|].
  destruct (rstrip_with_head Py.isspace c t Hhead) as [r Hr].
  rewrite Hr. cbn [Py.lstrip_with]. rewrite Hhead, <- Hr. apply rstrip_with_twice.
Qed.

End Stripping.

Section Words.

Lemma word_cons (c : char) (w : string) :
  Py.isspace c = false -> w = "" \/ word w -> word (String c w).
Proof.
  intros Hc Hw. split; [discriminate|]. cbn [Py.all_chars]. rewrite Hc.
  destruct Hw as [->|[_ Hw]]; [reflexivity | exact Hw].
Qed.

(** [str.split] yields words. *)
Lemma split_words (s : string) : Forall word (Py.split s).
Proof.
  induction s as [|c s IH]; [constructor|].
  cbn [Py.split]. destruct (Py.isspace c) eqn:Hc; [exact IH|].
  destruct s as [|c' s'].
  - constructor; [|constructor]. apply word_cons; auto.
  - destruct (Py.isspace c') eqn:Hc'.
    + constructor; [apply word_cons; auto | exact IH].
    + destruct (Py.split (String c' s')) as [|w ws].
      * constructor; [|constructor]. apply word_cons; auto.
      * apply Forall_cons in IH as [Hw Hws]. constructor; [|exact Hws].
        apply word_cons; auto.
Qed.

Lemma split_word (w : string) : word w -> Py.split w = [w].
Proof.
  intros [Hne Hw]. induction w as [|c w IH]; [congruence|].
  cbn [Py.all_chars] in Hw. apply andb_true_iff in Hw as [Hc Hw].
  apply negb_true_iff in Hc. cbn [Py.split]. rewrite Hc.
  destruct w as [|c' w']; [reflexivity|].
  assert (Hc' : Py.isspace c' = false).
  { cbn [Py.all_chars] in Hw. apply andb_true_iff in Hw as [Hc' _].
    now apply negb_true_iff in Hc'. }
  rewrite Hc', IH by (discriminate || exact Hw). reflexivity.
Qed.

Lemma split_word_space (w t : string) :
  word w -> Py.split (w +:+ " " +:+ t) = w :: Py.split t.
Proof.
  intros [Hne Hw]. induction w as [|c w IH]; [congruence|].
  cbn [Py.all_chars] in Hw. apply andb_true_iff in Hw as [Hc Hw].
  apply negb_true_iff in Hc. rewrite app_String. cbn [Py.split]. rewrite Hc.
  destruct w as [|c' w'].
  - change ("" +:+ " " +:+ t) with (String " " t).
    change (Py.isspace " ") with true. cbv iota.
    cbn [Py.split]. change (Py.isspace " ") with true. reflexivity.
  - assert (Hc' : Py.isspace c' = false).
    { cbn [Py.all_chars] in Hw. apply andb_true_iff in Hw as [Hc' _].
      now apply negb_true_iff in Hc'. }
    rewrite app_String in *. rewrite Hc', IH by (discriminate || exact Hw). reflexivity.
Qed.

(** [' '.join(words).split() == words] *)
Lemma split_join (ws : list string) : Forall word ws -> Py.split (Py.join " " ws) = ws.
Proof.
  induction ws as [|x ws IH]; [reflexivity|].
  intros [Hx Hws]%Forall_cons. destruct ws as [|y ws].
  - now apply split_word.
  - change (Py.join " " (x :: y :: ws)) with (x +:+ " " +:+ Py.join " " (y :: ws)).
    rewrite split_word_space by exact Hx. now rewrite IH.
Qed.

(** X5. The first and last name that [read_patient_csv] gives a patient
    (lines 134-137) keep the words of the name, in order: the first name is
    one word, and first name, a space and last name split into the words of
    the name; a name that has no word gives the first name ['Patient']. *)
Theorem patient_names_keep_the_words (card_no name normalized : string) :
  let p := AddPatients.new_patient card_no name normalized in
  word (AddPatients.first_name p)
  /\ Py.split (AddPatients.first_name p +:+ " " +:+ AddPatients.last_name p)
     = match Py.split name with [] => ["Patient"] | parts => parts end.
Proof.
  cbv zeta. unfold AddPatients.new_patient.
  cbn [AddPatients.first_name AddPatients.last_name].
  pose proof (split_words name) as Hparts.
  destruct (Py.split name) as [|w [|w' parts]].
  - split; [split; [discriminate | reflexivity] | reflexivity].
  - apply Forall_cons in Hparts as [Hw _]. split; [exact Hw|].
    cbn [length Nat.ltb Nat.leb]. now rewrite split_word_space.
  - apply Forall_cons in Hparts as [Hw Hrest]. split; [exact Hw|].
    cbn [length Nat.ltb Nat.leb drop].
    rewrite split_word_space by exact Hw. now rewrite split_join.
Qed.

End Words.

Section FileOrder.






Lemma patients_in_file_order rows more ps seen acc :
  AddPatients.read_rows more (ps, seen) = Ok acc ->
  sublist ps (patient_entry <$> rows) ->
  sublist (fst acc) (patient_entry <$> (rows ++ more)).
Proof.
  revert rows ps seen.
  induction more as [|r more IH]; intros rows ps seen; cbn [AddPatients.read_rows].
  - intros [= <-] H. now rewrite app_nil_r.
  - destruct (AddPatients.read_row (ps, seen) r) as [[ps' seen']|e] eqn:Hr; [|discriminate].
    cbn [mbind result_bind]. intros Hrest H.
    replace (rows ++ r :: more) with ((rows ++ [r]) ++ more) by now rewrite <- app_assoc.
    apply (IH _ ps' seen' Hrest). rewrite fmap_app.
    destruct (read_row_cases ps seen r (read_row_filled _ _ _ _ Hr))
      as [[Heq _]|(Heq & _)]; rewrite Heq in Hr; injection Hr as <- <-.
    + now apply sublist_inserts_r.
    + now apply sublist_app.
Qed.


Lemma patients_sublist (rows : list reader_row) (ps : list AddPatients.patient) :
  AddPatients.read_patient_csv (Some rows) = Ok ps ->
  sublist ps (patient_entry <$> rows).
Proof.
  unfold AddPatients.read_patient_csv.
  destruct (AddPatients.read_rows rows ([], ∅)) as [acc|e] eqn:Hread; [|discriminate].
  cbn [fmap result_fmap]. intros [= <-].
  apply (patients_in_file_order [] rows [] ∅ acc Hread). constructor.
Qed.



(** X7. Every patient that [read_patient_csv] returns has a phone number in
    the international form ('+251' and nine decimal digits, in the sense of
    the pattern [\d]: the digits of any script), and a name and a card
    number without surrounding whitespace; every user that
    [read_users_from_csv] returns has an id or a name, both without
    surrounding whitespace. *)
Theorem loaded_entries_are_valid :
  (forall rows ps p,
      AddPatients.read_patient_csv (Some rows) = Ok ps -> p ∈ ps ->
      international (AddPatients.phone p)
      /\ Py.strip (AddPatients.name p) = AddPatients.name p
      /\ Py.strip (AddPatients.card_no p) = AddPatients.card_no p)
  /\ (forall rows us u,
        InviteUsers.read_users_from_csv (Some rows) = Ok us -> u ∈ us ->
        (InviteUsers.user_id u <> "" \/ InviteUsers.username u <> "")
        /\ Py.strip (InviteUsers.user_id u) = InviteUsers.user_id u
        /\ Py.strip (InviteUsers.username u) = InviteUsers.username u).
Proof.
  split.
  - intros rows ps p Hread Hp.
    destruct (read_patient_csv_first rows ps Hread) as (_ & _ & Hfirst).
    destruct (Hfirst p Hp) as (_ & r & _ & _ & -> & Hne & _).
    change (AddPatients.phone (patient_entry r)) with (patient_key r) in *.
    split; [|split; apply strip_twice].
    unfold patient_key in *.
    destruct (normalize_phone_cases (Py.strip (column r "C-Phone"))) as [H|H];
      [congruence | exact H].
  - intros rows us u. unfold InviteUsers.read_users_from_csv.
    destruct (InviteUsers.read_rows rows ([], ∅)) as [[us0 seen]|e] eqn:Hread; [|discriminate].
    cbn [fmap result_fmap fst]. intros [= <-] Hu.
    destruct (users_loaded_fold [] rows [] ∅ _ Hread users_loaded_nil) as [_ _ Hfirst _ _].
    destruct (Hfirst u Hu) as (_ & r & _ & _ & -> & Hne & _).
    split; [exact Hne|]. split; apply strip_twice.
Qed.

Lemma loaded_entries_are_valid_witness :
  (international "+251912345678"
   /\ Py.strip "Abebe Kebede" = "Abebe Kebede" /\ Py.strip "17" = "17")
  /\ (("" <> "" \/ "bob" <> "") /\ Py.strip "" = "" /\ Py.strip "bob" = "bob").
Proof.
  split.
  - refine (proj1 loaded_entries_are_valid [abebe; abebe_again] _
              (AddPatients.Patient "17" "Abebe Kebede" "Abebe" "Kebede" "+251912345678")
              eq_refl _).
    exact (list_elem_of_here _ []).
  - refine (proj2 loaded_entries_are_valid [bob; bob] _ (InviteUsers.User "" "bob" "" "")
              eq_refl _).
    exact (list_elem_of_here _ [InviteUsers.User "" "bob" "" ""]).
Defined.

End FileOrder.


(** ** The result log: what is written is read back *)

Section ResultLog.

Lemma output_after_snoc (t : list event) (e : event) :
  output_after (t ++ [e])
  = match e with
    | Append rows => Some (default [] (output_after t) ++ rows)
    | _ => output_after t
    end.
Proof. unfold output_after. rewrite fold_left_app. reflexivity. Qed.

Lemma logged_added (column : string) (file : option (list row)) (rows : list row)
    (k : string) :
  logged column (Some (default [] file ++ rows)) k
  <-> logged column file k \/ exists r, r ∈ rows /\ r !! column = Some k.
Proof.
  unfold logged. split.
  - intros (rs & r & [= <-] & [Hr|Hr]%elem_of_app & Hk); [|right; eauto].
    left. destruct file as [old|]; [eauto | inversion Hr].
  - intros [(rs & r & -> & Hr & Hk)|(r & Hr & Hk)].
    + eexists _, r. split; [reflexivity|]. split; [|exact Hk]. apply elem_of_app. now left.
    + eexists _, r. split; [reflexivity|]. split; [|exact Hk]. apply elem_of_app. now right.
Qed.

Lemma logged_output_after (column : string) (earlier t : list event) (k : string) :
  logged column (output_after (earlier ++ t)) k
  <-> logged column (output_after earlier) k
      \/ exists r, r ∈ appended t /\ r !! column = Some k.
Proof.
  induction t as [|e t IH] using rev_ind.
  - rewrite app_nil_r. split; [now left|]. intros [H|(r & Hr & _)]; [exact H | inversion Hr].
  - rewrite app_assoc, output_after_snoc, appended_app.
    destruct e as [c|rows|q]; cbn [appended flat_map]; rewrite ?app_nil_r.
    + exact IH.
    + rewrite logged_added, IH. split.
      * intros [[H|(r & Hr & Hk)]|(r & Hr & Hk)]; [now left| |];
          right; exists r; (split; [apply elem_of_app|exact Hk]); [now left|now right].
      * intros [H|(r & [Hr|Hr]%elem_of_app & Hk)]; [left; now left|left; right; eauto|].
        right. eauto.
    + exact IH.
Qed.

Lemma get_processed_phones_iff (file : option (list row)) (k : string) :
  k ∈ AddPatients.get_processed_phones file <-> k <> "" /\ logged "phone" file k.
Proof.
  split; [|intros [Hk Hlog]; now apply get_processed_phones_logged].
  unfold AddPatients.get_processed_phones, logged.
  destruct file as [rows|]; [|intros H; now apply not_elem_of_empty in H].
  intros [Hin|(r & Hr & Hget & Ht)]%processed_phones_fold;
    [now apply not_elem_of_empty in Hin|].
  apply truthy_nonempty in Ht. split; [exact Ht|].
  exists rows, r. split; [reflexivity|]. split; [exact Hr|].
  unfold get in Hget. destruct (r !! "phone") as [v|]; congruence.
Qed.

Lemma get_processed_users_iff (file : option (list row)) (k : string) :
  k ∈ SafeDM.get_processed_users file <-> k <> "" /\ logged "user_id" file k.
Proof.
  split; [|intros [Hk Hlog]; now apply get_processed_users_logged].
  unfold SafeDM.get_processed_users, logged.
  destruct file as [rows|]; [|intros H; now apply not_elem_of_empty in H].
  intros [Hin|(r & Hr & Hget & Ht)]%processed_users_fold;
    [now apply not_elem_of_empty in Hin|].
  apply truthy_nonempty in Ht. split; [exact Ht|].
  exists rows, r. auto.
Qed.

(** X8. Reading back a result log that the script made: after [earlier] and
    then [t], done since the log did not exist, the keys that
    [get_processed_phones] (resp. [get_processed_users]) finds in the file
    are the keys it found after [earlier] and the non-empty keys of the rows
    that [t] appended. With nothing done earlier, the file is the one the
    script creates, header included. *)
Theorem written_keys_are_processed :
  (forall (earlier t : list event) (k : string),
      k ∈ AddPatients.get_processed_phones (output_after (earlier ++ t))
      <-> k ∈ AddPatients.get_processed_phones (output_after earlier)
          \/ (k <> "" /\ exists r, r ∈ appended t /\ r !! "phone" = Some k))
  /\ (forall (earlier t : list event) (k : string),
        k ∈ SafeDM.get_processed_users (output_after (earlier ++ t))
        <-> k ∈ SafeDM.get_processed_users (output_after earlier)
            \/ (k <> "" /\ exists r, r ∈ appended t /\ r !! "user_id" = Some k)).
Proof.
  split; intros earlier t k.
  - rewrite !get_processed_phones_iff, logged_output_after. tauto.
  - rewrite !get_processed_users_iff, logged_output_after. tauto.
Qed.

Lemma written_keys_are_processed_witness :
  "+251911111111"
    ∈ AddPatients.get_processed_phones
        (output_after
           ([] ++ [Append [AddPatients.result_row abebe_kebede "DryRun" "Simulated"
                             "2024-01-01 10:00:00"]]))
  /\ "1" ∈ SafeDM.get_processed_users
             (output_after
                ([] ++ [Append [SafeDM.result_row (fields [("user_id", "1")]) "Failed"
                                  "UserNotFound" "2024-01-01 10:00:00"]])).
Proof.
  split.
  - refine (proj2 (proj1 written_keys_are_processed []
                     [Append [AddPatients.result_row abebe_kebede "DryRun" "Simulated"
                                "2024-01-01 10:00:00"]] "+251911111111") _).
    right. split; [discriminate|].
    exists (AddPatients.result_row abebe_kebede "DryRun" "Simulated" "2024-01-01 10:00:00").
    split; [exact (list_elem_of_here _ []) | reflexivity].
  - refine (proj2 (proj2 written_keys_are_processed []
                     [Append [SafeDM.result_row (fields [("user_id", "1")]) "Failed"
                                "UserNotFound" "2024-01-01 10:00:00"]] "1") _).
    right. split; [discriminate|].
    exists (SafeDM.result_row (fields [("user_id", "1")]) "Failed" "UserNotFound"
              "2024-01-01 10:00:00").
    split; [exact (list_elem_of_here _ []) | reflexivity].
Defined.

End ResultLog.

Section LaterRuns.

Lemma step_rows_in_trace {A} (steps : list (A * list event)) (x : A) (evs : list event)
    (r : row) :
  (x, evs) ∈ steps -> r ∈ appended evs -> r ∈ appended (flatten steps).
Proof.
  intros Hin Hr. apply list_elem_of_split in Hin as (s1 & s2 & ->).
  rewrite flatten_app, appended_app. apply elem_of_app. right.
  change (flatten ((x, evs) :: s2)) with (evs ++ flatten s2).
  rewrite appended_app. apply elem_of_app. now left.
Qed.

Lemma attempted_phone_nonempty N dry s p :
  p ∈ AddPatients.attempted (AddPatients.main_with N dry s) -> AddPatients.phone p <> "".
Proof.
  intros (patients & Hread & Hin & _)%attempted_remaining.
  destruct (AddPatients.csv_file s) as [rows|]; [|discriminate].
  destruct (read_patient_csv_first rows patients Hread) as (_ & _ & Hfirst).
  destruct (Hfirst p Hin) as (_ & _ & _ & _ & _ & Hne & _). exact Hne.
Qed.

(** The rows of a run are those of its loop. *)
Lemma patients_rows_from_steps N dry s r :
  r ∈ appended (AddPatients.trace (AddPatients.main_with N dry s)) ->
  r ∈ appended (flatten (AddPatients.steps (AddPatients.main_with N dry s))).
Proof.
  unfold AddPatients.trace. rewrite !appended_app.
  assert (Hb : appended (AddPatients.before (AddPatients.main_with N dry s)) = []
               /\ appended (AddPatients.after (AddPatients.main_with N dry s)) = []).
  { unfold AddPatients.main_with, AddPatients.stopped.
    destruct (AddPatients.start s); [|now split].
    destruct (AddPatients.is_user_authorized s) as [[|]|]; try now split.
    destruct (AddPatients.get_me s); [|now split].
    destruct (AddPatients.read_patient_csv _) as [patients|]; [|now split].
    destruct (filter _ patients) as [|p0 rest]; [now split|].
    destruct (AddPatients.get_channel s); [|now split].
    now destruct (AddPatients.loop N dry _ 0 (p0 :: rest) _ _). }
  destruct Hb as [-> ->]. rewrite app_nil_r. intros H. exact H.
Qed.

(** A trace of requests and sleeps leaves the file as it was. *)
Lemma output_after_quiet (earlier t : list event) :
  forallb (fun e => is_call e || is_sleep e) t = true ->
  output_after (earlier ++ t) = output_after earlier.
Proof.
  induction t as [|e t IH] using rev_ind; [now rewrite app_nil_r|].
  rewrite forallb_app. intros [Ht He]%andb_true_iff.
  rewrite app_assoc, output_after_snoc. destruct e; try discriminate; auto.
Qed.

(** What [safe_dm_invite.py] does outside its loop is requests. *)
Lemma messages_outside_loop N dry s :
  forallb is_call (SafeDM.before (SafeDM.main_with N dry s)) = true
  /\ forallb is_call (SafeDM.after (SafeDM.main_with N dry s)) = true.
Proof.
  unfold SafeDM.main_with, SafeDM.stopped.
  destruct (SafeDM.start s); [|now split].
  destruct (SafeDM.is_user_authorized s) as [[|]|]; try now split.
  destruct (SafeDM.csv_file s) as [rows|]; [|now split].
  destruct (filter _ rows) as [|u0 rest]; [now split|].
  destruct (SafeDM.loop N dry _ _ 0 (u0 :: rest) _ _) as [[steps c] [e|]]; now split.
Qed.

Lemma messages_rows_from_steps N dry s r :
  r ∈ appended (SafeDM.trace (SafeDM.main_with N dry s)) ->
  r ∈ appended (flatten (SafeDM.steps (SafeDM.main_with N dry s))).
Proof.
  unfold SafeDM.trace. rewrite !appended_app.
  destruct (messages_outside_loop N dry s) as [Hb Ha].
  rewrite (appended_calls _ Hb), (appended_calls _ Ha), app_nil_r. intros H. exact H.
Qed.

(** X9. Two runs of [add_patients_to_channel.py] in a row, on a result log
    that the script made ([earlier] is what was done since the log did not
    exist): a run that starts from the log an earlier run left attempts no
    patient whose phone number is in a row the earlier run wrote. As a dry
    run writes a [DryRun] row for every patient it goes through, no later
    run, dry or not, attempts any of these patients. *)
Theorem logged_patients_are_left_alone :
  forall earlier N dry s N' dry' s' p,
    AddPatients.output_file s = output_after earlier ->
    AddPatients.output_file s'
    = output_after (earlier ++ AddPatients.trace (AddPatients.main_with N dry s)) ->
    p ∈ AddPatients.attempted (AddPatients.main_with N' dry' s') ->
    (forall r, r ∈ appended (AddPatients.trace (AddPatients.main_with N dry s)) ->
               r !! "phone" <> Some (AddPatients.phone p))
    /\ (dry = true -> p ∉ AddPatients.attempted (AddPatients.main_with N dry s)).
Proof.
  intros earlier N dry s N' dry' s' p _ Hlog Hp.
  assert (Hrows : forall r,
    r ∈ appended (AddPatients.trace (AddPatients.main_with N dry s)) ->
    r !! "phone" <> Some (AddPatients.phone p)).
  { intros r Hr Hk.
    pose proof (attempted_phone_nonempty _ _ _ _ Hp) as Hne.
    apply attempted_remaining in Hp as (_ & _ & _ & Hnot). apply Hnot.
    rewrite Hlog. apply get_processed_phones_iff. split; [exact Hne|].
    apply logged_output_after. right. eauto. }
  split; [exact Hrows|].
  intros -> Hq. unfold AddPatients.attempted in Hq.
  apply list_elem_of_fmap in Hq as ([q evs] & -> & Hstep). cbn [fst] in *.
  pose proof Hstep as Hk. apply list_elem_of_lookup in Hk as [k Hk].
  destruct (patients_main_steps N true s) as [Hnil|[remaining Hsteps]];
    [rewrite Hnil in Hk; destruct k; discriminate|].
  rewrite Hsteps in Hk. apply patients_dry_run in Hk. subst evs.
  eapply (Hrows (AddPatients.result_row q "DryRun" "Simulated" _)); [|reflexivity].
  unfold AddPatients.trace. rewrite !appended_app. apply elem_of_app. right.
  apply elem_of_app. left.
  eapply step_rows_in_trace; [exact Hstep|]. cbn. apply list_elem_of_here.
Qed.

Lemma logged_patients_are_left_alone_witness :
  sara_tesfaye
    ∈ AddPatients.attempted
        (AddPatients.main false
           (later_patients [] (clinic (fun _ => added))
              (AddPatients.main_with 1 true (clinic (fun _ => added)))))
  /\ (forall r,
        r ∈ appended (AddPatients.trace
                        (AddPatients.main_with 1 true (clinic (fun _ => added)))) ->
        r !! "phone" <> Some "+251922222222")
  /\ (true = true ->
      sara_tesfaye
        ∉ AddPatients.attempted (AddPatients.main_with 1 true (clinic (fun _ => added)))).
Proof.
  assert (Hin : sara_tesfaye
    ∈ AddPatients.attempted
        (AddPatients.main false
           (later_patients [] (clinic (fun _ => added))
              (AddPatients.main_with 1 true (clinic (fun _ => added))))))
    by exact (list_elem_of_here sara_tesfaye [dawit_haile]).
  split; [exact Hin|].
  exact (logged_patients_are_left_alone [] 1 true (clinic (fun _ => added))
           AddPatients.DAILY_LIMIT_configured false
           (later_patients [] (clinic (fun _ => added))
              (AddPatients.main_with 1 true (clinic (fun _ => added))))
           sara_tesfaye eq_refl eq_refl Hin).
Defined.

(** X10. Two runs of [safe_dm_invite.py] in a row, on a result log that the
    script made ([earlier] is what was done since the log did not exist): a
    run that starts from the log an earlier run left attempts no user whose
    id is in a row the earlier run wrote. A dry run writes nothing: all it
    does is requests and sleeps, so it leaves the log, or its absence, as it
    found it and takes no user away from later runs. *)
Theorem logged_users_are_left_alone :
  (forall earlier N dry s N' dry' s' u,
      SafeDM.output_file s = output_after earlier ->
      SafeDM.output_file s'
      = output_after (earlier ++ SafeDM.trace (SafeDM.main_with N dry s)) ->
      u ∈ SafeDM.attempted (SafeDM.main_with N' dry' s') ->
      forall r, r ∈ appended (SafeDM.trace (SafeDM.main_with N dry s)) ->
                r !! "user_id" <> get_field u "user_id" None)
  /\ (forall N s,
        forallb (fun e => is_call e || is_sleep e)
                (SafeDM.trace (SafeDM.main_with N true s)) = true
        /\ forall earlier,
             output_after (earlier ++ SafeDM.trace (SafeDM.main_with N true s))
             = output_after earlier).
Proof.
  split.
  - intros earlier N dry s N' dry' s' u _ Hlog Hu r Hr Hk.
    apply dm_attempted_candidate in Hu as (rows & _ & _ & Hc).
    unfold SafeDM.candidate in Hc.
    destruct (get_field u "user_id" None) as [uid|]; [|discriminate].
    apply andb_true_iff in Hc as [Ht Hnot]. apply bool_decide_eq_true in Hnot.
    apply truthy_nonempty in Ht. apply Hnot.
    rewrite Hlog. apply get_processed_users_iff. split; [exact Ht|].
    apply logged_output_after. right. eauto.
  - intros N s.
    assert (Hquiet : forallb (fun e => is_call e || is_sleep e)
                       (SafeDM.trace (SafeDM.main_with N true s)) = true).
    { unfold SafeDM.trace. rewrite !forallb_app.
      assert (Hweak : forall (f : event -> bool) t,
                 (forall e, f e = true -> is_call e || is_sleep e = true) ->
                 forallb f t = true ->
                 forallb (fun e => is_call e || is_sleep e) t = true).
      { intros f t Hf. induction t as [|e t IH]; [reflexivity|]. cbn [forallb].
        intros [He Ht]%andb_true_iff. now rewrite (Hf e He), IH. }
      destruct (messages_outside_loop N true s) as [Hb Ha].
      rewrite (Hweak is_call _ (fun e H => orb_true_intro _ _ (or_introl H)) Hb).
      rewrite (Hweak is_call _ (fun e H => orb_true_intro _ _ (or_introl H)) Ha).
      rewrite andb_true_r. cbn [andb].
      apply (Hweak is_sleep _ (fun e H => orb_true_intro _ _ (or_intror H))).
      destruct (messages_main_steps N true s) as [->|[users ->]]; [reflexivity|].
      apply messages_dry_run. }
    split; [exact Hquiet|]. intros earlier. now apply output_after_quiet.
Qed.

Lemma logged_users_are_left_alone_witness :
  fields [("user_id", "2"); ("username", ""); ("first_name", "Sara")]
    ∈ SafeDM.attempted
        (SafeDM.main false
           (later_messages [] (mailing dm_rows (fun _ => delivered))
              (SafeDM.main_with 1 false (mailing dm_rows (fun _ => delivered)))))
  /\ (forall r,
        r ∈ appended (SafeDM.trace
                        (SafeDM.main_with 1 false (mailing dm_rows (fun _ => delivered)))) ->
        r !! "user_id" <> Some "2")
  /\ forallb (fun e => is_call e || is_sleep e)
       (SafeDM.trace (SafeDM.main_with 35 true (mailing dm_rows (fun _ => delivered))))
     = true.
Proof.
  assert (Hin : fields [("user_id", "2"); ("username", ""); ("first_name", "Sara")]
    ∈ SafeDM.attempted
        (SafeDM.main false
           (later_messages [] (mailing dm_rows (fun _ => delivered))
              (SafeDM.main_with 1 false (mailing dm_rows (fun _ => delivered))))))
    by exact (list_elem_of_here _ []).
  split; [exact Hin|]. split.
  - exact (proj1 logged_users_are_left_alone [] 1 false
             (mailing dm_rows (fun _ => delivered))
             SafeDM.DAILY_LIMIT_configured false
             (later_messages [] (mailing dm_rows (fun _ => delivered))
                (SafeDM.main_with 1 false (mailing dm_rows (fun _ => delivered))))
             (fields [("user_id", "2"); ("username", ""); ("first_name", "Sara")])
             eq_refl eq_refl Hin).
  - exact (proj1 (proj2 logged_users_are_left_alone 35
                    (mailing dm_rows (fun _ => delivered)))).
Defined.

End LaterRuns.

(** ** The requests of an iteration *)

Section PatientsRequests.

Import AddPatients.

(** The [k]-th item a run of the loop enters: its iteration is the body's,
    started below the limit, and the loop goes on to the next item when the
    iteration does not break and the limit is still not reached. *)
Lemma loop_lookup_body N dry total w remaining i st k p evs :
  (loop N dry total i remaining w st).1 !! k = Some (p, evs) ->
  exists st_k st' ctl,
    remaining !! k = Some p
    /\ body N dry total (i + k) p (w (i + k)%nat) st_k = (evs, st', ctl)
    /\ count st_k < N
    /\ (ctl = Continue -> count st' < N -> is_Some (remaining !! S k) ->
        is_Some ((loop N dry total i remaining w st).1 !! S k)).
Proof.
  revert i st k. induction remaining as [|p0 rest IH]; intros i st k.
  - cbn. intros H. discriminate.
  - rewrite loop_cons. destruct (N <=? count st) eqn:Hle; [intros H; discriminate|].
    apply Z.leb_gt in Hle.
    destruct (body N dry total i p0 (w i) st) as [[evs0 st0] ctl0] eqn:Hbody.
    destruct ctl0.
    + specialize (IH (S i) st0).
      destruct (loop N dry total (S i) rest w st0) as [steps st''] eqn:Hloop.
      cbn [fst snd] in *. destruct k as [|k]; cbn [lookup list_lookup].
      * intros [= <- <-]. exists st, st0, Continue.
        replace (i + 0)%nat with i by lia.
        split; [reflexivity|]. split; [exact Hbody|]. split; [exact Hle|].
        intros _ Hlt [p1 Hp1].
        destruct rest as [|p1' rest']; [discriminate|].
        destruct (loop_enters N dry total w (S i) p1' rest' st0 Hlt)
          as (evs1 & steps1 & Hsteps).
        rewrite Hloop in Hsteps. cbn [fst] in Hsteps. subst steps. cbn. eauto.
      * intros Hk. destruct (IH k Hk) as (st_k & st' & ctl & Hrem & Hb & Hlt & Hc).
        exists st_k, st', ctl.
        replace (i + S k)%nat with (S i + k)%nat by lia. auto.
    + cbn [fst snd]. destruct k as [|k]; [|intros H; discriminate].
      intros [= <- <-]. exists st, st0, Break.
      replace (i + 0)%nat with i by lia.
      split; [reflexivity|]. split; [exact Hbody|]. split; [exact Hle|]. discriminate.
Qed.

(** The requests of the [try] block, spelled out. *)
Lemma requests_cases p w :
  requests p w
  = Call (ImportContactsRequest (phone p) (first_name p) (last_name p))
      :: match resolve_phone_to_user w with
         | None => []
         | Some user =>
             Call (GetParticipantRequest user)
               :: match get_participant w with
                  | Ok _ => []
                  | Raise _ => [Call (InviteToChannelRequest user)]
                  end
         end.
Proof.
  unfold requests, attempt. destruct (resolve_phone_to_user w); [|reflexivity].
  destruct (get_participant w); reflexivity.
Qed.

Lemma pause_sleeps N total i w st : forallb is_sleep (pause N total i w st) = true.
Proof. unfold pause. now destruct (_ && _). Qed.

Lemma pause_quiet N total i w st :
  forallb (fun e => negb (is_call e)) (pause N total i w st) = true.
Proof. unfold pause. now destruct (_ && _). Qed.

Lemma not_in_quiet (c : request) (t : list event) :
  forallb (fun e => negb (is_call e)) t = true -> Call c ∉ t.
Proof.
  induction t as [|e t IH]; cbn [forallb]; [intros _ H; inversion H|].
  intros [He Ht]%andb_true_iff [Heq|Hin]%elem_of_cons;
    [subst e; discriminate He | now apply IH].
Qed.

Lemma invite_anyway_failed w st e :
  invite_to_channel w = Raise e -> class e <> UserAlreadyParticipantError ->
  invite_anyway w st = Done "Failed" (Py.slice_to 50 (message e)) (failed st).
Proof.
  intros Hinv Hc. unfold invite_anyway. rewrite Hinv.
  destruct (class e); congruence.
Qed.

(** An iteration outside dry-run mode: the requests of the [try] block, then
    rows and sleeps, then the cleanup unless throttling cut it short. *)
Lemma body_shape N total i p w st :
  exists mid,
    (body N false total i p w st).1.1
    = requests p w ++ mid ++ (if cut_short p w then [] else cleanup w)
    /\ forallb (fun e => negb (is_call e)) mid = true.
Proof.
  pose proof (body_iteration N false total i p w st) as Hit. unfold cut_short.
  destruct Hit as [Hdry|e _ He Hc|e wait _ He Hc _|e wait _ He Hc _
                   |e _ He Ht|status reason st' _ He _]; [discriminate|..]; rewrite He.
  - rewrite (throttle_peer_flood e Hc). eexists [_]. split; reflexivity.
  - rewrite (throttle_flood_wait e wait Hc). eexists [_]. split; reflexivity.
  - rewrite (throttle_flood_wait e wait Hc). eexists [_]. split; reflexivity.
  - rewrite Ht. eexists (_ :: pause N total i w (failed st)).
    split; [reflexivity|]. cbn [forallb is_call negb andb]. apply pause_quiet.
  - eexists (_ :: pause N total i w st').
    split; [reflexivity|]. cbn [forallb is_call negb andb]. apply pause_quiet.
Qed.

Lemma body_dry N total i p w st :
  (body N true total i p w st).1.1
  = [Append [result_row p "DryRun" "Simulated" (now w)]; Sleep (1 # 2)].
Proof. reflexivity. Qed.

(** X11. In [add_patients_to_channel.py] no exception of the contact import
    stops the run, a [PeerFloodError] or a [FloodWaitError] included:
    [resolve_phone_to_user] catches it, the item is recorded as
    [Failed]/[NotOnTelegram] with no further request, and the loop goes on
    to the next item. *)
Theorem failed_import_does_not_stop_the_run :
  forall N total i remaining w st k p evs e,
    (loop N false total i remaining w st).1 !! k = Some (p, evs) ->
    import_contacts (w (i + k)%nat) = Raise e ->
    (exists rest,
        evs = [Call (ImportContactsRequest (phone p) (first_name p) (last_name p));
               Append [result_row p "Failed" "NotOnTelegram" (now (w (i + k)%nat))]]
                ++ rest
        /\ forallb is_sleep rest = true)
    /\ (is_Some (remaining !! S k) ->
        is_Some ((loop N false total i remaining w st).1 !! S k)).
Proof.
  intros N total i remaining w st k p evs e Hk Himport.
  destruct (loop_lookup_body _ _ _ _ _ _ _ _ _ _ Hk)
    as (st_k & st' & ctl & _ & Hbody & Hlt & Hnext).
  unfold body, attempt, finish, cleanup, resolve_phone_to_user in Hbody.
  rewrite Himport in Hbody. injection Hbody as <- <- <-. split.
  - eexists. split; [reflexivity|]. rewrite app_nil_r. apply pause_sleeps.
  - now apply Hnext.
Qed.

Lemma failed_import_does_not_stop_the_run_witness :
  (exists rest,
      (body 9999 false 3 0 abebe_kebede (import_fails PeerFloodError) initial).1.1
      = [Call (ImportContactsRequest "+251911111111" "Abebe" "Kebede");
         Append [result_row abebe_kebede "Failed" "NotOnTelegram" "2024-01-01 10:00:00"]]
          ++ rest
      /\ forallb is_sleep rest = true)
  /\ is_Some ((loop 9999 false 3 0 [abebe_kebede; sara_tesfaye; dawit_haile]
                 (first_then_added (import_fails PeerFloodError)) initial).1 !! 1%nat).
Proof.
  pose (H := failed_import_does_not_stop_the_run 9999 3%nat 0%nat
               [abebe_kebede; sara_tesfaye; dawit_haile]
               (first_then_added (import_fails PeerFloodError)) initial
               0%nat abebe_kebede _ (Exn PeerFloodError "refused") eq_refl eq_refl).
  exact (conj (proj1 H) (proj2 H (ex_intro _ sara_tesfaye eq_refl))).
Defined.

(** X12. In [add_patients_to_channel.py], when the membership check fails
    with an exception other than [UserNotParticipantError], the invite is
    sent all the same, and whatever it raises then, a [PeerFloodError] or a
    [FloodWaitError] included, is recorded as [Failed] with the first 50
    characters of its text ([UserAlreadyParticipantError] apart): the pause
    and the cleanup follow, and the loop goes on to the next item. *)
Theorem errors_after_a_failed_check_are_recorded :
  forall N total i remaining w st k p evs user e1 e2,
    (loop N false total i remaining w st).1 !! k = Some (p, evs) ->
    import_contacts (w (i + k)%nat) = Ok (Some user) ->
    get_participant (w (i + k)%nat) = Raise e1 ->
    class e1 <> UserNotParticipantError ->
    invite_to_channel (w (i + k)%nat) = Raise e2 ->
    class e2 <> UserAlreadyParticipantError ->
    (exists rest,
        evs = [Call (ImportContactsRequest (phone p) (first_name p) (last_name p));
               Call (GetParticipantRequest user); Call (InviteToChannelRequest user);
               Append [result_row p "Failed" (Py.slice_to 50 (message e2))
                         (now (w (i + k)%nat))]]
                ++ rest ++ [Call (DeleteContactsRequest user)]
        /\ forallb is_sleep rest = true)
    /\ (is_Some (remaining !! S k) ->
        is_Some ((loop N false total i remaining w st).1 !! S k)).
Proof.
  intros N total i remaining w st k p evs user e1 e2 Hk Himport Hcheck Hc1 Hinv Hc2.
  destruct (loop_lookup_body _ _ _ _ _ _ _ _ _ _ Hk)
    as (st_k & st' & ctl & _ & Hbody & Hlt & Hnext).
  assert (Hattempt : attempt p (w (i + k)%nat) st_k
            = ([Call (ImportContactsRequest (phone p) (first_name p) (last_name p));
                Call (GetParticipantRequest user); Call (InviteToChannelRequest user)],
               Done "Failed" (Py.slice_to 50 (message e2)) (failed st_k))).
  { unfold attempt, resolve_phone_to_user. rewrite Himport, Hcheck.
    rewrite <- (invite_anyway_failed _ st_k _ Hinv Hc2).
    destruct (class e1); congruence. }
  unfold body in Hbody. rewrite Hattempt in Hbody.
  unfold finish, cleanup, resolve_phone_to_user in Hbody. rewrite Himport in Hbody.
  injection Hbody as <- <- <-. split.
  - eexists. split; [reflexivity | apply pause_sleeps].
  - now apply Hnext.
Qed.

Lemma errors_after_a_failed_check_are_recorded_witness :
  (exists rest,
      (body 9999 false 3 0 abebe_kebede (check_fails PeerFloodError) initial).1.1
      = [Call (ImportContactsRequest "+251911111111" "Abebe" "Kebede");
         Call (GetParticipantRequest 7); Call (InviteToChannelRequest 7);
         Append [result_row abebe_kebede "Failed" "refused" "2024-01-01 10:00:00"]]
          ++ rest ++ [Call (DeleteContactsRequest 7)]
      /\ forallb is_sleep rest = true)
  /\ is_Some ((loop 9999 false 3 0 [abebe_kebede; sara_tesfaye; dawit_haile]
                 (first_then_added (check_fails PeerFloodError)) initial).1 !! 1%nat).
Proof.
  pose (H := errors_after_a_failed_check_are_recorded 9999 3%nat 0%nat
               [abebe_kebede; sara_tesfaye; dawit_haile]
               (first_then_added (check_fails PeerFloodError)) initial
               0%nat abebe_kebede _ 7 (Exn OtherError "timeout")
               (Exn PeerFloodError "refused")
               eq_refl eq_refl eq_refl ltac:(discriminate) eq_refl ltac:(discriminate)).
  exact (conj (proj1 H) (proj2 H (ex_intro _ sara_tesfaye eq_refl))).
Defined.

End PatientsRequests.

Section InviteRequests.

Import InviteUsers.

(** The events of an iteration of [invite_users_to_channel.py], spelled
    out. *)
Lemma inviting_cases u w :
  inviting u w
  = fst (get_user_entity u w)
      ++ match snd (get_user_entity u w) with
         | None => [Sleep 1]
         | Some e =>
             Call (GetParticipantRequest e)
               :: (if is_user_in_channel w then [Sleep 1]
                   else Call (InviteToChannelRequest e)
                          :: match invite_to_channel w with
                             | Raise x =>
                                 match class x with
                                 | FloodWaitError wait => [Sleep (inject_Z wait)]
                                 | _ => []
                                 end
                             | Ok _ => []
                             end ++ [Sleep 1])
         end.
Proof.
  unfold inviting, body.
  destruct (get_user_entity u w) as [calls [e|]]; cbn [fst snd]; [|reflexivity].
  destruct (is_user_in_channel w); cbn [fst snd]; [now rewrite <- app_assoc|].
  pose proof (add_user_flood_wait w) as Hflood.
  assert (Hok : invite_to_channel w = Ok tt -> add_user_to_channel w = (true, "Success")).
  { intros H. unfold add_user_to_channel. now rewrite H. }
  assert (Hfail : forall x, invite_to_channel w = Raise x ->
                            fst (add_user_to_channel w) = false).
  { intros x H. unfold add_user_to_channel. rewrite H. destruct (class x); reflexivity. }
  destruct (invite_to_channel w) as [[]|x].
  - rewrite (Hok eq_refl). cbn [fst snd]. now rewrite <- !app_assoc.
  - specialize (Hfail x eq_refl).
    destruct (add_user_to_channel w) as [success reason]. cbn [fst snd] in *. subst success.
    rewrite Hflood. cbn [fst snd]. now rewrite <- !app_assoc.
Qed.

Lemma get_by_id_lookups u w :
  (forall c, Call c ∈ fst (get_by_id u w) ->
             exists n, c = GetEntityById n /\ Py.int (user_id u) = Some n)
  /\ (length (fst (get_by_id u w)) <= 2)%nat.
Proof.
  unfold get_by_id.
  destruct (Py.truthy (user_id u)); [|split; [intros c H; inversion H | cbn; lia]].
  destruct (Py.int (user_id u)) as [n|]; [|split; [intros c H; inversion H | cbn; lia]].
  assert (Hn : forall l, Forall (fun e => e = Call (GetEntityById n)) l ->
            forall c, Call c ∈ l -> exists n0, c = GetEntityById n0 /\ Some n = Some n0).
  { intros l Hl c Hin. apply (proj1 (Forall_forall _ _) Hl) in Hin.
    injection Hin as ->. eauto. }
  destruct (get_entity_by_id w) as [|x];
    [split; [apply Hn; repeat constructor | cbn; lia]|].
  destruct (class x); (split; [apply Hn; repeat constructor | cbn; lia]).
Qed.

Lemma get_user_entity_lookups u w c :
  Call c ∈ fst (get_user_entity u w) ->
  (c = GetEntityByName (Py.strip (Py.lstrip_char "@" (username u)))
   /\ Py.strip (Py.lstrip_char "@" (username u)) <> "")
  \/ (exists n, c = GetEntityById n /\ Py.int (user_id u) = Some n).
Proof.
  unfold get_user_entity. destruct (get_by_id_lookups u w) as [Hc _].
  destruct (Py.truthy (username u)); [|intros H; right; auto].
  destruct (Py.truthy _) eqn:Ht; [|intros H; right; auto].
  apply truthy_nonempty in Ht.
  destruct (get_entity_by_name w).
  - cbn [fst]. intros [= ->]%list_elem_of_singleton. auto.
  - destruct (get_by_id u w) as [calls found]. cbn [fst] in *.
    intros [[= ->]|H]%elem_of_cons; auto.
Qed.

End InviteRequests.

Section InviteSent.

(** X13. When an invite is sent: in [add_patients_to_channel.py] exactly
    outside dry-run mode, for the user the contact import resolved, when the
    membership check raised an exception; in [invite_users_to_channel.py]
    exactly for the entity that was found, when [is_user_in_channel]
    answered [False]. So no invite goes to someone the check reports as a
    member, nor to a number or user that could not be resolved. *)
Theorem invite_needs_a_failed_membership_check :
  (forall N dry total i p w st user,
      Call (InviteToChannelRequest user) ∈ (AddPatients.body N dry total i p w st).1.1
      <-> dry = false
          /\ AddPatients.resolve_phone_to_user w = Some user
          /\ exists e, AddPatients.get_participant w = Raise e)
  /\ (forall u w user,
        Call (InviteToChannelRequest user) ∈ inviting u w
        <-> snd (InviteUsers.get_user_entity u w) = Some user
            /\ InviteUsers.is_user_in_channel w = false).
Proof.
  split.
  - intros N dry total i p w st user. destruct dry.
    { rewrite body_dry. split; [|intros [[=] _]].
      intros [[=]|[[=]|H]%elem_of_cons]%elem_of_cons. inversion H. }
    destruct (body_shape N total i p w st) as (mid & -> & Hmid).
    rewrite !elem_of_app, requests_cases. split.
    + intros [Hin|[Hin|Hin]].
      * split; [reflexivity|].
        apply elem_of_cons in Hin as [[=]|Hin].
        destruct (AddPatients.resolve_phone_to_user w) as [u0|]; [|inversion Hin].
        apply elem_of_cons in Hin as [[=]|Hin].
        destruct (AddPatients.get_participant w) as [|e]; [inversion Hin|].
        apply list_elem_of_singleton in Hin as [= ->]. eauto.
      * now apply not_in_quiet in Hin.
      * exfalso. destruct (cut_short p w); [inversion Hin|].
        unfold AddPatients.cleanup in Hin.
        destruct (AddPatients.resolve_phone_to_user w); [|inversion Hin].
        apply list_elem_of_singleton in Hin. discriminate.
    + intros (_ & -> & e & ->). left. do 2 right. apply list_elem_of_here.
  - intros u w user. rewrite inviting_cases, elem_of_app. split.
    + intros [Hin|Hin].
      * apply get_user_entity_lookups in Hin as [[[=] _]|(n & [=] & _)].
      * destruct (snd (InviteUsers.get_user_entity u w)) as [e|].
        -- apply elem_of_cons in Hin as [[=]|Hin].
           destruct (InviteUsers.is_user_in_channel w).
           ++ apply list_elem_of_singleton in Hin. discriminate.
           ++ apply elem_of_cons in Hin as [[= ->]|Hin]; [auto|].
              exfalso. apply elem_of_app in Hin as [Hin|Hin].
              ** destruct (InviteUsers.invite_to_channel w) as [|x]; [inversion Hin|].
                 destruct (class x); try (inversion Hin; fail).
                 apply list_elem_of_singleton in Hin. discriminate.
              ** apply list_elem_of_singleton in Hin. discriminate.
        -- apply list_elem_of_singleton in Hin. discriminate.
    + intros [-> ->]. right. right. apply list_elem_of_here.
Qed.

Lemma invite_needs_a_failed_membership_check_witness :
  Call (InviteToChannelRequest 7)
    ∈ (AddPatients.body 9999 false 3 0 abebe_kebede added AddPatients.initial).1.1
  /\ Call (InviteToChannelRequest 1) ∈ inviting (InviteUsers.User "1" "" "" "") newcomer.
Proof.
  split.
  - exact (proj2 (proj1 invite_needs_a_failed_membership_check 9999 false 3%nat 0%nat
                    abebe_kebede added AddPatients.initial 7)
             (conj eq_refl (conj eq_refl (ex_intro _ (Exn UserNotParticipantError "") eq_refl)))).
  - exact (proj2 (proj2 invite_needs_a_failed_membership_check
                    (InviteUsers.User "1" "" "" "") newcomer 1)
             (conj eq_refl eq_refl)).
Defined.

(** X14. The contact that [add_patients_to_channel.py] imports for an item is
    deleted again exactly when the iteration reaches its end: not in a dry
    run, and not when a [PeerFloodError] or a [FloodWaitError] leaves the
    [try] block, in which case the imported contact stays in the contact
    list. *)
Theorem contact_is_deleted_unless_throttled :
  forall N dry total i p w st user,
    Call (DeleteContactsRequest user) ∈ (AddPatients.body N dry total i p w st).1.1
    <-> dry = false
        /\ AddPatients.resolve_phone_to_user w = Some user
        /\ cut_short p w = false.
Proof.
  intros N dry total i p w st user. destruct dry.
  { rewrite body_dry. split; [|intros [[=] _]].
    intros [[=]|[[=]|H]%elem_of_cons]%elem_of_cons. inversion H. }
  destruct (body_shape N total i p w st) as (mid & -> & Hmid).
  rewrite !elem_of_app, requests_cases. unfold AddPatients.cleanup. split.
  - intros [Hin|[Hin|Hin]].
    + exfalso. apply elem_of_cons in Hin as [[=]|Hin].
      destruct (AddPatients.resolve_phone_to_user w) as [u0|]; [|inversion Hin].
      apply elem_of_cons in Hin as [[=]|Hin].
      destruct (AddPatients.get_participant w) as [|e]; [inversion Hin|].
      apply list_elem_of_singleton in Hin. discriminate.
    + now apply not_in_quiet in Hin.
    + destruct (cut_short p w); [inversion Hin|].
      destruct (AddPatients.resolve_phone_to_user w); [|inversion Hin].
      apply list_elem_of_singleton in Hin as [= ->]. auto.
  - intros (_ & -> & ->). do 2 right. apply list_elem_of_here.
Qed.

Lemma contact_is_deleted_unless_throttled_witness :
  Call (DeleteContactsRequest 7)
    ∈ (AddPatients.body 9999 false 3 0 abebe_kebede added AddPatients.initial).1.1.
Proof.
  exact (proj2 (contact_is_deleted_unless_throttled 9999 false 3%nat 0%nat abebe_kebede
                  added AddPatients.initial 7)
           (conj eq_refl (conj eq_refl eq_refl))).
Defined.

End InviteSent.

(** ** The pause between two items *)

Section PauseBetweenItems.

Lemma flatten_take_S {A} (steps : list (A * list event)) (k : nat) (x : A)
    (evs : list event) :
  steps !! k = Some (x, evs) ->
  flatten (take (S k) steps) = flatten (take k steps) ++ evs.
Proof.
  intros Hk. rewrite (take_S_r _ _ _ Hk), flatten_app.
  change (flatten [(x, evs)]) with (evs ++ []). now rewrite app_nil_r.
Qed.

(** X15. In a run of [add_patients_to_channel.py] outside dry-run mode, an
    item that is followed by another one ends in one of two ways: a short
    flood wait, whose only sleep is the wait, or the row, then a pause of
    [MIN_DELAY] to [MAX_DELAY] seconds (15 to 45), then the cleanup. The
    pause comes before the cleanup: the request that deletes the contact,
    when there is one, is the last effect of the item, and the import of the
    next item follows it without a sleep in between. *)
Theorem patients_pause_between_items :
  forall N remaining w st k p evs,
    let steps := (AddPatients.loop N false (length remaining) 0 remaining w st).1 in
    steps !! k = Some (p, evs) ->
    is_Some (steps !! S k) ->
    (exists wait, evs = requests p (w k) ++ [Sleep (inject_Z wait)])
    \/ (exists r d,
           evs = requests p (w k) ++ [Append [r]] ++ [Sleep (inject_Z d)]
                   ++ AddPatients.cleanup (w k)
           /\ AddPatients.MIN_DELAY <= d <= AddPatients.MAX_DELAY).
Proof.
  intros N remaining w st k p evs steps Hk [[p' evs'] Hk'].
  destruct (loop_lookup _ _ _ _ _ _ _ _ _ _ Hk)
    as (st_k & st' & ctl & _ & _ & Hcount & Hit & Hbreak & _).
  destruct (loop_lookup _ _ _ _ _ _ _ _ _ _ Hk')
    as (st_k' & _ & _ & Hrem' & Hlt' & Hcount' & _).
  fold steps in Hcount, Hcount', Hbreak.
  rewrite (flatten_take_S _ _ _ _ Hk), appended_app, counted_app in Hcount'.
  destruct (iteration_count _ _ _ _ _ _ _ _ _ _ Hit) as [Hc _].
  assert (Hlt : AddPatients.count st' < N) by lia.
  assert (Hi : (k < length remaining - 1)%nat).
  { apply lookup_lt_Some in Hrem'. lia. }
  assert (Hlen : ctl = Break -> False).
  { intros Hb. apply Hbreak in Hb. apply lookup_lt_Some in Hk'. fold steps in Hk'. lia. }
  cbn [Nat.add] in Hit.
  assert (Hpause : forall st0, AddPatients.count st0 = AddPatients.count st' ->
            exists d, AddPatients.pause N (length remaining) k (w k) st0
                      = [Sleep (inject_Z d)]
                      /\ AddPatients.MIN_DELAY <= d <= AddPatients.MAX_DELAY).
  { intros st0 H0. apply patients_pause. split; [lia | exact Hi]. }
  destruct Hit as [Hdry|e _ He Hc'|e wait _ He Hc' _|e wait _ He Hc' _
                   |e _ He Ht|status reason st'' _ He _].
  - discriminate.
  - now destruct Hlen.
  - now destruct Hlen.
  - left. eauto.
  - right. destruct (Hpause _ eq_refl) as (d & -> & Hd). eauto.
  - right. destruct (Hpause _ eq_refl) as (d & -> & Hd). eauto.
Qed.

Lemma patients_pause_between_items_witness :
  (exists wait,
      (AddPatients.body 9999 false 3 0 abebe_kebede added AddPatients.initial).1.1
      = requests abebe_kebede added ++ [Sleep (inject_Z wait)])
  \/ (exists r d,
         (AddPatients.body 9999 false 3 0 abebe_kebede added AddPatients.initial).1.1
         = requests abebe_kebede added ++ [Append [r]] ++ [Sleep (inject_Z d)]
             ++ AddPatients.cleanup added
         /\ AddPatients.MIN_DELAY <= d <= AddPatients.MAX_DELAY).
Proof.
  refine (patients_pause_between_items 9999 [abebe_kebede; sara_tesfaye; dawit_haile]
            (fun _ => added) AddPatients.initial 0%nat abebe_kebede _ eq_refl _).
  exists (sara_tesfaye,
          (AddPatients.body 9999 false 3 1 sara_tesfaye added
             (AddPatients.succeeded AddPatients.initial)).1.1).
  reflexivity.
Defined.

(** X16. In a run of [safe_dm_invite.py] outside dry-run mode, every item
    that is followed by another one had its message text built, and ends
    with its row and then a pause of [MIN_DELAY] to [MAX_DELAY] seconds (60
    to 300): two messages are never sent less than [MIN_DELAY] seconds
    apart. *)
Theorem messages_pause_between_items :
  forall N messages link users i w count k user evs,
    let steps := (SafeDM.loop N false messages link i users w count).1.1 in
    steps !! k = Some (user, evs) ->
    is_Some (steps !! S k) ->
    exists text r d,
      text_for messages link user (w (i + k)%nat) = Ok text
      /\ evs = sending text user (w (i + k)%nat) ++ [Append [r]] ++ [Sleep (inject_Z d)]
      /\ SafeDM.MIN_DELAY <= d <= SafeDM.MAX_DELAY.
Proof.
  intros N ms link users i w count k user evs steps Hk [[u' evs'] Hk'].
  assert (Hlen : length steps = S k -> False).
  { intros H. apply lookup_lt_Some in Hk'. lia. }
  destruct (dm_loop_lookup _ _ _ _ _ _ _ _ _ _ _ Hk)
    as (c_k & _ & _ & Hcount
        & [(x & _ & _ & Hlast & _)|(text & c' & ctl & Htext & Hit & Hbreak & _)]);
    [now destruct Hlen|].
  destruct (dm_loop_lookup _ _ _ _ _ _ _ _ _ _ _ Hk') as (c_k' & _ & Hlt' & Hcount' & _).
  fold steps in Hcount, Hcount', Hbreak. unfold progress in *.
  rewrite (flatten_take_S _ _ _ _ Hk), appended_app, sent_app in Hcount'.
  destruct (dm_iteration_count _ _ _ _ _ _ _ _ _ Hit) as (Hc & _ & _).
  unfold progress in Hc.
  assert (Hlt : c' < N) by lia.
  exists text.
  destruct Hit as [Hdry|e _ He Hc'|e wait _ He Hc'|status reason count'' _ He _].
  - discriminate.
  - now destruct Hlen, Hbreak.
  - now destruct Hlen, Hbreak.
  - unfold dm_pause. destruct (count'' <? N) eqn:Hn; [|apply Z.ltb_ge in Hn; lia].
    eexists _, _. split; [exact Htext|]. split; [reflexivity|]. now apply randint_bounds.
Qed.

Lemma messages_pause_between_items_witness :
  exists text r d,
    text_for (SafeDM.load_messages None) None
      (fields [("user_id", "1"); ("username", ""); ("first_name", "Abebe")]) delivered
    = Ok text
    /\ (SafeDM.deliver 35 false default_text
          (fields [("user_id", "1"); ("username", ""); ("first_name", "Abebe")])
          delivered 0).1.1
       = sending text (fields [("user_id", "1"); ("username", ""); ("first_name", "Abebe")])
           delivered
           ++ [Append [r]] ++ [Sleep (inject_Z d)]
    /\ SafeDM.MIN_DELAY <= d <= SafeDM.MAX_DELAY.
Proof.
  refine (messages_pause_between_items 35 (SafeDM.load_messages None) None dm_rows 0%nat
            (fun _ => delivered) 0 0%nat
            (fields [("user_id", "1"); ("username", ""); ("first_name", "Abebe")]) _
            eq_refl _).
  exists (fields [("user_id", "2"); ("username", ""); ("first_name", "Sara")],
          (SafeDM.deliver 35 false default_text
             (fields [("user_id", "2"); ("username", ""); ("first_name", "Sara")])
             delivered 1).1.1).
  reflexivity.
Defined.

End PauseBetweenItems.

(** ** Dry runs *)

Section DryRunItems.

Lemma patients_dry_run_attempted N total i remaining w st :
  map fst (AddPatients.loop N true total i remaining w st).1
  = take (Z.to_nat (N - AddPatients.count st)) remaining.
Proof.
  revert i st.
  induction remaining as [|p rest IH]; intros i st; [now rewrite take_nil|].
  rewrite loop_cons. destruct (N <=? AddPatients.count st) eqn:Hle.
  + apply Z.leb_le in Hle. replace (Z.to_nat _) with 0%nat by lia. reflexivity.
  + apply Z.leb_gt in Hle. cbn [AddPatients.body].
    specialize (IH (S i) (AddPatients.simulated st)).
    destruct (AddPatients.loop N true total (S i) rest w _) as [steps st''].
    cbn [fst snd map] in *. rewrite IH. cbn [AddPatients.count AddPatients.simulated].
    replace (Z.to_nat (N - AddPatients.count st))
      with (S (Z.to_nat (N - (AddPatients.count st + 1)))) by lia.
    reflexivity.
Qed.

(** With the messages that [load_messages] returns, the text is built for a
    row exactly when the row does not have [None] for a first name. *)
Lemma text_for_named file link user w text :
  text_for (SafeDM.load_messages file) link user w = Ok text ->
  user !! "first_name" <> Some None.
Proof.
  unfold text_for. intros H Hnone.
  pose proof (message_text_cases (SafeDM.load_messages file) (SafeDM.choice_draw w) link
                (get_field user "first_name" (Some "Friend"))) as Hc.
  rewrite H in Hc. destruct Hc as [_ Hname]. apply Hname.
  unfold get_field. now rewrite Hnone.
Qed.

Lemma messages_dry_run_attempted N file link i users w count :
  Forall (fun u : reader_row => u !! "first_name" <> Some None)
         (take (Z.to_nat (N - count)) users) ->
  map fst (SafeDM.loop N true (SafeDM.load_messages file) link i users w count).1.1
  = take (Z.to_nat (N - count)) users
  /\ (SafeDM.loop N true (SafeDM.load_messages file) link i users w count).2 = None.
Proof.
  revert i count.
  induction users as [|u rest IH]; intros i count; [now rewrite take_nil|].
  rewrite dm_loop_cons. destruct (N <=? count) eqn:Hle.
  + apply Z.leb_le in Hle. replace (Z.to_nat _) with 0%nat by lia. now split.
  + apply Z.leb_gt in Hle.
    replace (Z.to_nat (N - count)) with (S (Z.to_nat (N - (count + 1)))) by lia.
    rewrite firstn_cons. intros [Hu Hrest]%Forall_cons.
    destruct (dm_body_cases N true (SafeDM.load_messages file) link u (w i) count)
      as [(e & Htext & _)|(text & _ & ->)];
      [now apply text_for_loaded in Htext as [Hnone _]|].
    cbn [SafeDM.deliver].
    specialize (IH (S i) (count + 1) Hrest).
    destruct (SafeDM.loop N true _ link (S i) rest w _) as [[steps c''] x].
    cbn [fst snd map] in *. destruct IH as [-> ->]. now split.
Qed.

(** X17. A dry run goes through the candidates in order until as many as
    the limit leaves room for have been gone through, each of them counting,
    and it sends no request: [add_patients_to_channel.py] writes the row
    [DryRun]/[Simulated] and sleeps half a second for each item.
    [safe_dm_invite.py] builds the message text before it looks at the mode:
    for an item whose line is too short to have a first name it raises a
    [TypeError] there, which ends the loop and the run; for every other item
    it only sleeps one second, and it goes through all of the first items
    when none of them is such a line. *)
Theorem dry_run_goes_through_the_first_items :
  (forall N total i remaining w st,
      map fst (AddPatients.loop N true total i remaining w st).1
      = take (Z.to_nat (N - AddPatients.count st)) remaining
      /\ forall k p evs,
           (AddPatients.loop N true total i remaining w st).1 !! k = Some (p, evs) ->
           evs = [Append [AddPatients.result_row p "DryRun" "Simulated"
                            (AddPatients.now (w (i + k)%nat))];
                  Sleep (1 # 2)])
  /\ (forall N messages_file link i users w count,
        let run :=
          SafeDM.loop N true (SafeDM.load_messages messages_file) link i users w count in
        (Forall (fun u : reader_row => u !! "first_name" <> Some None)
                (take (Z.to_nat (N - count)) users) ->
         map fst run.1.1 = take (Z.to_nat (N - count)) users /\ run.2 = None)
        /\ forall k user evs,
             run.1.1 !! k = Some (user, evs) ->
             (user !! "first_name" <> Some None /\ evs = [Sleep 1])
             \/ (user !! "first_name" = Some None /\ evs = []
                 /\ length run.1.1 = S k
                 /\ exists e, run.2 = Some e /\ class e = TypeError)).
Proof.
  split.
  - intros N total i remaining w st.
    split; [apply patients_dry_run_attempted|].
    intros k p evs Hk. exact (patients_dry_run _ _ _ _ _ _ _ _ _ Hk).
  - intros N file link i users w count run.
    split; [apply messages_dry_run_attempted|].
    intros k user evs Hk.
    destruct (dm_loop_lookup _ _ _ _ _ _ _ _ _ _ _ Hk)
      as (c_k & _ & _ & _
          & [(e & Htext & -> & Hlast & Hraised)|(text & c' & ctl & Htext & Hit & _)]).
    + right. apply text_for_loaded in Htext as [Hnone Hclass]. eauto 6.
    + left. split; [exact (text_for_named _ _ _ _ _ Htext)|].
      destruct Hit as [Hdry|e Hdry|e wait Hdry|status reason c'' Hdry];
        [reflexivity | discriminate ..].
Qed.

Lemma dry_run_goes_through_the_first_items_witness :
  (map fst (AddPatients.loop 2 true 3 0 [abebe_kebede; sara_tesfaye; dawit_haile]
              (fun _ => added) AddPatients.initial).1
   = take (Z.to_nat (2 - AddPatients.count AddPatients.initial))
          [abebe_kebede; sara_tesfaye; dawit_haile]
   /\ (AddPatients.body 2 true 3 1 sara_tesfaye added
                        (AddPatients.simulated AddPatients.initial)).1.1
      = [Append [AddPatients.result_row sara_tesfaye "DryRun" "Simulated"
                   "2024-01-01 10:00:00"];
         Sleep (1 # 2)])
  /\ (map fst (SafeDM.loop 1 true (SafeDM.load_messages None) None 0 dm_rows
                 (fun _ => delivered) 0).1.1
      = take (Z.to_nat (1 - 0)) dm_rows
      /\ (SafeDM.loop 1 true (SafeDM.load_messages None) None 0 dm_rows
            (fun _ => delivered) 0).2 = None)
  /\ ((fields [("user_id", "1"); ("username", ""); ("first_name", "Abebe")] : reader_row)
        !! "first_name" <> Some None
      /\ (SafeDM.deliver 1 true default_text
            (fields [("user_id", "1"); ("username", ""); ("first_name", "Abebe")])
            delivered 0).1.1 = [Sleep 1]
      \/ (fields [("user_id", "1"); ("username", ""); ("first_name", "Abebe")] : reader_row)
           !! "first_name" = Some None
         /\ (SafeDM.deliver 1 true default_text
               (fields [("user_id", "1"); ("username", ""); ("first_name", "Abebe")])
               delivered 0).1.1 = []
         /\ length (SafeDM.loop 1 true (SafeDM.load_messages None) None 0 dm_rows
                      (fun _ => delivered) 0).1.1 = 1%nat
         /\ exists e,
              (SafeDM.loop 1 true (SafeDM.load_messages None) None 0 dm_rows
                 (fun _ => delivered) 0).2 = Some e
              /\ class e = TypeError).
Proof.
  split; [|split].
  - pose (H := proj1 dry_run_goes_through_the_first_items 2 3%nat 0%nat
                 [abebe_kebede; sara_tesfaye; dawit_haile] (fun _ => added)
                 AddPatients.initial).
    exact (conj (proj1 H) (proj2 H 1%nat sara_tesfaye _ eq_refl)).
  - refine (proj1 (proj2 dry_run_goes_through_the_first_items 1 None None 0%nat dm_rows
                     (fun _ => delivered) 0) _).
    apply Forall_cons. split; [discriminate | constructor].
  - exact (proj2 (proj2 dry_run_goes_through_the_first_items 1 None None 0%nat dm_rows
                    (fun _ => delivered) 0) 0%nat _ _ eq_refl).
Defined.

End DryRunItems.

(** ** The rows of a run *)

Section PatientRows.

Import AddPatients.

Lemma flatten_rows {A} (steps : list (A * list event)) (r : row) :
  r ∈ appended (flatten steps) ->
  exists k x evs, steps !! k = Some (x, evs) /\ r ∈ appended evs.
Proof.
  induction steps as [|[x evs] steps IH]; [intros H; inversion H|].
  change (flatten ((x, evs) :: steps)) with (evs ++ flatten steps).
  rewrite appended_app. intros [H|H]%elem_of_app.
  - exists 0%nat, x, evs. auto.
  - destruct (IH H) as (k & x' & evs' & Hk & Hr). exists (S k), x', evs'. auto.
Qed.

Lemma iteration_row N dry total i p w st evs st' ctl r :
  iteration N dry total i p w st evs st' ctl -> r ∈ appended evs ->
  exists status reason,
    r = result_row p status reason (now w)
    /\ status ∈ ["Success"; "Failed"; "Skipped"; "DryRun"].
Proof.
  destruct (attempt_cases p w st) as (_ & Hcalls & _).
  pose proof (appended_calls _ Hcalls) as Hreq.
  pose proof (appended_calls _ (cleanup_calls w)) as Hclean.
  intros [Hdry|e Hdry He Hc|e wait Hdry He Hc Hw|e wait Hdry He Hc Hw
          |e Hdry He Ht|status reason st'' Hdry He Hst];
    rewrite ?appended_app, ?Hreq, ?pause_no_rows, ?Hclean;
    cbn [appended flat_map app]; intros Hr;
    try (apply list_elem_of_singleton in Hr as ->).
  - exists "DryRun", "Simulated". split; [reflexivity|]. set_solver.
  - exists "Failed", "PeerFlood". split; [reflexivity|]. set_solver.
  - eexists "Failed", _. split; [reflexivity|]. set_solver.
  - inversion Hr.
  - eexists "Failed", _. split; [reflexivity|]. set_solver.
  - exists status, reason. split; [reflexivity|].
    destruct Hst as [[-> _]|[[->| ->] _]]; set_solver.
Qed.

Lemma attempted_phone_international N dry s p :
  p ∈ attempted (main_with N dry s) -> international (phone p).
Proof.
  intros (patients & Hread & Hin & _)%attempted_remaining.
  destruct (csv_file s) as [rows|]; [|discriminate].
  destruct (read_patient_csv_first rows patients Hread) as (_ & _ & Hfirst).
  destruct (Hfirst p Hin) as (_ & r & _ & _ & -> & Hne & _).
  change (phone (patient_entry r)) with (patient_key r) in *. unfold patient_key in *.
  destruct (normalize_phone_cases (Py.strip (column r "C-Phone"))) as [H|H];
    [congruence | exact H].
Qed.

(** X18. Every row that a run of [add_patients_to_channel.py] writes has a
    phone number in the international form in its [phone] column ('+251'
    and nine decimal digits, in the sense of the pattern [\d]: the digits
    of any script), so that [get_processed_phones] picks it up, and one of
    the statuses [Success], [Failed], [Skipped] and [DryRun]. *)
Theorem rows_carry_an_international_number :
  forall N dry s r,
    r ∈ appended (trace (main_with N dry s)) ->
    (exists k, r !! "phone" = Some k /\ international k)
    /\ (exists status,
           r !! "status" = Some status
           /\ status ∈ ["Success"; "Failed"; "Skipped"; "DryRun"]).
Proof.
  intros N dry s r Hr%patients_rows_from_steps.
  apply flatten_rows in Hr as (k & p & evs & Hk & Hr).
  assert (Hp : p ∈ attempted (main_with N dry s)).
  { unfold attempted. apply list_elem_of_fmap. exists (p, evs). split; [reflexivity|].
    eapply list_elem_of_lookup_2. exact Hk. }
  destruct (patients_main_steps N dry s) as [Hnil|[remaining Hsteps]];
    [rewrite Hnil in Hk; destruct k; discriminate|].
  rewrite Hsteps in Hk.
  destruct (loop_lookup _ _ _ _ _ _ _ _ _ _ Hk) as (st_k & st' & ctl & _ & _ & _ & Hit & _).
  destruct (iteration_row _ _ _ _ _ _ _ _ _ _ _ Hit Hr) as (status & reason & -> & Hs).
  split.
  - exists (phone p). split; [reflexivity|]. eapply attempted_phone_international, Hp.
  - exists status. split; [reflexivity | exact Hs].
Qed.

Lemma rows_carry_an_international_number_witness :
  (exists k,
      result_row abebe_kebede "Success" "Added" "2024-01-01 10:00:00" !! "phone" = Some k
      /\ international k)
  /\ (exists status,
         result_row abebe_kebede "Success" "Added" "2024-01-01 10:00:00" !! "status"
         = Some status
         /\ status ∈ ["Success"; "Failed"; "Skipped"; "DryRun"]).
Proof.
  refine (rows_carry_an_international_number DAILY_LIMIT_configured false
            (clinic (fun _ => added))
            (result_row abebe_kebede "Success" "Added" "2024-01-01 10:00:00") _).
  exact (list_elem_of_here _
           [result_row sara_tesfaye "Success" "Added" "2024-01-01 10:00:00";
            result_row dawit_haile "Success" "Added" "2024-01-01 10:00:00"]).
Defined.

End PatientRows.

Section MessageRows.

Import SafeDM.

Lemma dm_iteration_row N dry text user w count evs count' ctl r :
  dm_iteration N dry text user w count evs count' ctl -> r ∈ appended evs ->
  exists status reason,
    r = result_row user status reason (now w) /\ status ∈ ["Success"; "Failed"].
Proof.
  pose proof (appended_calls _ (sending_calls text user w)) as Hreq.
  intros [Hdry|e Hdry He Hc|e wait Hdry He Hc|status reason count'' Hdry He Hst];
    rewrite ?appended_app, ?Hreq, ?dm_pause_no_rows;
    cbn [appended flat_map app]; intros Hr;
    try (apply list_elem_of_singleton in Hr as ->).
  - inversion Hr.
  - exists "Failed", "PeerFlood". split; [reflexivity|]. set_solver.
  - inversion Hr.
  - exists status, reason. split; [reflexivity|].
    destruct Hst as [[-> _]|[-> _]]; set_solver.
Qed.

(** X19. Every row that a run of [safe_dm_invite.py] writes has a non-empty
    id in its [user_id] column, so that [get_processed_users] picks it up,
    and the status [Success] or [Failed]. *)
Theorem message_rows_carry_the_user_id :
  forall N dry s r,
    r ∈ appended (trace (main_with N dry s)) ->
    (exists uid, r !! "user_id" = Some uid /\ uid <> "")
    /\ (exists status, r !! "status" = Some status /\ status ∈ ["Success"; "Failed"]).
Proof.
  intros N dry s r Hr%messages_rows_from_steps.
  apply flatten_rows in Hr as (k & u & evs & Hk & Hr).
  assert (Hu : u ∈ attempted (main_with N dry s)).
  { unfold attempted. apply list_elem_of_fmap. exists (u, evs). split; [reflexivity|].
    eapply list_elem_of_lookup_2. exact Hk. }
  apply dm_attempted_not_logged in Hu as (uid & Huid & Hne & _).
  destruct (messages_main_steps N dry s) as [Hnil|[users Hsteps]];
    [rewrite Hnil in Hk; destruct k; discriminate|].
  rewrite Hsteps in Hk.
  destruct (dm_loop_lookup _ _ _ _ _ _ _ _ _ _ _ Hk)
    as (c_k & _ & _ & _ & [(e & _ & -> & _)|(text & c' & ctl & _ & Hit & _)]);
    [inversion Hr|].
  destruct (dm_iteration_row _ _ _ _ _ _ _ _ _ _ Hit Hr) as (status & reason & -> & Hs).
  split.
  - exists uid. split; [|exact Hne].
    assert (H : result_row u status reason (now (worlds s (0 + k)%nat)) !! "user_id"
                = Some (written (get_field u "user_id" None))) by reflexivity.
    rewrite H, Huid. reflexivity.
  - exists status. split; [reflexivity | exact Hs].
Qed.

Lemma message_rows_carry_the_user_id_witness :
  (exists uid,
      result_row (fields [("user_id", "1"); ("username", ""); ("first_name", "Abebe")])
        "Success" "Sent" "2024-01-01 10:00:00" !! "user_id" = Some uid
      /\ uid <> "")
  /\ (exists status,
         result_row (fields [("user_id", "1"); ("username", ""); ("first_name", "Abebe")])
           "Success" "Sent" "2024-01-01 10:00:00" !! "status" = Some status
         /\ status ∈ ["Success"; "Failed"]).
Proof.
  refine (message_rows_carry_the_user_id 1 false (mailing dm_rows (fun _ => delivered))
            (result_row (fields [("user_id", "1"); ("username", ""); ("first_name", "Abebe")])
               "Success" "Sent" "2024-01-01 10:00:00") _).
  exact (list_elem_of_here _ []).
Defined.

End MessageRows.

Section RowOrder.

Import AddPatients.

Lemma step_rows_in_order N dry total w remaining i st :
  sublist ((fun r : row => r !! "phone")
             <$> appended (flatten (loop N dry total i remaining w st).1))
          ((fun p => Some (phone p)) <$> remaining).
Proof.
  revert i st. induction remaining as [|p rest IH]; intros i st; [constructor|].
  rewrite loop_cons. destruct (N <=? count st); [apply sublist_nil_l|].
  pose proof (body_iteration N dry total i p (w i) st) as Hit.
  destruct (body N dry total i p (w i) st) as [[evs st'] ctl]. cbn [fst snd] in Hit.
  assert (Hrow : appended evs = []
                 \/ (fun r : row => r !! "phone") <$> appended evs = [Some (phone p)]).
  { apply iteration_appended in Hit
      as [(wait & e & _ & -> & _)|(status & reason & -> & _)]; [now left | now right]. }
  destruct ctl.
  - specialize (IH (S i) st').
    destruct (loop N dry total (S i) rest w st') as [steps st'']. cbn [fst snd] in *.
    change (flatten ((p, evs) :: steps)) with (evs ++ flatten steps).
    rewrite appended_app, fmap_app, fmap_cons.
    destruct Hrow as [-> | ->]; cbn [fmap list_fmap app].
    + now apply sublist_cons.
    + now apply sublist_skip.
  - cbn [fst snd]. change (flatten [(p, evs)]) with (evs ++ []).
    rewrite app_nil_r, fmap_cons.
    destruct Hrow as [-> | ->]; [apply sublist_nil_l|].
    apply sublist_skip, sublist_nil_l.
Qed.

(** X20. The rows that a run of [add_patients_to_channel.py] writes follow
    the order of the patient file: their phone numbers are, in order, the
    normalised numbers of some of the rows of the file. *)
Theorem rows_follow_the_file_order :
  forall N dry s rows,
    csv_file s = Some rows ->
    sublist ((fun r : row => r !! "phone") <$> appended (trace (main_with N dry s)))
            ((fun r => Some (patient_key r)) <$> rows).
Proof.
  intros N dry s rows Hcsv. unfold main_with, stopped, trace.
  destruct (start s); [|apply sublist_nil_l].
  destruct (is_user_authorized s) as [[|]|]; try apply sublist_nil_l.
  destruct (get_me s); [|apply sublist_nil_l].
  rewrite Hcsv.
  destruct (read_patient_csv (Some rows)) as [ps|e] eqn:Hread; [|apply sublist_nil_l].
  pose proof (patients_sublist rows ps Hread) as Hsub.
  set (remaining := filter _ ps).
  assert (Hrem : sublist remaining ps) by apply sublist_filter.
  destruct remaining as [|p0 rest] eqn:Heq; [apply sublist_nil_l|].
  destruct (get_channel s); [|apply sublist_nil_l].
  pose proof (step_rows_in_order N dry (length (p0 :: rest)) (worlds s) (p0 :: rest) 0 initial)
    as Hrows.
  destruct (loop N dry _ 0 (p0 :: rest) _ _) as [its st_f].
  cbn [before AddPatients.steps after fst] in *.
  rewrite appended_app,
    (appended_calls ([Call Start; Call IsUserAuthorized; Call GetMe] ++ [Call GetChannel])
                    eq_refl).
  rewrite appended_app, (appended_calls [Call Disconnect] eq_refl), app_nil_r. cbn [app].
  etrans; [exact Hrows|].
  etrans; [apply fmap_sublist, Hrem|].
  apply (fmap_sublist (fun p => Some (phone p))) in Hsub.
  rewrite <- list_fmap_compose in Hsub. exact Hsub.
Qed.

Lemma rows_follow_the_file_order_witness :
  sublist ((fun r : row => r !! "phone")
             <$> appended (trace (main_with 9999 false (clinic (fun _ => added)))))
          ((fun r => Some (patient_key r)) <$> clinic_rows).
Proof.
  exact (rows_follow_the_file_order 9999 false (clinic (fun _ => added)) clinic_rows eq_refl).
Defined.

End RowOrder.

(** ** The counters of the summary *)

Section PatientsSummary.

Import AddPatients.

Lemma tally_app s (r1 r2 : list row) : tally s (r1 ++ r2) = tally s r1 + tally s r2.
Proof. unfold tally. rewrite List.filter_app, List.length_app. lia. Qed.

Lemma tally_nil s : tally s [] = 0.
Proof. reflexivity. Qed.

Lemma tally_one s p status reason ts :
  tally s [result_row p status reason ts] = if bool_decide (status = s) then 1 else 0.
Proof.
  unfold tally. cbn [List.filter]. rewrite has_status_result_row.
  now destruct (bool_decide _).
Qed.

(** How the [try] block moves the counters, by the status it sets. *)
Lemma attempt_counters p w st :
  match snd (attempt p w st) with
  | Done status reason st' =>
      (status = "Success" /\ st' = succeeded st)
      \/ (status = "Failed" /\ (st' = failed st \/ st' = not_found st))
      \/ (status = "Skipped" /\ st' = member st)
  | Escaped _ => True
  end.
Proof.
  unfold attempt, resolve_phone_to_user, invite_step, invite_anyway.
  destruct (import_contacts w) as [[u|]|e0];
    [destruct (get_participant w) as [|e1];
       [|destruct (class e1); (destruct (invite_to_channel w) as [|e2];
                                [|destruct (class e2)])]| |];
    cbn [snd];
    first [ exact I
          | left; split; reflexivity
          | right; left; split; [reflexivity | left; reflexivity]
          | right; left; split; [reflexivity | right; reflexivity]
          | right; right; split; reflexivity ].
Qed.

Ltac count_rows :=
  rewrite ?appended_app, ?pause_no_rows; cbn [appended flat_map app];
  rewrite ?tally_app, ?tally_nil, ?tally_one;
  repeat first [ rewrite bool_decide_eq_false_2 by discriminate
               | rewrite bool_decide_eq_true_2 by reflexivity ];
  cbn [success_count fail_count not_on_telegram already_member count
       succeeded failed not_found member].

Lemma body_counters N total i p w st :
  let '(evs, st', ctl) := body N false total i p w st in
  success_count st' = success_count st + tally "Success" (appended evs)
  /\ count st' - count st = success_count st' - success_count st
  /\ already_member st' = already_member st + tally "Skipped" (appended evs)
  /\ fail_count st' + not_on_telegram st' + (if ctl is Break then 1 else 0)
     = fail_count st + not_on_telegram st + tally "Failed" (appended evs).
Proof.
  unfold body, finish.
  destruct (attempt_cases p w st) as (Hcalls & Hreq%appended_calls & _).
  pose proof (attempt_counters p w st) as Hout.
  pose proof (appended_calls _ (cleanup_calls w)) as Hclean.
  destruct (attempt p w st) as [calls out]. cbn [fst snd] in Hcalls, Hout. subst calls.
  destruct out as [status reason st'|e].
  - rewrite !appended_app, Hreq, Hclean, pause_no_rows.
    destruct Hout as [[-> ->]|[[-> [->| ->]]|[-> ->]]]; count_rows; lia.
  - destruct (class e) eqn:Hclass;
      lazymatch type of Hclass with
      | _ = PeerFloodError => rewrite !appended_app, Hreq; count_rows; lia
      | _ = FloodWaitError _ =>
          destruct (600 <? seconds);
          rewrite !appended_app, Hreq; count_rows; lia
      | _ => rewrite !appended_app, Hreq, Hclean, pause_no_rows; count_rows; lia
      end.
Qed.

Lemma loop_counters N total w remaining i st :
  let '(steps, st_f) := loop N false total i remaining w st in
  let rows := appended (flatten steps) in
  success_count st_f = success_count st + tally "Success" rows
  /\ count st_f - count st = success_count st_f - success_count st
  /\ already_member st_f = already_member st + tally "Skipped" rows
  /\ fail_count st_f + not_on_telegram st_f
     <= fail_count st + not_on_telegram st + tally "Failed" rows
     <= fail_count st_f + not_on_telegram st_f + 1.
Proof.
  revert i st. induction remaining as [|p rest IH]; intros i st.
  - cbn [loop]. cbv zeta. change (appended (flatten [])) with (@nil row).
    rewrite !tally_nil. lia.
  - rewrite loop_cons. destruct (N <=? count st).
    { cbv zeta. change (appended (flatten [])) with (@nil row). rewrite !tally_nil. lia. }
    pose proof (body_counters N total i p (w i) st) as Hbody.
    destruct (body N false total i p (w i) st) as [[evs st'] ctl].
    destruct ctl.
    + specialize (IH (S i) st').
      destruct (loop N false total (S i) rest w st') as [steps st_f].
      cbv zeta in *.
      change (flatten ((p, evs) :: steps)) with (evs ++ flatten steps).
      rewrite appended_app, !tally_app. lia.
    + cbv zeta. change (flatten [(p, evs)]) with (evs ++ []).
      rewrite app_nil_r. lia.
Qed.

(** X21. The counters that [add_patients_to_channel.py] prints in its
    summary, against the rows the run wrote (outside dry-run mode):
    "Successfully added" is the number of [Success] rows, and so is the count
    tested against the daily limit; "Already members" is the number of
    [Skipped] rows; "Not on Telegram" and "Failed" together are the number of
    [Failed] rows, or one less: the row written when throttling stops the
    run is counted nowhere. *)
Theorem summary_agrees_with_the_rows :
  forall N s st,
    summary (main_with N false s) = Some st ->
    let rows := appended (trace (main_with N false s)) in
    success_count st = tally "Success" rows
    /\ count st = success_count st
    /\ already_member st = tally "Skipped" rows
    /\ fail_count st + not_on_telegram st
       <= tally "Failed" rows
       <= fail_count st + not_on_telegram st + 1.
Proof.
  intros N s st. unfold main_with, stopped, trace.
  destruct (start s); [|discriminate].
  destruct (is_user_authorized s) as [[|]|]; try discriminate.
  destruct (get_me s); [|discriminate].
  destruct (read_patient_csv _) as [patients|]; [|discriminate].
  destruct (filter _ patients) as [|p0 rest]; [discriminate|].
  destruct (get_channel s); [|discriminate].
  pose proof (loop_counters N (length (p0 :: rest)) (worlds s) (p0 :: rest) 0 initial) as H.
  destruct (loop N false _ 0 (p0 :: rest) _ _) as [its st_f].
  cbn [summary before AddPatients.steps after]. intros [= <-]. cbv zeta in *.
  rewrite appended_app,
    (appended_calls ([Call Start; Call IsUserAuthorized; Call GetMe] ++ [Call GetChannel])
                    eq_refl).
  rewrite appended_app, (appended_calls [Call Disconnect] eq_refl), app_nil_r.
  cbn [app]. cbn [initial success_count fail_count not_on_telegram
                  already_member count] in H. lia.
Qed.

Lemma summary_agrees_with_the_rows_witness :
  let rows :=
    appended (trace (main_with 9999 false (clinic (first_then_added (refused PeerFloodError)))))
  in
  success_count initial = tally "Success" rows
  /\ count initial = success_count initial
  /\ already_member initial = tally "Skipped" rows
  /\ fail_count initial + not_on_telegram initial
     <= tally "Failed" rows
     <= fail_count initial + not_on_telegram initial + 1.
Proof.
  exact (summary_agrees_with_the_rows 9999
           (clinic (first_then_added (refused PeerFloodError))) initial eq_refl).
Defined.

End PatientsSummary.

Section InvitesSummary.

Import InviteUsers.

Lemma invite_has_status_result_row s u status reason ts :
  has_status s (result_row u status reason ts) = bool_decide (status = s).
Proof.
  unfold has_status.
  assert (H : result_row u status reason ts !! "status" = Some status) by reflexivity.
  rewrite H. apply bool_decide_ext. split; congruence.
Qed.

Lemma invite_tally_cons s u status reason ts rows :
  tally s (result_row u status reason ts :: rows)
  = (if bool_decide (status = s) then 1 else 0) + tally s rows.
Proof.
  unfold tally. cbn [List.filter]. rewrite invite_has_status_result_row.
  destruct (bool_decide _); cbn [length]; lia.
Qed.

Ltac decide_status :=
  repeat first [ rewrite bool_decide_eq_false_2 by discriminate
               | rewrite bool_decide_eq_true_2 by reflexivity ];
  cbn [success_count failure_count skipped_count]; lia.

(** The counter that an iteration moves is the one of the status it
    records. *)
Lemma invite_body_counters u w st :
  let st' := (body u w st).2 in
  let status := (verdict u w).1 in
  success_count st'
  = success_count st + (if bool_decide (status = "Success") then 1 else 0)
  /\ failure_count st'
     = failure_count st + (if bool_decide (status = "Failed") then 1 else 0)
  /\ skipped_count st'
     = skipped_count st + (if bool_decide (status = "Skipped") then 1 else 0)
  /\ success_count st' + failure_count st' + skipped_count st'
     = success_count st + failure_count st + skipped_count st + 1.
Proof.
  cbv zeta. unfold body, verdict.
  destruct (get_user_entity u w) as [calls [e|]]; cbn [fst snd]; [|decide_status].
  destruct (is_user_in_channel w); cbn [fst snd]; [decide_status|].
  pose proof (add_user_flood_wait w) as Hflood.
  destruct (add_user_to_channel w) as [[|] reason]; cbn [fst snd] in *; [decide_status|].
  rewrite Hflood. cbn [fst snd]. decide_status.
Qed.

Section Batches.

Variables (B D : Z) (users : list user) (w : nat -> world).

Lemma batch_loop_counters i batch st :
  let st' := (batch_loop i batch w st).2 in
  let rows := rows_of w i batch in
  success_count st' = success_count st + tally "Success" rows
  /\ failure_count st' = failure_count st + tally "Failed" rows
  /\ skipped_count st' = skipped_count st + tally "Skipped" rows
  /\ success_count st' + failure_count st' + skipped_count st'
     = success_count st + failure_count st + skipped_count st + Z.of_nat (length batch).
Proof.
  cbv zeta. revert i st. induction batch as [|u rest IH]; intros i st.
  - cbn [batch_loop rows_of snd length]. rewrite !tally_nil. lia.
  - cbn [batch_loop rows_of]. rewrite !invite_tally_cons.
    pose proof (invite_body_counters u (w i) st) as Hbody. cbv zeta in Hbody.
    destruct (body_row u (w i) st) as (st0 & Hb & _). rewrite Hb in *. cbn [snd] in Hbody.
    specialize (IH (S i) st0).
    destruct (batch_loop (S i) rest w st0) as [[steps results] st'].
    cbn [snd length] in *. lia.
Qed.

Lemma batches_counters starts st :
  let st' := (batches B D users w starts st).1.2 in
  let rows := flat_map (fun i => rows_of w i (chunk B users i)) starts in
  success_count st' = success_count st + tally "Success" rows
  /\ failure_count st' = failure_count st + tally "Failed" rows
  /\ skipped_count st' = skipped_count st + tally "Skipped" rows
  /\ success_count st' + failure_count st' + skipped_count st'
     = success_count st + failure_count st + skipped_count st
       + Z.of_nat (length (flat_map (chunk B users) starts)).
Proof.
  cbv zeta. revert st. induction starts as [|i later IH]; intros st.
  - cbn [batches flat_map fst snd length]. rewrite !tally_nil. lia.
  - cbn [batches flat_map]. fold (chunk B users i).
    pose proof (batch_loop_counters i (chunk B users i) st) as Hb. cbv zeta in Hb.
    destruct (batch_loop_all w i (chunk B users i) st) as (st0 & Hl).
    rewrite Hl in *. cbn [snd] in Hb.
    specialize (IH st0).
    destruct (batches B D users w later st0) as [[more st'] x].
    cbn [fst snd] in *. rewrite !tally_app, List.length_app. lia.
Qed.

Lemma batches_rows (starts : list nat) :
  appended (flat_map batch_trace (map (batch_of B D users w) starts))
  = flat_map (fun i => rows_of w i (chunk B users i)) starts.
Proof.
  induction starts as [|i later IH]; [reflexivity|].
  cbn [map flat_map]. rewrite appended_app, IH. unfold batch_trace at 1.
  rewrite appended_app.
  destruct (batch_of_rows B D users w i) as (-> & -> & _). reflexivity.
Qed.

End Batches.

(** X22. The counters of the summary of [invite_users_to_channel.py], with a
    positive batch size: "Successful", "Failed" and "Skipped" are the numbers
    of rows written with the status [Success], [Failed] and [Skipped], and
    together they are the number of loaded users. *)
Theorem invite_counters_agree_with_the_rows :
  forall B D users w,
    0 < B ->
    exists batches st,
      process B D users w = (batches, st, None)
      /\ let rows := appended (flat_map batch_trace batches) in
         success_count st = tally "Success" rows
         /\ failure_count st = tally "Failed" rows
         /\ skipped_count st = tally "Skipped" rows
         /\ success_count st + failure_count st + skipped_count st
            = Z.of_nat (length users).
Proof.
  intros B D users w HB. destruct (process_all B D users w HB) as (st & Hp).
  eexists _, st. split; [exact Hp|]. cbv zeta. rewrite batches_rows.
  pose proof (batches_counters B D users w (range_step (length users) (Z.to_nat B)) initial)
    as H.
  cbv zeta in H. unfold process in Hp.
  destruct (B =? 0) eqn:H0; [apply Z.eqb_eq in H0; lia|].
  destruct (B <? 0) eqn:Hneg; [apply Z.ltb_lt in Hneg; lia|].
  rewrite Hp in H. cbn [fst snd initial success_count failure_count skipped_count] in H.
  rewrite (chunks_cover B users HB) in H. lia.
Qed.

Lemma invite_counters_agree_with_the_rows_witness :
  exists batches st,
    process 10 5 [User "1" "" "" ""; User "2" "" "" ""]
      (fun i => match i with O => rejected PeerFloodError | _ => newcomer end)
    = (batches, st, None)
    /\ let rows := appended (flat_map batch_trace batches) in
       success_count st = tally "Success" rows
       /\ failure_count st = tally "Failed" rows
       /\ skipped_count st = tally "Skipped" rows
       /\ success_count st + failure_count st + skipped_count st
          = Z.of_nat (length [User "1" "" "" ""; User "2" "" "" ""]).
Proof.
  exact (invite_counters_agree_with_the_rows 10 5 [User "1" "" "" ""; User "2" "" "" ""]
           (fun i => match i with O => rejected PeerFloodError | _ => newcomer end) eq_refl).
Defined.

End InvitesSummary.

(** ** The batches of [invite_users_to_channel.py] *)

Section BatchStructure.

Import InviteUsers.

Lemma write_result_to_csv_no_sleep rows :
  List.filter is_sleep (write_result_to_csv rows) = [].
Proof. now destruct rows. Qed.

(** [i + BATCH_SIZE < total_users] holds of every batch start but the last
    one. *)
Lemma next_batch_start (n b j : nat) :
  (0 < b)%nat ->
  ((j * b + b < n)%nat <-> (S j < (n + b - 1) / b)%nat).
Proof.
  intros Hb.
  pose proof (Nat.div_mod (n + b - 1) b ltac:(lia)) as Hdiv.
  pose proof (Nat.mod_upper_bound (n + b - 1) b ltac:(lia)) as Hmod.
  set (q := ((n + b - 1) / b)%nat) in *. set (r := ((n + b - 1) mod b)%nat) in *.
  split; intros H; nia.
Qed.

(** X23. With a positive batch size, [invite_users_to_channel.py] makes
    [total_batches] batches (the number it prints, line 257); every batch
    holds at least one user and at most [BATCH_SIZE], every batch but the
    last exactly [BATCH_SIZE]; and the run sleeps [BATCH_DELAY] seconds
    after every batch but the last, and never after the last. *)
Theorem batches_are_full_but_the_last :
  forall B D users w,
    0 < B ->
    exists batches st,
      process B D users w = (batches, st, None)
      /\ length batches = ((length users + Z.to_nat B - 1) / Z.to_nat B)%nat
      /\ forall j b,
           batches !! j = Some b ->
           (1 <= length (members b) <= Z.to_nat B)%nat
           /\ List.filter is_sleep (flush b)
              = (if bool_decide (S j < length batches)%nat
                 then [Sleep (inject_Z D)] else [])
           /\ ((S j < length batches)%nat -> length (members b) = Z.to_nat B).
Proof.
  intros B D users w HB. destruct (process_all B D users w HB) as (st & Hp).
  eexists _, st. split; [exact Hp|].
  assert (Hb : (0 < Z.to_nat B)%nat) by lia.
  set (b := Z.to_nat B) in *. set (n := length users).
  assert (Hlen : length (map (batch_of B D users w) (range_step n b)) = ((n + b - 1) / b)%nat).
  { unfold range_step. now rewrite !length_map, length_seq. }
  split; [exact Hlen|]. rewrite Hlen.
  intros j bt Hj.
  apply list_lookup_fmap_Some in Hj as (i & -> & Hi).
  unfold range_step in Hi. apply list_lookup_fmap_Some in Hi as (j' & -> & Hj').
  apply lookup_seq in Hj' as [-> Hlt]. cbn [Nat.add] in *.
  pose proof (next_batch_start n b j Hb) as Hnext.
  cbn [members flush batch_of]. fold b.
  assert (Hm : length (steps_of w (j * b) (chunk B users (j * b)))
               = (b `min` (n - j * b))%nat).
  { rewrite <- (length_map fst), steps_of_users. unfold chunk. fold b.
    now rewrite length_take, length_drop. }
  rewrite Hm.
  assert (Hjb : (j * b < n)%nat).
  { pose proof (Nat.div_mod (n + b - 1) b ltac:(lia)) as Hdiv.
    pose proof (Nat.mod_upper_bound (n + b - 1) b ltac:(lia)) as Hmod. nia. }
  split; [lia|]. split.
  - rewrite List.filter_app, write_result_to_csv_no_sleep. cbn [app].
    destruct (_ <? _) eqn:Hc.
    + apply Z.ltb_lt in Hc. fold n in Hc.
      rewrite bool_decide_eq_true_2 by (apply Hnext; lia). reflexivity.
    + apply Z.ltb_ge in Hc. fold n in Hc. rewrite bool_decide_eq_false_2; [reflexivity|].
      intros H. apply Hnext in H. lia.
  - intros H. apply Hnext in H. lia.
Qed.

Lemma batches_are_full_but_the_last_witness :
  exists batches st,
    process 2 5 three_users (fun _ => newcomer) = (batches, st, None)
    /\ length batches = ((length three_users + Z.to_nat 2 - 1) / Z.to_nat 2)%nat
    /\ forall j b,
         batches !! j = Some b ->
         (1 <= length (members b) <= Z.to_nat 2)%nat
         /\ List.filter is_sleep (flush b)
            = (if bool_decide (S j < length batches)%nat
               then [Sleep (inject_Z 5)] else [])
         /\ ((S j < length batches)%nat -> length (members b) = Z.to_nat 2).
Proof.
  exact (batches_are_full_but_the_last 2 5 three_users (fun _ => newcomer) eq_refl).
Defined.



End BatchStructure.

(** ** The messages of [safe_dm_invite.py] *)

Section Replacing.

Local Open Scope nat_scope.

Lemma app_empty_r (s : string) : s +:+ "" = s.
Proof. induction s as [|c s IH]; [reflexivity|]. rewrite app_String. now f_equal. Qed.

(** [replace] passes over a stretch in which the first character of [old]
    does not occur. *)
Lemma replace_passes (a : char) (old new pre s : string) :
  Py.all_chars (fun c => negb (N.eqb a c)) pre = true ->
  Py.replace (String a old) new (pre +:+ s) = pre +:+ Py.replace (String a old) new s.
Proof.
  unfold Py.replace. induction pre as [|c pre IH]; [reflexivity|].
  cbn [Py.all_chars]. intros [Hc Hpre]%andb_true_iff.
  apply negb_true_iff, N.eqb_neq in Hc.
  rewrite !app_String. cbn [Py.replace_from Py.startswith].
  rewrite (proj2 (N.eqb_neq a c) Hc). cbn [andb].
  f_equal. now apply IH.
Qed.

Lemma replace_from_skip (old new t s : string) :
  Py.replace_from old new (Py.len t) (t +:+ s) = Py.replace_from old new 0 s.
Proof.
  induction t as [|c t IH]; [reflexivity|].
  rewrite app_String. cbn [Py.len Py.replace_from]. exact IH.
Qed.

(** An occurrence of [old] at the front is replaced, and the search goes on
    behind it. *)
Lemma replace_match (a : char) (old new s : string) :
  Py.replace (String a old) new (String a old +:+ s)
  = new +:+ Py.replace (String a old) new s.
Proof.
  unfold Py.replace. rewrite app_String.
  change (Py.replace_from (String a old) new 0 (String a (old +:+ s)))
    with (if Py.startswith (String a old) (String a (old +:+ s))
          then new +:+ Py.replace_from (String a old) new
                         (Py.len (String a old) - 1) (old +:+ s)
          else String a (Py.replace_from (String a old) new 0 (old +:+ s))).
  rewrite <- (app_String a old s), prefix_app.
  cbn [Py.len Nat.sub]. rewrite Nat.sub_0_r. now rewrite replace_from_skip.
Qed.

Lemma replace_nothing (a : char) (old new s : string) :
  Py.all_chars (fun c => negb (N.eqb a c)) s = true ->
  Py.replace (String a old) new s = s.
Proof.
  intros Hs. rewrite <- (app_empty_r s) at 1. rewrite replace_passes by exact Hs.
  apply app_empty_r.
Qed.

End Replacing.

Section Messages.

Import SafeDM.

(** X25. [load_messages] never returns an empty list, whatever the file
    holds, so that [random.choice] always finds a message; and every message
    it returns is non-empty and has no surrounding whitespace. *)
Theorem load_messages_never_empty :
  forall (messages_file : option (list string)),
    load_messages messages_file <> []
    /\ (forall m, m ∈ load_messages messages_file -> m <> "" /\ Py.strip m = m)
    /\ (forall raw, is_Some (Py.choice (load_messages messages_file) raw)).
Proof.
  intros file.
  assert (Hne : load_messages file <> []).
  { unfold load_messages. destruct file as [lines|]; [|discriminate].
    destruct (map _ _); discriminate. }
  split; [exact Hne|]. split.
  - intros m. unfold load_messages.
    assert (Hdefault : m ∈ ["Hello! Join our channel here: {link}"] ->
                       m <> "" /\ Py.strip m = m).
    { intros ->%list_elem_of_singleton. split; [discriminate | reflexivity]. }
    destruct file as [lines|]; [|exact Hdefault].
    destruct (map _ _) as [|m0 msgs] eqn:Hmsgs; [exact Hdefault|].
    rewrite <- Hmsgs. intros Hm. apply list_elem_of_In, in_map_iff in Hm as (line & <- & Hin).
    apply filter_In in Hin as [_ Ht]. split; [now apply truthy_nonempty | apply strip_twice].
  - intros raw. apply lookup_lt_is_Some.
    destruct (load_messages file) as [|m ms]; [congruence|].
    pose proof (Z.mod_pos_bound raw (Z.of_nat (length (m :: ms)))
                  ltac:(cbn [length]; lia)). lia.
Qed.

Lemma load_messages_never_empty_witness :
  load_messages (Some ["  Hi {first_name}  "; ""; "Join: {link}"]) <> []
  /\ ("Hi {first_name}" <> "" /\ Py.strip "Hi {first_name}" = "Hi {first_name}")
  /\ is_Some (Py.choice (load_messages (Some ["  Hi {first_name}  "; ""; "Join: {link}"])) 5).
Proof.
  pose (H := load_messages_never_empty (Some ["  Hi {first_name}  "; ""; "Join: {link}"])).
  exact (conj (proj1 H)
           (conj (proj1 (proj2 H) "Hi {first_name}" (list_elem_of_here _ ["Join: {link}"]))
                 (proj2 (proj2 H) 5))).
Defined.

(** The lookups of lines 158-169 are requests for an entity. *)
Lemma resolve_lookups user w c :
  Call c ∈ fst (resolve user w) ->
  (exists name, c = GetEntityByName name) \/ (exists n, c = GetEntityById n).
Proof.
  unfold resolve.
  destruct (get_field user "username" None) as [username|];
    [destruct (Py.truthy username)|];
    cbn [fst snd];
    try (destruct (get_entity_by_name w); cbn [fst snd]);
    try (destruct (get_field user "user_id" None) as [uid|];
         [destruct (Py.truthy uid); [destruct (Py.int uid)|]|]);
    cbn [fst snd app]; intros H;
    repeat (apply elem_of_cons in H as [[= ->]|H]); eauto; inversion H.
Qed.

(** The only message among the requests of an item is the one with the text
    built for it. *)
Lemma sending_message text user w ent text' :
  Call (SendMessage ent text') ∈ sending text user w -> text' = text.
Proof.
  unfold sending. destruct (snd (resolve user w)) as [e|].
  - intros [H|H]%elem_of_app.
    + apply resolve_lookups in H as [[name H]|[n H]]; discriminate.
    + apply list_elem_of_singleton in H. congruence.
  - intros H. apply resolve_lookups in H as [[name H]|[n H]]; discriminate.
Qed.

Lemma dm_iteration_message N dry text user w count evs count' ctl ent text' :
  dm_iteration N dry text user w count evs count' ctl ->
  Call (SendMessage ent text') ∈ evs -> text' = text.
Proof.
  intros [Hdry|e Hdry He Hc|e wait Hdry He Hc|status reason count'' Hdry He Hst] H.
  - apply list_elem_of_singleton in H. discriminate.
  - apply elem_of_app in H as [H|H]; [exact (sending_message _ _ _ _ _ H)|].
    apply list_elem_of_singleton in H. discriminate.
  - exact (sending_message _ _ _ _ _ H).
  - apply elem_of_app in H as [H|H]; [exact (sending_message _ _ _ _ _ H)|].
    apply elem_of_cons in H as [H|H]; [discriminate|].
    unfold dm_pause in H. destruct (count'' <? N); [|inversion H].
    apply list_elem_of_singleton in H. discriminate.
Qed.

(** X26. The text that is sent. Every message that the loop of
    [safe_dm_invite.py] sends for an item carries the template drawn from
    the list of messages for that item, in which [{link}] was replaced by
    the configured link, or by ['[LINK]'] when none is set, and then
    [{first_name}] by the first name of the row (['Friend'] when the file
    has no such column). For a template whose only brace opens the
    placeholder [{link}], the default message being one, and a link without
    a brace, this text is the template with the link in the place of the
    placeholder, whatever the first name. For a row that has [None] for a
    first name no text is built: a [TypeError] is raised. *)
Theorem link_placeholder_is_filled :
  (forall N dry messages link i users w count k user evs ent text,
      (loop N dry messages link i users w count).1.1 !! k = Some (user, evs) ->
      Call (SendMessage ent text) ∈ evs ->
      exists template first_name,
        Py.choice messages (choice_draw (w (i + k)%nat)) = Some template
        /\ template ∈ messages
        /\ get_field user "first_name" (Some "Friend") = Some first_name
        /\ text = Py.replace "{first_name}" first_name
                    (Py.replace "{link}" (link_or_default link) template))
  /\ (forall (messages : list string) (raw : Z) (link : option string)
             (pre post first_name : string),
        Py.choice messages raw = Some (pre +:+ "{link}" +:+ post) ->
        Py.all_chars (fun c => negb (N.eqb "{"%chr c))
                     (pre +:+ link_or_default link +:+ post) = true ->
        message_text messages raw link (Some first_name)
        = Ok (pre +:+ link_or_default link +:+ post))
  /\ (forall (messages : list string) (raw : Z) (link : option string),
        messages <> [] ->
        exists e, message_text messages raw link None = Raise e /\ class e = TypeError).
Proof.
  split; [|split].
  - intros N dry ms link i users w count k user evs ent text Hk Hin.
    destruct (dm_loop_lookup _ _ _ _ _ _ _ _ _ _ _ Hk)
      as (c_k & _ & _ & _
          & [(e & _ & -> & _)|(text' & c' & ctl & Htext & Hit & _)]);
      [inversion Hin|].
    rewrite (dm_iteration_message _ _ _ _ _ _ _ _ _ _ _ Hit Hin).
    unfold text_for, message_text in Htext. fold (link_or_default link) in Htext.
    destruct (Py.choice ms _) as [template|] eqn:Hchoice; [|discriminate].
    destruct (get_field user "first_name" _) as [first_name|]; [|discriminate].
    injection Htext as <-. exists template, first_name.
    split; [reflexivity|]. split; [|split; reflexivity].
    unfold Py.choice in Hchoice. eapply list_elem_of_lookup_2. exact Hchoice.
  - intros ms raw link pre post first_name Hchoice Hall. unfold message_text.
    rewrite Hchoice. fold (link_or_default link). f_equal.
    pose proof Hall as Hparts. rewrite !all_chars_app in Hparts.
    apply andb_true_iff in Hparts as [Hpre [Hlink Hpost]%andb_true_iff].
    rewrite (replace_passes "{" "link}" _ pre) by exact Hpre.
    rewrite (replace_match "{" "link}"), (replace_nothing "{" "link}") by exact Hpost.
    now apply replace_nothing.
  - intros ms raw link Hne.
    pose proof (message_text_cases ms raw link None) as Hc.
    destruct (message_text ms raw link None) as [text|e].
    + now destruct Hc.
    + exists e. split; [reflexivity|]. destruct Hc as [[Hnil _]|(_ & _ & Hclass)];
        [contradiction | exact Hclass].
Qed.

Lemma link_placeholder_is_filled_witness :
  (exists template first_name,
      Py.choice (load_messages None) (choice_draw delivered) = Some template
      /\ template ∈ load_messages None
      /\ get_field (fields [("user_id", "1"); ("username", ""); ("first_name", "Abebe")])
           "first_name" (Some "Friend") = Some first_name
      /\ default_text
         = Py.replace "{first_name}" first_name
             (Py.replace "{link}" (link_or_default None) template))
  /\ message_text (load_messages None) 7 (Some "https://t.me/clinic") (Some "Abebe")
     = Ok "Hello! Join our channel here: https://t.me/clinic"
  /\ exists e,
       message_text (load_messages None) 7 (Some "https://t.me/clinic") None = Raise e
       /\ class e = TypeError.
Proof.
  split; [|split].
  - refine (proj1 link_placeholder_is_filled 35 false (load_messages None) None 0%nat
              dm_rows (fun _ => delivered) 0 0%nat
              (fields [("user_id", "1"); ("username", ""); ("first_name", "Abebe")])
              (deliver 35 false default_text
                 (fields [("user_id", "1"); ("username", ""); ("first_name", "Abebe")])
                 delivered 0).1.1
              1 default_text eq_refl _).
    exact (list_elem_of_further _ _ _ (list_elem_of_here _ _)).
  - exact (proj1 (proj2 link_placeholder_is_filled) (load_messages None) 7
             (Some "https://t.me/clinic") "Hello! Join our channel here: " "" "Abebe"
             eq_refl eq_refl).
  - refine (proj2 (proj2 link_placeholder_is_filled) (load_messages None) 7
              (Some "https://t.me/clinic") _).
    discriminate.
Defined.

End Messages.

(** ** The lookups *)

Section Lookups.

(** X27. What the two scripts that look users up ask for:
    [get_user_entity] asks for the name without leading ['@'] and
    surrounding whitespace, when that is not empty, and for the id as
    [int] reads it, in at most three requests; the lookup of
    [safe_dm_invite.py] asks for the name as it stands, when it is not
    empty, and for the id as [int] reads it, in at most two requests. An id
    that is not a number is never looked up. *)
Theorem lookups_use_the_parsed_id :
  (forall u w c,
      Call c ∈ fst (InviteUsers.get_user_entity u w) ->
      (c = GetEntityByName (Py.strip (Py.lstrip_char "@" (InviteUsers.username u)))
       /\ Py.strip (Py.lstrip_char "@" (InviteUsers.username u)) <> "")
      \/ (exists n, c = GetEntityById n /\ Py.int (InviteUsers.user_id u) = Some n))
  /\ (forall u w, (length (fst (InviteUsers.get_user_entity u w)) <= 3)%nat)
  /\ (forall user w c,
        Call c ∈ fst (SafeDM.resolve user w) ->
        (exists name, c = GetEntityByName name
                      /\ get_field user "username" None = Some name /\ name <> "")
        \/ (exists uid n, c = GetEntityById n
                          /\ get_field user "user_id" None = Some uid
                          /\ Py.int uid = Some n))
  /\ (forall user w, (length (fst (SafeDM.resolve user w)) <= 2)%nat).
Proof.
  split; [|split; [|split]].
  - exact get_user_entity_lookups.
  - intros u w. unfold InviteUsers.get_user_entity.
    destruct (get_by_id_lookups u w) as [_ Hl].
    destruct (Py.truthy (InviteUsers.username u)); [|lia].
    destruct (Py.truthy _); [|lia].
    destruct (InviteUsers.get_entity_by_name w); [cbn; lia|].
    destruct (InviteUsers.get_by_id u w) as [calls found]. cbn [fst length] in *. lia.
  - intros user w c. unfold SafeDM.resolve.
    destruct (get_field user "username" None) as [username|]; [destruct (Py.truthy username) eqn:Hname|];
      cbn [fst snd];
      try (destruct (SafeDM.get_entity_by_name w);
           [intros [= ->]%list_elem_of_singleton; left; exists username;
            split; [reflexivity|]; split; [reflexivity | now apply truthy_nonempty]|]);
      (destruct (get_field user "user_id" None) as [uid|]; [destruct (Py.truthy uid)|];
       try (destruct (Py.int uid) as [n|] eqn:Hint); cbn [app];
       intros Hin;
       repeat (apply elem_of_cons in Hin as [[= ->]|Hin]);
       try (inversion Hin; fail);
       first [ left; exists username; split; [reflexivity|]; split;
               [reflexivity | now apply truthy_nonempty]
             | right; eauto ]).
  - intros user w. unfold SafeDM.resolve.
    destruct (get_field user "username" None) as [username|]; [destruct (Py.truthy username)|];
      cbn [fst snd];
      try (destruct (SafeDM.get_entity_by_name w); [cbn; lia|]);
      (destruct (get_field user "user_id" None) as [uid|]; [destruct (Py.truthy uid)|];
       try (destruct (Py.int uid)); cbn; lia).
Qed.

Lemma lookups_use_the_parsed_id_witness :
  ((GetEntityById 1
    = GetEntityByName (Py.strip (Py.lstrip_char "@" (InviteUsers.username
                                                      (InviteUsers.User "1" "" "" ""))))
    /\ Py.strip (Py.lstrip_char "@" (InviteUsers.username (InviteUsers.User "1" "" "" "")))
       <> "")
   \/ (exists n, GetEntityById 1 = GetEntityById n
                 /\ Py.int (InviteUsers.user_id (InviteUsers.User "1" "" "" "")) = Some n))
  /\ (length (fst (InviteUsers.get_user_entity (InviteUsers.User "1" "" "" "") newcomer))
      <= 3)%nat
  /\ ((exists name, GetEntityById 1 = GetEntityByName name
                    /\ get_field (fields [("user_id", "1"); ("username", "")]) "username"
                         None = Some name
                    /\ name <> "")
      \/ (exists uid n, GetEntityById 1 = GetEntityById n
                        /\ get_field (fields [("user_id", "1"); ("username", "")]) "user_id"
                             None = Some uid
                        /\ Py.int uid = Some n))
  /\ (length (fst (SafeDM.resolve (fields [("user_id", "1"); ("username", "")]) delivered))
      <= 2)%nat.
Proof.
  split; [|split; [|split]].
  - refine (proj1 lookups_use_the_parsed_id (InviteUsers.User "1" "" "" "") newcomer
              (GetEntityById 1) _).
    exact (list_elem_of_here _ []).
  - exact (proj1 (proj2 lookups_use_the_parsed_id) (InviteUsers.User "1" "" "" "") newcomer).
  - refine (proj1 (proj2 (proj2 lookups_use_the_parsed_id))
              (fields [("user_id", "1"); ("username", "")]) delivered (GetEntityById 1) _).
    exact (list_elem_of_here _ []).
  - exact (proj2 (proj2 (proj2 lookups_use_the_parsed_id))
             (fields [("user_id", "1"); ("username", "")]) delivered).
Defined.

End Lookups.

(** ** The configuration *)

Section Configuration.






End Configuration.
